(** * LibreLink MCP server: the glucose analytics engine

    A shallow embedding of [src/glucose-analytics.ts] (class
    [GlucoseAnalytics]) together with the record types of [src/types.ts]
    it works on, and the properties of the analytics stated in the
    specification; then of the configuration manager of [src/config.ts], of
    the cache and the current-glucose path of [src/librelink-client.ts] and
    of the error handler of [src/index.ts], with properties read off the
    code.

    Numbers.  A JavaScript [number] is a binary64 floating-point number,
    and the analytics are embedded twice.  The first embedding computes
    with exact rationals [Q]: a glucose value and a target bound are finite
    by type, the sign of zero is not modelled, and the one division of the
    analytics whose divisor can vanish (standard deviation over average) is
    modelled with the special values [NaN], [Infinity] and [-Infinity] of
    JavaScript, type [number] below; [Math.sqrt] is a parameter of the
    development.  On whole-number readings the sums and the comparisons of
    binary64 are those of the rationals; a quotient is rounded by binary64,
    so that a field rounded to two decimals is a nearest hundredth of the
    exact quantity, either of the two at a tie, and a test of a computed
    mean against a threshold can go either way when the exact mean sits on
    the threshold.  The second embedding, module [Binary64], computes with
    the primitive floats of Rocq, whose operations are those of IEEE 754
    binary64; it decides these cases. *)

From Stdlib Require Import ZArith QArith Qabs Qround Qpower Lqa Lia List String DecimalString.
From Stdlib Require Import Floats.
From stdpp Require Import gmap.
Import ListNotations.
Set Warnings "-inexact-float".
Local Open Scope string_scope.
Local Open Scope list_scope.
Local Open Scope Q_scope.

(** ** JavaScript numbers *)

Inductive number : Type :=
| Finite (q : Q)
| NaN
| Infinity
| NegInfinity.

(** [x < y], [x <= y], [x > y], [x >= y] on finite numbers. *)
Definition Qltb (x y : Q) : bool :=
  match x ?= y with Lt => true | _ => false end.

Definition Qleb (x y : Q) : bool :=
  match x ?= y with Gt => false | _ => true end.

Definition Qgtb (x y : Q) : bool := Qltb y x.

Definition Qgeb (x y : Q) : bool := Qleb y x.

(** [x / y] of JavaScript: a finite quotient when the divisor is not zero,
    [NaN] for 0/0, an infinity of the sign of the dividend otherwise. *)
Definition num_div (x y : number) : number :=
  match x, y with
  | NaN, _ | _, NaN => NaN
  | Finite a, Finite b =>
      if Qeq_bool b 0 then
        match a ?= 0 with Eq => NaN | Gt => Infinity | Lt => NegInfinity end
      else Finite (a / b)
  | Finite _, (Infinity | NegInfinity) => Finite 0
  | Infinity, Finite b => if Qleb 0 b then Infinity else NegInfinity
  | NegInfinity, Finite b => if Qleb 0 b then NegInfinity else Infinity
  | (Infinity | NegInfinity), (Infinity | NegInfinity) => NaN
  end.

(** [x * y] of JavaScript. *)
Definition num_mul (x y : number) : number :=
  match x, y with
  | NaN, _ | _, NaN => NaN
  | Finite a, Finite b => Finite (a * b)
  | Finite a, Infinity | Infinity, Finite a =>
      match a ?= 0 with Eq => NaN | Gt => Infinity | Lt => NegInfinity end
  | Finite a, NegInfinity | NegInfinity, Finite a =>
      match a ?= 0 with Eq => NaN | Gt => NegInfinity | Lt => Infinity end
  | Infinity, Infinity | NegInfinity, NegInfinity => Infinity
  | Infinity, NegInfinity | NegInfinity, Infinity => NaN
  end.

(** [x <= y] of JavaScript: false as soon as one side is [NaN]. *)
Definition num_leb (x y : number) : bool :=
  match x, y with
  | NaN, _ | _, NaN => false
  | Finite a, Finite b => Qleb a b
  | NegInfinity, _ | _, Infinity => true
  | _, _ => false
  end.

(** [Math.round]: the nearest integer, a tie going up. *)
Definition Math_round (x : Q) : Q := inject_Z (Qfloor (x + (1 # 2))).

Definition num_round (x : number) : number :=
  match x with
  | Finite a => Finite (Math_round a)
  | _ => x
  end.

(** [Math.pow] at an integer exponent. *)
Definition Math_pow (x : Q) (n : Z) : Q := x ^ n.

(** [xs.length] as a number. *)
Definition Qlength {A : Type} (xs : list A) : Q := inject_Z (Z.of_nat (length xs)).

(** The template literal [`${n}`] at a count. *)
Definition toString (n : nat) : string := NilZero.string_of_uint (Nat.to_uint n).

(** ** The records of [types.ts] *)

Inductive TrendType : Type :=
| FLAT | FORTY_FIVE_UP | SINGLE_UP | DOUBLE_UP
| FORTY_FIVE_DOWN | SINGLE_DOWN | DOUBLE_DOWN.

(** A [Date]; the analytics observe its local hour only. *)
Record Date : Type := mkDate { getHours : nat }.

Record GlucoseReading : Type := mkReading {
  value : Q;
  timestamp : Date;
  trend : TrendType;
  isHigh : bool;
  isLow : bool;
  color : string
}.

Inductive Region : Type := US | EU.

Record Credentials : Type := mkCredentials { email : string; password : string }.

Record ClientInfo : Type := mkClientInfo { version : string; region : Region }.

Record CacheConfig : Type := mkCacheConfig { enabled : bool; ttl_minutes : Q }.

Record Ranges : Type := mkRanges { target_low : Q; target_high : Q }.

Record LibreLinkConfig : Type := mkConfig {
  credentials : Credentials;
  client : ClientInfo;
  cache : CacheConfig;
  ranges : Ranges
}.

Record GlucoseStats : Type := mkStats {
  average : Q;
  gmi : Q;
  timeInRange : Q;
  timeBelowRange : Q;
  timeAboveRange : Q;
  standardDeviation : Q;
  coefficientOfVariation : number
}.

Record TrendAnalysis : Type := mkTrends {
  patterns : list string;
  dawnPhenomenon : bool;
  mealResponse : Q;
  overnightStability : Q
}.

Inductive Period : Type := daily | weekly | monthly.

(** ** Exceptions *)

Record Error : Type := mkError { message : string }.

Inductive result (A : Type) : Type :=
| Return (a : A)
| Throw (e : Error).

Arguments Return {A} a.
Arguments Throw {A} e.

Definition bind {A B : Type} (r : result A) (k : A -> result B) : result B :=
  match r with
  | Return a => k a
  | Throw e => Throw e
  end.

(** ** The class [GlucoseAnalytics] *)

Record GlucoseAnalytics : Type := mkAnalytics { config : LibreLinkConfig }.

Section Analytics.

Variable Math_sqrt : Q -> Q.

Definition calculateGlucoseStats (this : GlucoseAnalytics)
    (readings : list GlucoseReading) : result GlucoseStats :=
  if Nat.eqb (length readings) 0 then
    Throw (mkError "No glucose readings provided for analysis")
  else
    let values := map value readings in
    let total := fold_left (fun sum val => sum + val) values 0 in
    let average := total / Qlength values in
    let variance :=
      fold_left (fun sum val => sum + Math_pow (val - average) 2) values 0
      / Qlength values in
    let standardDeviation := Math_sqrt variance in
    let coefficientOfVariation :=
      num_mul (num_div (Finite standardDeviation) (Finite average)) (Finite 100) in
    let gmi := 3.31 + (0.02392 * average) in
    let inRange := Qlength (List.filter (fun r =>
      Qgeb (value r) (target_low (ranges (config this)))
      && Qleb (value r) (target_high (ranges (config this)))) readings) in
    let belowRange := Qlength (List.filter (fun r =>
      Qltb (value r) (target_low (ranges (config this)))) readings) in
    let aboveRange := Qlength (List.filter (fun r =>
      Qgtb (value r) (target_high (ranges (config this)))) readings) in
    let timeInRange := (inRange / Qlength readings) * 100 in
    let timeBelowRange := (belowRange / Qlength readings) * 100 in
    let timeAboveRange := (aboveRange / Qlength readings) * 100 in
    Return {|
      average := Math_round (average * 100) / 100;
      gmi := Math_round (gmi * 100) / 100;
      timeInRange := Math_round (timeInRange * 100) / 100;
      timeBelowRange := Math_round (timeBelowRange * 100) / 100;
      timeAboveRange := Math_round (timeAboveRange * 100) / 100;
      standardDeviation := Math_round (standardDeviation * 100) / 100;
      coefficientOfVariation :=
        num_div (num_round (num_mul coefficientOfVariation (Finite 100))) (Finite 100)
    |}.

(** [detectDawnPhenomenon], the body of the first [forEach]: the values of
    the readings are appended to the entry of their hour, an entry being
    created empty the first time its hour is met. *)
Definition groupByHour (hourlyReadings : gmap nat (list Q))
    (reading : GlucoseReading) : gmap nat (list Q) :=
  let hour := getHours (timestamp reading) in
  let hourlyReadings :=
    match hourlyReadings !! hour with
    | None => <[hour := []]> hourlyReadings
    | Some _ => hourlyReadings
    end in
  alter (fun values => values ++ [value reading]) hour hourlyReadings.

(** [m.get(k) || 0]: zero when the key is absent or the entry is falsy. *)
Definition getOrZero (m : gmap nat Q) (k : nat) : Q :=
  match m !! k with
  | Some a => if Qeq_bool a 0 then 0 else a
  | None => 0
  end.

Definition detectDawnPhenomenon (this : GlucoseAnalytics)
    (readings : list GlucoseReading) : bool :=
  let hourlyReadings := fold_left groupByHour readings ∅ in
  let hourlyAverages :=
    fmap (M := gmap nat) (fun values =>
      fold_left (fun sum val => sum + val) values 0 / Qlength values)
      hourlyReadings in
  let dawn4AM := getOrZero hourlyAverages 4 in
  let dawn6AM := getOrZero hourlyAverages 6 in
  let dawn8AM := getOrZero hourlyAverages 8 in
  Qgtb (dawn8AM - dawn4AM) 20 || Qgtb (dawn6AM - dawn4AM) 15.

(** [readings[i].value]; the loop below reads inside the array only. *)
Definition valueAt (readings : list GlucoseReading) (i : nat) : Q :=
  match readings !! i with
  | Some r => value r
  | None => 0
  end.

(** [calculateMealResponse], the body of the loop on the state
    [(totalSpikes, spikeCount)]. *)
Definition mealStep (readings : list GlucoseReading) (st : Q * nat) (i : nat)
    : Q * nat :=
  let '(totalSpikes, spikeCount) := st in
  let current := valueAt readings i in
  let previous := valueAt readings (i - 1) in
  let next := valueAt readings (i + 1) in
  if Qgtb current (previous + 30) && Qgtb current (next + 15) then
    (totalSpikes + (current - previous), S spikeCount)
  else st.

(** The loop [for (let i = 1; i < readings.length - 1; i++)]. *)
Definition mealLoop (readings : list GlucoseReading) : Q * nat :=
  fold_left (mealStep readings) (seq 1 (length readings - 2)) (0, O).

Definition calculateMealResponse (this : GlucoseAnalytics)
    (readings : list GlucoseReading) : Q :=
  let '(totalSpikes, spikeCount) := mealLoop readings in
  if Nat.ltb 0 spikeCount then totalSpikes / inject_Z (Z.of_nat spikeCount)
  else 0.

Definition calculateOvernightStability (this : GlucoseAnalytics)
    (readings : list GlucoseReading) : Q :=
  let overnightReadings := List.filter (fun reading =>
    let hour := getHours (timestamp reading) in
    Nat.leb 23 hour || Nat.leb hour 6) readings in
  if Nat.ltb (length overnightReadings) 2 then 0
  else
    let values := map value overnightReadings in
    let average := fold_left (fun sum val => sum + val) values 0 / Qlength values in
    let variance :=
      fold_left (fun sum val => sum + Math_pow (val - average) 2) values 0
      / Qlength values in
    Math_sqrt variance.

(** [detectHypoglycemicEpisodes], the body of the [forEach] on the state
    [(episodes, inEpisode)]. *)
Definition hypoStep (this : GlucoseAnalytics) (st : nat * bool)
    (reading : GlucoseReading) : nat * bool :=
  let '(episodes, inEpisode) := st in
  if Qltb (value reading) (target_low (ranges (config this))) then
    if negb inEpisode then (S episodes, true) else st
  else if Qgtb (value reading) (target_low (ranges (config this)) + 10) then
    (episodes, false)
  else st.

Definition detectHypoglycemicEpisodes (this : GlucoseAnalytics)
    (readings : list GlucoseReading) : nat :=
  fst (fold_left (hypoStep this) readings (O, false)).

(** [detectHyperglycemicPeriods], the body of the [forEach] on the state
    [(periods, consecutiveHigh)]. *)
Definition hyperStep (this : GlucoseAnalytics) (st : nat * nat)
    (reading : GlucoseReading) : nat * nat :=
  let '(periods, consecutiveHigh) := st in
  if Qgtb (value reading) (target_high (ranges (config this))) then
    (periods, S consecutiveHigh)
  else
    ((if Nat.leb 6 consecutiveHigh then S periods else periods), O).

Definition detectHyperglycemicPeriods (this : GlucoseAnalytics)
    (readings : list GlucoseReading) : nat :=
  let '(periods, consecutiveHigh) :=
    fold_left (hyperStep this) readings (O, O) in
  if Nat.leb 6 consecutiveHigh then S periods else periods.

(** [if (c) patterns.push(s)]. *)
Definition pushIf (c : bool) (s : string) (patterns : list string) : list string :=
  if c then patterns ++ [s] else patterns.

Definition analyzeTrends (this : GlucoseAnalytics)
    (readings : list GlucoseReading) (period : Period) : result TrendAnalysis :=
  if Nat.eqb (length readings) 0 then
    Throw (mkError "No glucose readings provided for trend analysis")
  else
    let patterns := [] in
    let dawnPhenomenon := detectDawnPhenomenon this readings in
    let patterns := pushIf dawnPhenomenon
      "Dawn phenomenon detected - glucose rises in early morning hours" patterns in
    let mealResponse := calculateMealResponse this readings in
    let patterns :=
      if Qgtb mealResponse 50 then
        patterns ++ ["High postprandial glucose response detected"]
      else if Qltb mealResponse 20 then
        patterns ++ ["Good postprandial glucose control"]
      else patterns in
    let overnightStability := calculateOvernightStability this readings in
    let patterns :=
      if Qltb overnightStability 10 then
        patterns ++ ["Excellent overnight glucose stability"]
      else if Qgtb overnightStability 30 then
        patterns ++ ["High overnight glucose variability"]
      else patterns in
    let hypoEpisodes := detectHypoglycemicEpisodes this readings in
    let patterns := pushIf (Nat.ltb 0 hypoEpisodes)
      (toString hypoEpisodes ++ " hypoglycemic episode(s) detected")%string patterns in
    let hyperPeriods := detectHyperglycemicPeriods this readings in
    let patterns := pushIf (Nat.ltb 0 hyperPeriods)
      (toString hyperPeriods ++ " extended hyperglycemic period(s) detected")%string patterns in
    Return {|
      patterns := patterns;
      dawnPhenomenon := dawnPhenomenon;
      mealResponse := Math_round (mealResponse * 100) / 100;
      overnightStability := Math_round (overnightStability * 100) / 100
    |}.

Definition generateInsights (this : GlucoseAnalytics)
    (readings : list GlucoseReading) : result (list string) :=
  bind (calculateGlucoseStats this readings) (fun stats =>
  bind (analyzeTrends this readings weekly) (fun trends =>
    let insights := [] in
    let insights :=
      if Qgeb (timeInRange stats) 70 then
        insights ++ ["Excellent glucose control - time in range above 70%"]
      else if Qgeb (timeInRange stats) 50 then
        insights ++ ["Good glucose control - consider optimizing to reach 70% time in range"]
      else
        insights ++ ["Glucose control needs improvement - focus on reducing time above/below range"] in
    let insights :=
      if num_leb (coefficientOfVariation stats) (Finite 33) then
        insights ++ ["Low glucose variability - excellent stability"]
      else if num_leb (coefficientOfVariation stats) (Finite 36) then
        insights ++ ["Moderate glucose variability - room for improvement"]
      else
        insights ++ ["High glucose variability - consider strategies to improve stability"] in
    let insights :=
      if Qltb (gmi stats) 7.0 then
        insights ++ ["GMI indicates excellent glucose management"]
      else if Qltb (gmi stats) 8.0 then
        insights ++ ["GMI indicates good glucose management with room for improvement"]
      else
        insights ++ ["GMI suggests glucose management needs significant improvement"] in
    Return insights)).

End Analytics.

(** ** [calculateGlucoseStats] on the heap

    The same method with its arrays in a heap, to state that it leaves its
    argument alone.  An array is an object of the heap and a reference is
    its index; [map] and [filter] allocate the array they return, [reduce]
    and [length] read. *)

Inductive object : Type :=
| ReadingArray (elements : list GlucoseReading)
| NumberArray (elements : list Q).

Definition heap : Type := list object.

Definition ref : Type := nat.

Definition State (A : Type) : Type := heap -> result A * heap.

Definition ret {A : Type} (a : A) : State A := fun h => (Return a, h).

Definition throw {A : Type} (e : Error) : State A := fun h => (Throw e, h).

Definition sbind {A B : Type} (m : State A) (k : A -> State B) : State B :=
  fun h =>
    match m h with
    | (Return a, h') => k a h'
    | (Throw e, h') => (Throw e, h')
    end.

Notation "x <- m ;; k" := (sbind m (fun x => k))
  (at level 100, m at next level, right associativity).

Definition alloc (o : object) : State ref :=
  fun h => (Return (length h), h ++ [o]).

Definition typeError {A : Type} : State A :=
  throw (mkError "TypeError").

Definition readingsAt (a : ref) : State (list GlucoseReading) :=
  fun h =>
    match h !! a with
    | Some (ReadingArray rs) => ret rs h
    | _ => typeError h
    end.

Definition numbersAt (a : ref) : State (list Q) :=
  fun h =>
    match h !! a with
    | Some (NumberArray xs) => ret xs h
    | _ => typeError h
    end.

(** [a.length] *)
Definition Array_length (a : ref) : State Q :=
  fun h =>
    match h !! a with
    | Some (ReadingArray rs) => ret (Qlength rs) h
    | Some (NumberArray xs) => ret (Qlength xs) h
    | None => typeError h
    end.

(** [a.map(f)] on an array of readings *)
Definition Array_map (f : GlucoseReading -> Q) (a : ref) : State ref :=
  rs <- readingsAt a ;; alloc (NumberArray (map f rs)).

(** [a.filter(p)] on an array of readings *)
Definition Array_filter (p : GlucoseReading -> bool) (a : ref) : State ref :=
  rs <- readingsAt a ;; alloc (ReadingArray (List.filter p rs)).

(** [a.reduce(f, init)] on an array of numbers *)
Definition Array_reduce (f : Q -> Q -> Q) (init : Q) (a : ref) : State Q :=
  xs <- numbersAt a ;; ret (fold_left f xs init).

Definition calculateGlucoseStats_heap (Math_sqrt : Q -> Q)
    (this : GlucoseAnalytics) (readings : ref) : State GlucoseStats :=
  readingsLength <- Array_length readings ;;
  if Qeq_bool readingsLength 0 then
    throw (mkError "No glucose readings provided for analysis")
  else
    values <- Array_map (fun r => value r) readings ;;
    total <- Array_reduce (fun sum val => sum + val) 0 values ;;
    valuesLength <- Array_length values ;;
    let average := total / valuesLength in
    squares <- Array_reduce (fun sum val => sum + Math_pow (val - average) 2) 0 values ;;
    valuesLength <- Array_length values ;;
    let variance := squares / valuesLength in
    let standardDeviation := Math_sqrt variance in
    let coefficientOfVariation :=
      num_mul (num_div (Finite standardDeviation) (Finite average)) (Finite 100) in
    let gmi := 3.31 + (0.02392 * average) in
    inRangeReadings <- Array_filter (fun r =>
      Qgeb (value r) (target_low (ranges (config this)))
      && Qleb (value r) (target_high (ranges (config this)))) readings ;;
    inRange <- Array_length inRangeReadings ;;
    belowRangeReadings <- Array_filter (fun r =>
      Qltb (value r) (target_low (ranges (config this)))) readings ;;
    belowRange <- Array_length belowRangeReadings ;;
    aboveRangeReadings <- Array_filter (fun r =>
      Qgtb (value r) (target_high (ranges (config this)))) readings ;;
    aboveRange <- Array_length aboveRangeReadings ;;
    readingsLength <- Array_length readings ;;
    let timeInRange := (inRange / readingsLength) * 100 in
    readingsLength <- Array_length readings ;;
    let timeBelowRange := (belowRange / readingsLength) * 100 in
    readingsLength <- Array_length readings ;;
    let timeAboveRange := (aboveRange / readingsLength) * 100 in
    ret {|
      average := Math_round (average * 100) / 100;
      gmi := Math_round (gmi * 100) / 100;
      timeInRange := Math_round (timeInRange * 100) / 100;
      timeBelowRange := Math_round (timeBelowRange * 100) / 100;
      timeAboveRange := Math_round (timeAboveRange * 100) / 100;
      standardDeviation := Math_round (standardDeviation * 100) / 100;
      coefficientOfVariation :=
        num_div (num_round (num_mul coefficientOfVariation (Finite 100))) (Finite 100)
    |}.

(** ** The vocabulary of the specification *)

Fixpoint Qsum (xs : list Q) : Q :=
  match xs with
  | [] => 0
  | x :: xs' => x + Qsum xs'
  end.

(** The arithmetic mean. *)
Definition mean (xs : list Q) : Q := Qsum xs / Qlength xs.

(** The population variance: the squared deviations from the mean, summed
    and divided by N. *)
Definition populationVariance (xs : list Q) : Q :=
  Qsum (map (fun x => (x - mean xs) * (x - mean xs)) xs) / Qlength xs.

(** The sample variance, which divides by N - 1 instead. *)
Definition sampleVariance (xs : list Q) : Q :=
  Qsum (map (fun x => (x - mean xs) * (x - mean xs)) xs) / (Qlength xs - 1).

(** Rounding to two decimals: the nearest hundredth, a tie going up. *)
Definition round2 (x : Q) : Q := inject_Z (Qfloor (100 * x + (1 # 2))) / 100.

(** The mean and the variance as the two [reduce] calls of
    [calculateGlucoseStats] compute them. *)
Definition reducedMean (values : list Q) : Q :=
  fold_left (fun sum val => sum + val) values 0 / Qlength values.

Definition reducedVariance (values : list Q) : Q :=
  fold_left (fun sum val => sum + Math_pow (val - reducedMean values) 2) values 0
  / Qlength values.

(** The values of the readings taken at local hour [h], and their mean, zero
    when there is none. *)
Definition valuesAtHour (h : nat) (readings : list GlucoseReading) : list Q :=
  map value (List.filter (fun r => Nat.eqb (getHours (timestamp r)) h) readings).

Definition hourMean (h : nat) (readings : list GlucoseReading) : Q :=
  match valuesAtHour h readings with
  | [] => 0
  | vs => mean vs
  end.

(** A reading above the target range. *)
Definition isAbove (this : GlucoseAnalytics) (r : GlucoseReading) : bool :=
  Qgtb (value r) (target_high (ranges (config this))).

(** The lengths of the stretches of [true] between the [false]s of a list of
    flags, in order; the stretches are maximal, since each one ends at a
    [false] or at an end of the list. *)
Fixpoint runLengths (flags : list bool) : list nat :=
  match flags with
  | [] => [O]
  | true :: flags' =>
      match runLengths flags' with
      | n :: ns => S n :: ns
      | [] => [1%nat]
      end
  | false :: flags' => O :: runLengths flags'
  end.

(** The flags whose stretches are [ns]: the stretches in order, one [false]
    between two of them. *)
Fixpoint joinRuns (ns : list nat) : list bool :=
  match ns with
  | [] => []
  | [n] => repeat true n
  | n :: ns' => repeat true n ++ false :: joinRuns ns'
  end.

(** The number of runs of at least six. *)
Definition extendedRuns (flags : list bool) : nat :=
  length (List.filter (Nat.leb 6) (runLengths flags)).

(** The test of the loop of [calculateMealResponse] at index [i]. *)
Definition spikeAt (readings : list GlucoseReading) (i : nat) : bool :=
  Qgtb (valueAt readings i) (valueAt readings (i - 1) + 30)
  && Qgtb (valueAt readings i) (valueAt readings (i + 1) + 15).

(** A spike at index [i]: more than 30 above the reading before and more
    than 15 above the reading after. *)
Definition isSpike (readings : list GlucoseReading) (i : nat) : Prop :=
  valueAt readings (i - 1) + 30 < valueAt readings i
  /\ valueAt readings (i + 1) + 15 < valueAt readings i.

Definition noSpike (readings : list GlucoseReading) : Prop :=
  forall i : nat, (1 <= i)%nat -> (i + 1 < length readings)%nat ->
    ~ isSpike readings i.

(** The first run lengthened by the [c] flags already seen. *)
Definition lengthenFirst (c : nat) (ns : list nat) : list nat :=
  match ns with
  | [] => [c]
  | n :: ns' => (c + n)%nat :: ns'
  end.

(** The sentence of each metric, by its bucket. *)
Definition timeInRangeSentence (x : Q) (s : string) : Prop :=
  (70 <= x -> s = "Excellent glucose control - time in range above 70%")
  /\ (50 <= x < 70 ->
      s = "Good glucose control - consider optimizing to reach 70% time in range")
  /\ (x < 50 ->
      s = "Glucose control needs improvement - focus on reducing time above/below range").

Definition variabilitySentence (x : number) (s : string) : Prop :=
  match x with
  | Finite c =>
      (c <= 33 -> s = "Low glucose variability - excellent stability")
      /\ (33 < c <= 36 -> s = "Moderate glucose variability - room for improvement")
      /\ (36 < c ->
          s = "High glucose variability - consider strategies to improve stability")
  | NegInfinity => s = "Low glucose variability - excellent stability"
  | NaN | Infinity =>
      s = "High glucose variability - consider strategies to improve stability"
  end.

Definition gmiSentence (x : Q) (s : string) : Prop :=
  (x < 7 -> s = "GMI indicates excellent glucose management")
  /\ (7 <= x < 8 ->
      s = "GMI indicates good glucose management with room for improvement")
  /\ (8 <= x ->
      s = "GMI suggests glucose management needs significant improvement").

(** The state of the loop: no spike yet and a total of zero, or a total
    above 30 times the number of spikes. *)
Definition mealInvariant (st : Q * nat) : Prop :=
  (snd st = O /\ fst st == 0)
  \/ ((0 < snd st)%nat /\ 30 * inject_Z (Z.of_nat (snd st)) < fst st).

(** The last character of a string. *)
Fixpoint lastChar (s : string) : option Ascii.ascii :=
  match s with
  | EmptyString => None
  | String c EmptyString => Some c
  | String _ s' => lastChar s'
  end.

(** ** Sample data *)

(** A square root for the examples: the root truncated to six decimals. *)
Definition sqrtMicro (q : Q) : Q :=
  inject_Z (Z.sqrt (Qfloor (q * 1000000000000))) / 1000000.

(** The configuration of the test suite, target range 70 to 180. *)
Definition mockConfig : LibreLinkConfig :=
  mkConfig (mkCredentials EmptyString EmptyString) (mkClientInfo "4.12.0" US)
    (mkCacheConfig true 5) (mkRanges 70 180).

Definition analytics : GlucoseAnalytics := mkAnalytics mockConfig.

(** A reading of value [v] taken at local hour [h]. *)
Definition readingAt (v : Q) (h : nat) : GlucoseReading :=
  mkReading v (mkDate h) FLAT (Qgtb v 180) (Qltb v 70)
    (if Qgtb v 180 then "red" else if Qltb v 70 then "orange" else "green").

(** ** Further vocabulary: episodes, the night, the patterns *)

(** A reading below the target range, and a reading above the band of 10
    over the low bound, which ends an episode. *)
Definition isBelow (this : GlucoseAnalytics) (r : GlucoseReading) : bool :=
  Qltb (value r) (target_low (ranges (config this))).

Definition isRecovered (this : GlucoseAnalytics) (r : GlucoseReading) : bool :=
  Qgtb (value r) (target_low (ranges (config this)) + 10).

(** The readings outside the band, each flagged below or not. *)
Definition hypoFlags (this : GlucoseAnalytics) (readings : list GlucoseReading)
    : list bool :=
  map (isBelow this)
    (List.filter (fun r => isBelow this r || isRecovered this r) readings).

(** The number of non-empty runs. *)
Definition positiveRuns (flags : list bool) : nat :=
  length (List.filter (Nat.ltb 0) (runLengths flags)).

(** A reading of the night, from 23 h to 6 h. *)
Definition isOvernight (r : GlucoseReading) : bool :=
  Nat.leb 23 (getHours (timestamp r)) || Nat.leb (getHours (timestamp r)) 6.

(** The last [n] characters of a string. *)
Definition lastChars (n : nat) (s : string) : string :=
  substring (String.length s - n) n s.

(** ** [config.ts]: the configuration manager

    The file system is outside the model: what it answers to the write of
    [saveConfig] is an input of the methods that save. *)

Definition DEFAULT_CONFIG : LibreLinkConfig :=
  mkConfig (mkCredentials EmptyString EmptyString) (mkClientInfo "4.12.0" US)
    (mkCacheConfig true 5) (mkRanges 70 180).

(** The truth value of a string: only the empty string is falsy. *)
Definition truthy (s : string) : bool :=
  match s with
  | EmptyString => false
  | String _ _ => true
  end.

(** The answer of the file system to [mkdirSync] and [writeFileSync]. *)
Inductive FsAnswer : Type :=
| Written
| Failed (error : string).

Module ConfigManager.

Record t : Type := mk { config : LibreLinkConfig }.

Definition saveConfig (fs : FsAnswer) (newConfig : LibreLinkConfig) (this : t)
    : result unit * t :=
  match fs with
  | Written => (Return tt, mk newConfig)
  | Failed error =>
      (Throw (mkError ("Failed to save config: " ++ error)%string), this)
  end.

Definition getConfig (this : t) : LibreLinkConfig := config this.

Definition updateCredentials (fs : FsAnswer) (email password : string) (this : t)
    : result unit * t :=
  let updatedConfig :=
    mkConfig (mkCredentials email password) (client (config this))
      (cache (config this)) (ranges (config this)) in
  saveConfig fs updatedConfig this.

Definition updateRanges (fs : FsAnswer) (targetLow targetHigh : Q) (this : t)
    : result unit * t :=
  let updatedConfig :=
    mkConfig (credentials (config this)) (client (config this))
      (cache (config this)) (mkRanges targetLow targetHigh) in
  saveConfig fs updatedConfig this.

Definition updateRegion (fs : FsAnswer) (region : Region) (this : t)
    : result unit * t :=
  let updatedConfig :=
    mkConfig (credentials (config this))
      (mkClientInfo (version (client (config this))) region)
      (cache (config this)) (ranges (config this)) in
  saveConfig fs updatedConfig this.

Definition isConfigured (this : t) : bool :=
  truthy (email (credentials (config this)))
  && truthy (password (credentials (config this))).

Definition validateConfig (this : t) : list string :=
  let errors := [] in
  let errors := pushIf (negb (truthy (email (credentials (config this)))))
    "Email is required" errors in
  let errors := pushIf (negb (truthy (password (credentials (config this)))))
    "Password is required" errors in
  let errors := pushIf
    (Qgeb (target_low (ranges (config this))) (target_high (ranges (config this))))
    "Target low must be less than target high" errors in
  let errors := pushIf
    (Qltb (target_low (ranges (config this))) 50
     || Qgtb (target_low (ranges (config this))) 150)
    "Target low should be between 50-150 mg/dL" errors in
  let errors := pushIf
    (Qltb (target_high (ranges (config this))) 100
     || Qgtb (target_high (ranges (config this))) 300)
    "Target high should be between 100-300 mg/dL" errors in
  errors.

End ConfigManager.

(** ** [librelink-client.ts]: the client

    The upstream service is outside the model: the outcomes of its [login]
    and [read] calls and the values of [Date.now()] are inputs of the
    methods that use them. *)

(** [s.toLowerCase()] on the letters A to Z; the other characters are left
    as they are. *)
Definition toLowerCaseAscii (c : Ascii.ascii) : Ascii.ascii :=
  let n := Ascii.nat_of_ascii c in
  if Nat.leb 65 n && Nat.leb n 90 then Ascii.ascii_of_nat (n + 32) else c.

Fixpoint toLowerCase (s : string) : string :=
  match s with
  | EmptyString => EmptyString
  | String c s' => String (toLowerCaseAscii c) (toLowerCase s')
  end.

Record SensorInfo : Type := mkSensorInfo {
  deviceId : string;
  serialNumber : string;
  activationTime : Date;
  sensorState : string;
  deviceType : string
}.

(** What a [throw] carries: an [Error] instance, with its [code] property
    when it has one, or the plain object made by [createError]. *)
#[warnings="-register-all"] Inductive Thrown : Type :=
| ErrorInstance (message : string) (code : option string)
| PlainObject (code message : string) (details : option Thrown).

(** How a promise settles. *)
Inductive outcome (A : Type) : Type :=
| Resolved (a : A)
| Rejected (e : Thrown).

Arguments Resolved {A} a.
Arguments Rejected {A} e.

(** The values the client caches, all of them truthy. *)
Inductive any : Type :=
| AnyReading (reading : GlucoseReading)
| AnyReadings (readings : list GlucoseReading)
| AnySensors (sensors : list SensorInfo).

(** [config.cache.enabled] and [config.cache.ttl_minutes]. *)
Definition cacheEnabled (c : LibreLinkConfig) : bool := enabled (cache c).

Definition cacheTtlMinutes (c : LibreLinkConfig) : Q := ttl_minutes (cache c).

(** A reading of the upstream library. *)
Module LibreApi.

Record GlucoseReading : Type := mk {
  value : Q;
  timestamp : Date;
  trendType : option string
}.

End LibreApi.

Module LibreLinkClient.

Record Entry : Type := mkEntry { data : any; timestamp : Z }.

Record t : Type := mk {
  config : LibreLinkConfig;
  isLoggedIn : bool;
  lastReading : option GlucoseReading;
  cache : gmap string Entry
}.

(** The constructor. *)
Definition new (config : LibreLinkConfig) : t := mk config false None ∅.

Definition createError (code message : string) (details : option Thrown) : Thrown :=
  PlainObject code message details.

Definition ensureLoggedIn (login : outcome unit) (this : t) : outcome unit * t :=
  if negb (isLoggedIn this) then
    match login with
    | Resolved _ =>
        (Resolved tt, mk (config this) true (lastReading this) (cache this))
    | Rejected error =>
        (Rejected (createError "AUTH_FAILED"
                     "Failed to authenticate with LibreLink" (Some error)), this)
    end
  else (Resolved tt, this).

Definition mapTrendType (trendType : option string) : TrendType :=
  match trendType with
  | None => FLAT
  | Some s =>
      let l := toLowerCase s in
      if String.eqb l "flat" || String.eqb l "stable" then FLAT
      else if String.eqb l "up" || String.eqb l "rising" then SINGLE_UP
      else if String.eqb l "down" || String.eqb l "falling" then SINGLE_DOWN
      else if String.eqb l "rapidlyup" || String.eqb l "rapidly rising"
      then DOUBLE_UP
      else if String.eqb l "rapidlydown" || String.eqb l "rapidly falling"
      then DOUBLE_DOWN
      else if String.eqb l "slightlyup" || String.eqb l "slightly rising"
      then FORTY_FIVE_UP
      else if String.eqb l "slightlydown" || String.eqb l "slightly falling"
      then FORTY_FIVE_DOWN
      else FLAT
  end.

Definition mapGlucoseReading (this : t) (libreReading : LibreApi.GlucoseReading)
    : GlucoseReading :=
  let value := LibreApi.value libreReading in
  let isHigh := Qgtb value (target_high (ranges (config this))) in
  let isLow := Qltb value (target_low (ranges (config this))) in
  mkReading value (LibreApi.timestamp libreReading)
    (mapTrendType (LibreApi.trendType libreReading)) isHigh isLow
    (if isHigh then "red" else if isLow then "orange" else "green").

Definition getCachedData (now : Z) (key : string) (this : t) : option any * t :=
  if negb (cacheEnabled (config this)) then (None, this)
  else
    match cache this !! key with
    | None => (None, this)
    | Some cached =>
        let isExpired :=
          Qgtb (inject_Z (now - timestamp cached))
               (cacheTtlMinutes (config this) * 60 * 1000) in
        if isExpired then
          (None, mk (config this) (isLoggedIn this) (lastReading this)
                   (delete key (cache this)))
        else (Some (data cached), this)
    end.

Definition setCachedData (now : Z) (key : string) (data : any) (this : t) : t :=
  if cacheEnabled (config this) then
    mk (config this) (isLoggedIn this) (lastReading this)
       (<[key := mkEntry data now]> (cache this))
  else this.

(** [getCurrentGlucose]: [now] is the clock when the cache is read, [now']
    the clock when it is written. *)
Definition getCurrentGlucose (now now' : Z) (login : outcome unit)
    (read : outcome LibreApi.GlucoseReading) (this : t) : outcome any * t :=
  let cacheKey := "current_glucose" in
  match getCachedData now cacheKey this with
  | (Some cached, this) => (Resolved cached, this)
  | (None, this) =>
      match ensureLoggedIn login this with
      | (Rejected e, this) => (Rejected e, this)
      | (Resolved _, this) =>
          match read with
          | Resolved libreReading =>
              let reading := mapGlucoseReading this libreReading in
              let this := setCachedData now' cacheKey (AnyReading reading) this in
              let this :=
                mk (config this) (isLoggedIn this) (Some reading) (cache this) in
              (Resolved (AnyReading reading), this)
          | Rejected error =>
              (Rejected (createError "GLUCOSE_READ_FAILED"
                           "Failed to read current glucose" (Some error)), this)
          end
      end
  end.

Definition validateConnection (login : outcome unit)
    (read : outcome LibreApi.GlucoseReading) (this : t) : bool * t :=
  match ensureLoggedIn login this with
  | (Rejected _, this) =>
      (false, mk (config this) false (lastReading this) (cache this))
  | (Resolved _, this) =>
      match read with
      | Resolved _ => (true, this)
      | Rejected _ =>
          (false, mk (config this) false (lastReading this) (cache this))
      end
  end.

End LibreLinkClient.

(** ** [index.ts]: the error handler *)

(** The text of the answer of [handleError]. *)
Definition handleError (error : Thrown) : string :=
  match error with
  | ErrorInstance message (Some code) =>
      ("Error [" ++ code ++ "]: " ++ message)%string
  | ErrorInstance message None | PlainObject _ message _ =>
      ("Error: " ++ (if truthy message then message
                     else "Unknown error occurred"))%string
  end.

(** ** The analytics in binary64

    The class [GlucoseAnalytics] once more, with the numbers of JavaScript
    as they are: binary64 floating-point numbers, Rocq's primitive [float],
    whose sum, difference, product, quotient and comparisons are those of
    IEEE 754, rounded to nearest with ties to even.  [Math.sqrt] and
    [Math.pow] are parameters. *)

Module Binary64.

Local Open Scope float_scope.

(** An integer as a number; exact below 2^53. *)
Definition Number_of_Z (z : Z) : float :=
  match z with
  | Z0 => 0
  | Zpos _ => PrimFloat.of_uint63 (Uint63.of_Z z)
  | Zneg p => - PrimFloat.of_uint63 (Uint63.of_Z (Zpos p))
  end.

(** [xs.length] as a number. *)
Definition Flength {A : Type} (xs : list A) : float :=
  Number_of_Z (Z.of_nat (length xs)).

(** [Math.floor].  From 2^52 on every number is an integer; below, adding
    and subtracting 2^52 rounds the absolute value to an integer, which is
    its floor or one more.  An integer is returned as it is. *)
Definition Math_floor (x : float) : float :=
  if 4503599627370496 <=? abs x then x
  else
    let nearest := (abs x + 4503599627370496) - 4503599627370496 in
    let below := if abs x <? nearest then nearest - 1 else nearest in
    if below =? abs x then x
    else if x <? 0 then - (below + 1)
    else below.

(** [Math.round]: the nearest integer, a tie going up, with the sign of
    [x] when it is zero; an integer, [NaN] and the infinities are returned
    as they are. *)
Definition Math_round (x : float) : float :=
  let floor := Math_floor x in
  if floor =? x then x
  else
    let rounded := if 0.5 <=? x - floor then floor + 1 else floor in
    if (rounded =? 0) && (x <? 0) then - 0 else rounded.

(** [x || 0]: zero when [x] is falsy, which for a number is 0, -0 or
    [NaN]. *)
Definition orZero (x : float) : float :=
  if (x =? 0) || PrimFloat.is_nan x then 0 else x.

Record GlucoseReading : Type := mkReading {
  value : float;
  timestamp : Date;
  trend : TrendType;
  isHigh : bool;
  isLow : bool;
  color : string
}.

Record CacheConfig : Type := mkCacheConfig { enabled : bool; ttl_minutes : float }.

Record Ranges : Type := mkRanges { target_low : float; target_high : float }.

Record LibreLinkConfig : Type := mkConfig {
  credentials : Credentials;
  client : ClientInfo;
  cache : CacheConfig;
  ranges : Ranges
}.

Record GlucoseStats : Type := mkStats {
  average : float;
  gmi : float;
  timeInRange : float;
  timeBelowRange : float;
  timeAboveRange : float;
  standardDeviation : float;
  coefficientOfVariation : float
}.

Record TrendAnalysis : Type := mkTrends {
  patterns : list string;
  dawnPhenomenon : bool;
  mealResponse : float;
  overnightStability : float
}.

Record GlucoseAnalytics : Type := mkAnalytics { config : LibreLinkConfig }.

Section Analytics.

Variable Math_sqrt : float -> float.

Variable Math_pow : float -> float -> float.

Definition calculateGlucoseStats (this : GlucoseAnalytics)
    (readings : list GlucoseReading) : result GlucoseStats :=
  if Nat.eqb (length readings) 0 then
    Throw (mkError "No glucose readings provided for analysis")
  else
    let values := map value readings in
    let total := fold_left (fun sum val => sum + val) values 0 in
    let average := total / Flength values in
    let variance :=
      fold_left (fun sum val => sum + Math_pow (val - average) 2) values 0
      / Flength values in
    let standardDeviation := Math_sqrt variance in
    let coefficientOfVariation := (standardDeviation / average) * 100 in
    let gmi := 3.31 + (0.02392 * average) in
    let inRange := Flength (List.filter (fun r =>
      (target_low (ranges (config this)) <=? value r)
      && (value r <=? target_high (ranges (config this)))) readings) in
    let belowRange := Flength (List.filter (fun r =>
      value r <? target_low (ranges (config this))) readings) in
    let aboveRange := Flength (List.filter (fun r =>
      target_high (ranges (config this)) <? value r) readings) in
    let timeInRange := (inRange / Flength readings) * 100 in
    let timeBelowRange := (belowRange / Flength readings) * 100 in
    let timeAboveRange := (aboveRange / Flength readings) * 100 in
    Return {|
      average := Math_round (average * 100) / 100;
      gmi := Math_round (gmi * 100) / 100;
      timeInRange := Math_round (timeInRange * 100) / 100;
      timeBelowRange := Math_round (timeBelowRange * 100) / 100;
      timeAboveRange := Math_round (timeAboveRange * 100) / 100;
      standardDeviation := Math_round (standardDeviation * 100) / 100;
      coefficientOfVariation := Math_round (coefficientOfVariation * 100) / 100
    |}.

(** [detectDawnPhenomenon], the body of the first [forEach]. *)
Definition groupByHour (hourlyReadings : gmap nat (list float))
    (reading : GlucoseReading) : gmap nat (list float) :=
  let hour := getHours (timestamp reading) in
  let hourlyReadings :=
    match hourlyReadings !! hour with
    | None => <[hour := []]> hourlyReadings
    | Some _ => hourlyReadings
    end in
  alter (fun values => values ++ [value reading]) hour hourlyReadings.

(** [m.get(k) || 0] *)
Definition getOrZero (m : gmap nat float) (k : nat) : float :=
  match m !! k with
  | Some a => orZero a
  | None => 0
  end.

Definition detectDawnPhenomenon (this : GlucoseAnalytics)
    (readings : list GlucoseReading) : bool :=
  let hourlyReadings := fold_left groupByHour readings ∅ in
  let hourlyAverages :=
    fmap (M := gmap nat) (fun values =>
      fold_left (fun sum val => sum + val) values 0 / Flength values)
      hourlyReadings in
  let dawn4AM := getOrZero hourlyAverages 4 in
  let dawn6AM := getOrZero hourlyAverages 6 in
  let dawn8AM := getOrZero hourlyAverages 8 in
  (20 <? dawn8AM - dawn4AM) || (15 <? dawn6AM - dawn4AM).

(** [readings[i].value]; the loop below reads inside the array only. *)
Definition valueAt (readings : list GlucoseReading) (i : nat) : float :=
  match readings !! i with
  | Some r => value r
  | None => nan
  end.

(** [calculateMealResponse], the body of the loop on the state
    [(totalSpikes, spikeCount)]. *)
Definition mealStep (readings : list GlucoseReading) (st : float * nat) (i : nat)
    : float * nat :=
  let '(totalSpikes, spikeCount) := st in
  let current := valueAt readings i in
  let previous := valueAt readings (i - 1) in
  let next := valueAt readings (i + 1) in
  if (previous + 30 <? current) && (next + 15 <? current) then
    (totalSpikes + (current - previous), S spikeCount)
  else st.

Definition mealLoop (readings : list GlucoseReading) : float * nat :=
  fold_left (mealStep readings) (seq 1 (length readings - 2)) (0, O).

Definition calculateMealResponse (this : GlucoseAnalytics)
    (readings : list GlucoseReading) : float :=
  let '(totalSpikes, spikeCount) := mealLoop readings in
  if Nat.ltb 0 spikeCount then totalSpikes / Number_of_Z (Z.of_nat spikeCount)
  else 0.

Definition calculateOvernightStability (this : GlucoseAnalytics)
    (readings : list GlucoseReading) : float :=
  let overnightReadings := List.filter (fun reading =>
    let hour := getHours (timestamp reading) in
    Nat.leb 23 hour || Nat.leb hour 6) readings in
  if Nat.ltb (length overnightReadings) 2 then 0
  else
    let values := map value overnightReadings in
    let average := fold_left (fun sum val => sum + val) values 0 / Flength values in
    let variance :=
      fold_left (fun sum val => sum + Math_pow (val - average) 2) values 0
      / Flength values in
    Math_sqrt variance.

Definition hypoStep (this : GlucoseAnalytics) (st : nat * bool)
    (reading : GlucoseReading) : nat * bool :=
  let '(episodes, inEpisode) := st in
  if value reading <? target_low (ranges (config this)) then
    if negb inEpisode then (S episodes, true) else st
  else if target_low (ranges (config this)) + 10 <? value reading then
    (episodes, false)
  else st.

Definition detectHypoglycemicEpisodes (this : GlucoseAnalytics)
    (readings : list GlucoseReading) : nat :=
  fst (fold_left (hypoStep this) readings (O, false)).

Definition hyperStep (this : GlucoseAnalytics) (st : nat * nat)
    (reading : GlucoseReading) : nat * nat :=
  let '(periods, consecutiveHigh) := st in
  if target_high (ranges (config this)) <? value reading then
    (periods, S consecutiveHigh)
  else
    ((if Nat.leb 6 consecutiveHigh then S periods else periods), O).

Definition detectHyperglycemicPeriods (this : GlucoseAnalytics)
    (readings : list GlucoseReading) : nat :=
  let '(periods, consecutiveHigh) :=
    fold_left (hyperStep this) readings (O, O) in
  if Nat.leb 6 consecutiveHigh then S periods else periods.

Definition analyzeTrends (this : GlucoseAnalytics)
    (readings : list GlucoseReading) (period : Period) : result TrendAnalysis :=
  if Nat.eqb (length readings) 0 then
    Throw (mkError "No glucose readings provided for trend analysis")
  else
    let patterns := [] in
    let dawnPhenomenon := detectDawnPhenomenon this readings in
    let patterns := pushIf dawnPhenomenon
      "Dawn phenomenon detected - glucose rises in early morning hours" patterns in
    let mealResponse := calculateMealResponse this readings in
    let patterns :=
      if 50 <? mealResponse then
        patterns ++ ["High postprandial glucose response detected"]
      else if mealResponse <? 20 then
        patterns ++ ["Good postprandial glucose control"]
      else patterns in
    let overnightStability := calculateOvernightStability this readings in
    let patterns :=
      if overnightStability <? 10 then
        patterns ++ ["Excellent overnight glucose stability"]
      else if 30 <? overnightStability then
        patterns ++ ["High overnight glucose variability"]
      else patterns in
    let hypoEpisodes := detectHypoglycemicEpisodes this readings in
    let patterns := pushIf (Nat.ltb 0 hypoEpisodes)
      (toString hypoEpisodes ++ " hypoglycemic episode(s) detected")%string patterns in
    let hyperPeriods := detectHyperglycemicPeriods this readings in
    let patterns := pushIf (Nat.ltb 0 hyperPeriods)
      (toString hyperPeriods ++ " extended hyperglycemic period(s) detected")%string patterns in
    Return {|
      patterns := patterns;
      dawnPhenomenon := dawnPhenomenon;
      mealResponse := Math_round (mealResponse * 100) / 100;
      overnightStability := Math_round (overnightStability * 100) / 100
    |}.

End Analytics.

(** The values of the readings taken at local hour [h]; their mean as the
    code computes it, the sum accumulated from 0 in the order of the
    readings and divided by their number; and the mean the rule uses, which
    is 0 for an hour without reading and for a mean that is 0 or [NaN]. *)
Definition valuesAtHour (h : nat) (readings : list GlucoseReading) : list float :=
  map value (List.filter (fun r => Nat.eqb (getHours (timestamp r)) h) readings).

Definition mean (xs : list float) : float :=
  fold_left (fun sum val => sum + val) xs 0 / Flength xs.

Definition hourMean (h : nat) (readings : list GlucoseReading) : float :=
  match valuesAtHour h readings with
  | [] => 0
  | vs => orZero (mean vs)
  end.

(** A power for the examples: the square, the value of [Math.pow] at the
    exponent 2. *)
Definition square (x y : float) : float := x * x.

End Binary64.

(** ** From the exact numbers to binary64 *)

(** The binary64 number nearest to a rational whose numerator and
    denominator are below 2^53: the rational itself when it is a whole
    number or a dyadic fraction. *)
Definition Number_of_Q (q : Q) : float :=
  PrimFloat.div (Binary64.Number_of_Z (Qnum q)) (Binary64.Number_of_Z (Zpos (Qden q))).

(** A reading and a configuration with their numbers in binary64. *)
Definition toBinary64 (r : GlucoseReading) : Binary64.GlucoseReading :=
  Binary64.mkReading (Number_of_Q (value r)) (timestamp r) (trend r)
    (isHigh r) (isLow r) (color r).

Definition configToBinary64 (c : LibreLinkConfig) : Binary64.LibreLinkConfig :=
  Binary64.mkConfig (credentials c) (client c)
    (Binary64.mkCacheConfig (enabled (cache c)) (Number_of_Q (ttl_minutes (cache c))))
    (Binary64.mkRanges (Number_of_Q (target_low (ranges c)))
       (Number_of_Q (target_high (ranges c)))).

(** The analytics of the test suite, target range 70 to 180. *)
Definition analytics64 : Binary64.GlucoseAnalytics :=
  Binary64.mkAnalytics (configToBinary64 mockConfig).

(** ** Whole-number readings and the nearest hundredth *)

(** [y] is [x] rounded to two decimals: a hundredth at most 0.005 away from
    [x].  A number half-way between two hundredths has two such roundings,
    and binary64 can return either. *)
Definition nearestHundredth (y x : Q) : Prop :=
  (exists k : Z, y == inject_Z k / 100) /\ Qabs (y - x) <= 0.005.

(** A glucose value as a sensor reports it: a whole number of mg/dL, from 0
    to 1000.  The sums, the differences and the comparisons of such values
    are the same in binary64 and in exact arithmetic. *)
Definition wholeNumber (v : Q) : bool :=
  Qeq_bool v (inject_Z (Qfloor v)) && Qleb 0 v && Qleb v 1000.

Definition sensorReadings (readings : list GlucoseReading) : bool :=
  forallb (fun r => wholeNumber (value r)) readings.

(** ** Sample data at the limits of binary64 *)

(** Forty readings of mean 128.075, half-way between two hundredths. *)
Definition tiedAverage : list GlucoseReading :=
  repeat (readingAt 128 8) 37 ++ repeat (readingAt 129 8) 3.

(** Of 160 readings, 23 below the range: 14.375 per cent. *)
Definition tiedPercentage : list GlucoseReading :=
  repeat (readingAt 60 8) 23 ++ repeat (readingAt 100 8) 137.

(** Three readings at hour 4 and three at hour 8 whose means differ by 20
    exactly. *)
Definition dawnTie : list GlucoseReading :=
  [readingAt 108 4; readingAt 108 4; readingAt 109 4;
   readingAt 128 8; readingAt 128 8; readingAt 129 8].

(** A reading of 1 + 2^-49, then one of 31 + 2^-48, which is 30 + 2^-49
    above it, then a reading of 1.  In decimal the first two are
    1.0000000000000018 and 31.000000000000004. *)
Definition faintSpike : list GlucoseReading :=
  [readingAt (562949953421313 # 562949953421312) 12;
   readingAt (8725724278030337 # 281474976710656) 12;
   readingAt 1 13].

(** * Properties *)

(** ** Comparisons and sums *)

Lemma Qltb_lt (x y : Q) : Qltb x y = true <-> x < y.
Proof.
  unfold Qltb. rewrite Qlt_alt. destruct (x ?= y); split; congruence.
Qed.

Lemma Qleb_le (x y : Q) : Qleb x y = true <-> x <= y.
Proof.
  unfold Qleb. rewrite Qle_alt. destruct (x ?= y); split; congruence.
Qed.

Lemma Qltb_ge (x y : Q) : Qltb x y = false <-> y <= x.
Proof.
  rewrite <- Bool.not_true_iff_false, Qltb_lt. split; intros; lra.
Qed.

Lemma Qleb_gt (x y : Q) : Qleb x y = false <-> y < x.
Proof.
  rewrite <- Bool.not_true_iff_false, Qleb_le. split; intros; lra.
Qed.

Lemma Qgtb_gt (x y : Q) : Qgtb x y = true <-> y < x.
Proof. apply Qltb_lt. Qed.

Lemma Qgtb_le (x y : Q) : Qgtb x y = false <-> x <= y.
Proof. apply Qltb_ge. Qed.

Lemma Qgeb_ge (x y : Q) : Qgeb x y = true <-> y <= x.
Proof. apply Qleb_le. Qed.

Lemma Qgeb_lt (x y : Q) : Qgeb x y = false <-> x < y.
Proof. apply Qleb_gt. Qed.

#[global] Instance Qltb_proper : Proper (Qeq ==> Qeq ==> eq) Qltb.
Proof. intros x x' Hx y y' Hy. unfold Qltb. now rewrite Hx, Hy. Qed.

#[global] Instance Qleb_proper : Proper (Qeq ==> Qeq ==> eq) Qleb.
Proof. intros x x' Hx y y' Hy. unfold Qleb. now rewrite Hx, Hy. Qed.

#[global] Instance Qgtb_proper : Proper (Qeq ==> Qeq ==> eq) Qgtb.
Proof. intros x x' Hx y y' Hy. unfold Qgtb. now rewrite Hx, Hy. Qed.

(** [reduce((sum, val) => sum + g(val), init)] is a sum. *)
Lemma reduce_sum (g : Q -> Q) (xs : list Q) (init : Q) :
  fold_left (fun sum val => sum + g val) xs init == init + Qsum (map g xs).
Proof.
  revert init. induction xs as [|x xs IH]; intros init; simpl.
  - lra.
  - rewrite IH. lra.
Qed.

Lemma reduce_plus (xs : list Q) (init : Q) :
  fold_left (fun sum val => sum + val) xs init == init + Qsum xs.
Proof.
  rewrite (reduce_sum (fun x => x)). now rewrite map_id.
Qed.

Lemma Qlength_pos {A : Type} (xs : list A) : xs <> [] -> 0 < Qlength xs.
Proof.
  destruct xs as [|x xs]; [congruence|]. intros _. unfold Qlength.
  change 0 with (inject_Z 0). rewrite <- Zlt_Qlt. simpl length. lia.
Qed.

(** ** Rounding to two decimals *)

Lemma Math_round_round2 (x : Q) : Math_round (x * 100) / 100 == round2 x.
Proof.
  unfold Math_round, round2.
  assert (E : Qfloor (x * 100 + (1 # 2)) = Qfloor (100 * x + (1 # 2))).
  { apply Qfloor_comp. ring. }
  now rewrite E.
Qed.

Lemma round2_bounds (x : Q) : x - (1 # 200) < round2 x /\ round2 x <= x + (1 # 200).
Proof.
  unfold round2.
  pose proof (Qlt_floor (100 * x + (1 # 2))) as Hlt.
  pose proof (Qfloor_le (100 * x + (1 # 2))) as Hle.
  set (k := Qfloor (100 * x + (1 # 2))) in *.
  rewrite inject_Z_plus in Hlt. change (inject_Z 1) with 1 in Hlt.
  split.
  - apply Qlt_shift_div_l; [reflexivity | lra].
  - apply Qle_shift_div_r; [reflexivity | lra].
Qed.

#[global] Instance round2_proper : Proper (Qeq ==> Qeq) round2.
Proof.
  intros x y E. unfold round2.
  assert (F : Qfloor (100 * x + (1 # 2)) = Qfloor (100 * y + (1 # 2))).
  { apply Qfloor_comp. now rewrite E. }
  now rewrite F.
Qed.

Lemma round2_hundredth (k : Z) : round2 (inject_Z k / 100) == inject_Z k / 100.
Proof.
  unfold round2.
  assert (F : Qfloor (100 * (inject_Z k / 100) + (1 # 2)) = k).
  { assert (E : 100 * (inject_Z k / 100) + (1 # 2) == inject_Z k + (1 # 2)) by (field).
    rewrite (Qfloor_comp _ _ E).
    pose proof (Qfloor_le (inject_Z k + (1 # 2))) as Hle.
    pose proof (Qlt_floor (inject_Z k + (1 # 2))) as Hlt.
    set (m := Qfloor _) in *.
    rewrite inject_Z_plus in Hlt. change (inject_Z 1) with 1 in Hlt.
    assert (H1 : inject_Z m < inject_Z (k + 1)).
    { rewrite inject_Z_plus. change (inject_Z 1) with 1. lra. }
    assert (H2 : inject_Z (k - 1) < inject_Z m).
    { unfold Z.sub. rewrite inject_Z_plus, inject_Z_opp. change (inject_Z 1) with 1. lra. }
    rewrite <- Zlt_Qlt in H1, H2. lia. }
  now rewrite F.
Qed.

(** A number rounded to two decimals is a nearest hundredth of it. *)
Lemma nearestHundredth_round2 (y x : Q) : y == round2 x -> nearestHundredth y x.
Proof.
  intros E. split.
  - exists (Qfloor (100 * x + (1 # 2))). exact E.
  - destruct (round2_bounds x) as [Hlo Hhi].
    apply Qabs_Qle_condition. rewrite E. split; lra.
Qed.

#[global] Instance nearestHundredth_proper :
  Proper (Qeq ==> Qeq ==> iff) nearestHundredth.
Proof.
  intros y y' Ey x x' Ex. unfold nearestHundredth.
  split; intros [[k Hk] Hd]; (split; [exists k|]).
  - now rewrite <- Ey.
  - now rewrite <- Ey, <- Ex.
  - now rewrite Ey.
  - now rewrite Ey, Ex.
Qed.

(** ** The three classes partition the readings *)

Lemma filter_partition3 {A : Type} (p q r : A -> bool) (xs : list A) :
  (forall x, (p x, q x, r x) = (true, false, false)
          \/ (p x, q x, r x) = (false, true, false)
          \/ (p x, q x, r x) = (false, false, true)) ->
  (length (List.filter p xs) + length (List.filter q xs)
   + length (List.filter r xs) = length xs)%nat.
Proof.
  intros H. induction xs as [|x xs IH]; simpl; [reflexivity|].
  destruct (H x) as [E | [E | E]]; injection E as -> -> ->; simpl; lia.
Qed.

Lemma range_classes (low high v : Q) :
  low <= high ->
  let p := Qgeb v low && Qleb v high in
  let q := Qltb v low in
  let r := Qgtb v high in
  (p, q, r) = (true, false, false)
  \/ (p, q, r) = (false, true, false)
  \/ (p, q, r) = (false, false, true).
Proof.
  intros Hlh. simpl.
  destruct (Qgeb v low) eqn:E1, (Qleb v high) eqn:E2,
           (Qltb v low) eqn:E3, (Qgtb v high) eqn:E4; simpl; auto;
    try apply Qgeb_ge in E1; try apply Qgeb_lt in E1;
    try apply Qleb_le in E2; try apply Qleb_gt in E2;
    try apply Qltb_lt in E3; try apply Qltb_ge in E3;
    try apply Qgtb_gt in E4; try apply Qgtb_le in E4; lra.
Qed.

Lemma Qlength_add3 (a b c n : nat) :
  (a + b + c = n)%nat ->
  inject_Z (Z.of_nat a) + inject_Z (Z.of_nat b) + inject_Z (Z.of_nat c)
  == inject_Z (Z.of_nat n).
Proof.
  intros <-. rewrite !Nat2Z.inj_add, !inject_Z_plus. reflexivity.
Qed.

Lemma length_zero_eqb {A : Type} (xs : list A) :
  xs <> [] -> Nat.eqb (length xs) 0 = false.
Proof. destruct xs; [congruence | reflexivity]. Qed.

(** C1. For every non-empty list of readings and every target range with
    low < high, [calculateGlucoseStats] returns, and the three percentages
    it returns ([timeInRange], [timeBelowRange], [timeAboveRange]) sum to 100
    within 0.1: the classes value < low, low <= value <= high and
    value > high partition the readings, so the three counts sum to the
    number of readings. *)
Theorem time_percentages_sum_to_100 (Math_sqrt : Q -> Q)
    (this : GlucoseAnalytics) (readings : list GlucoseReading) :
  readings <> [] ->
  target_low (ranges (config this)) < target_high (ranges (config this)) ->
  exists stats : GlucoseStats,
    calculateGlucoseStats Math_sqrt this readings = Return stats
    /\ (length (List.filter (fun r =>
                 Qgeb (value r) (target_low (ranges (config this)))
                 && Qleb (value r) (target_high (ranges (config this)))) readings)
        + length (List.filter (fun r =>
                 Qltb (value r) (target_low (ranges (config this)))) readings)
        + length (List.filter (fun r =>
                 Qgtb (value r) (target_high (ranges (config this)))) readings)
        = length readings)%nat
    /\ Qabs (timeInRange stats + timeBelowRange stats + timeAboveRange stats - 100)
       < 0.1.
Proof.
  intros Hne Hlh.
  unfold calculateGlucoseStats. rewrite (length_zero_eqb _ Hne).
  eexists. split; [reflexivity|].
  set (low := target_low (ranges (config this))) in *.
  set (high := target_high (ranges (config this))) in *.
  assert (Hpart : (length (List.filter (fun r => Qgeb (value r) low && Qleb (value r) high) readings)
        + length (List.filter (fun r => Qltb (value r) low) readings)
        + length (List.filter (fun r => Qgtb (value r) high) readings)
        = length readings)%nat).
  { apply filter_partition3. intros r. apply range_classes. lra. }
  split; [exact Hpart|].
  cbn [timeInRange timeBelowRange timeAboveRange].
  rewrite !Math_round_round2.
  pose proof (Qlength_pos readings Hne) as Hn.
  apply Qlength_add3 in Hpart. fold (Qlength readings) in Hpart.
  set (a := Qlength (List.filter _ readings)) in *.
  set (b := Qlength (List.filter (fun r => Qltb (value r) low) readings)) in *.
  set (c := Qlength (List.filter (fun r => Qgtb (value r) high) readings)) in *.
  set (n := Qlength readings) in *.
  change (a + b + c == n) in Hpart.
  assert (Hsum : a / n * 100 + b / n * 100 + c / n * 100 == 100).
  { transitivity ((a + b + c) / n * 100); [field; lra|].
    rewrite Hpart. field. lra. }
  destruct (round2_bounds (a / n * 100)) as [Ha1 Ha2].
  destruct (round2_bounds (b / n * 100)) as [Hb1 Hb2].
  destruct (round2_bounds (c / n * 100)) as [Hc1 Hc2].
  apply Qabs_Qlt_condition. split; lra.
Qed.

Lemma time_percentages_sum_to_100_witness :
  exists stats : GlucoseStats,
    calculateGlucoseStats sqrtMicro analytics
      [readingAt 40 9; readingAt 400 13; readingAt 100 18] = Return stats
    /\ (length (List.filter (fun r =>
                 Qgeb (value r) 70 && Qleb (value r) 180)
                 [readingAt 40 9; readingAt 400 13; readingAt 100 18])
        + length (List.filter (fun r => Qltb (value r) 70)
                 [readingAt 40 9; readingAt 400 13; readingAt 100 18])
        + length (List.filter (fun r => Qgtb (value r) 180)
                 [readingAt 40 9; readingAt 400 13; readingAt 100 18])
        = 3)%nat
    /\ Qabs (timeInRange stats + timeBelowRange stats + timeAboveRange stats - 100)
       < 0.1.
Proof.
  apply (time_percentages_sum_to_100 sqrtMicro analytics
           [readingAt 40 9; readingAt 400 13; readingAt 100 18]).
  - discriminate.
  - reflexivity.
Defined.

(** The extreme values of the test suite, 40, 400 and 100 against the range
    70 to 180: a third of the time in each class. *)
Example extreme_values_thirds :
  exists stats : GlucoseStats,
    calculateGlucoseStats sqrtMicro analytics
      [readingAt 40 9; readingAt 400 13; readingAt 100 18] = Return stats
    /\ timeInRange stats == 33.33
    /\ timeBelowRange stats == 33.33
    /\ timeAboveRange stats == 33.33.
Proof. eexists. split; [reflexivity|]. now vm_compute. Qed.

(** The bounds in order matter: with the range 180 to 70 a reading of 100 is
    both below and above, and the percentages sum to 200. *)
Example inverted_range_counts_twice :
  exists stats : GlucoseStats,
    calculateGlucoseStats sqrtMicro
      (mkAnalytics (mkConfig (mkCredentials EmptyString EmptyString)
         (mkClientInfo "4.12.0" US) (mkCacheConfig true 5) (mkRanges 180 70)))
      [readingAt 100 9] = Return stats
    /\ timeInRange stats + timeBelowRange stats + timeAboveRange stats == 200.
Proof. eexists. split; [reflexivity|]. now vm_compute. Qed.

(** ** Empty input *)

(** C2. [calculateGlucoseStats] and [analyzeTrends], applied to an empty list
    of readings, both throw; neither returns a result object, zeroed or
    otherwise, whatever the period. *)
Theorem empty_input_throws (Math_sqrt : Q -> Q) (this : GlucoseAnalytics)
    (period : Period) :
  calculateGlucoseStats Math_sqrt this []
  = Throw (mkError "No glucose readings provided for analysis")
  /\ analyzeTrends Math_sqrt this [] period
     = Throw (mkError "No glucose readings provided for trend analysis")
  /\ (forall stats, calculateGlucoseStats Math_sqrt this [] <> Return stats)
  /\ (forall trends, analyzeTrends Math_sqrt this [] period <> Return trends).
Proof.
  repeat split; try reflexivity; intros x; discriminate.
Qed.

(** Conversely an exception is thrown on the empty list only. *)
Lemma calculateGlucoseStats_returns (Math_sqrt : Q -> Q)
    (this : GlucoseAnalytics) (readings : list GlucoseReading) :
  readings <> [] ->
  exists stats, calculateGlucoseStats Math_sqrt this readings = Return stats.
Proof.
  intros Hne. unfold calculateGlucoseStats. rewrite (length_zero_eqb _ Hne).
  eexists. reflexivity.
Qed.

Lemma analyzeTrends_returns (Math_sqrt : Q -> Q)
    (this : GlucoseAnalytics) (readings : list GlucoseReading) (period : Period) :
  readings <> [] ->
  exists trends, analyzeTrends Math_sqrt this readings period = Return trends.
Proof.
  intros Hne. unfold analyzeTrends. rewrite (length_zero_eqb _ Hne).
  eexists. reflexivity.
Qed.

(** ** The period *)

(** C5. The period has no influence on the report of [analyzeTrends]:
    whatever the readings, two periods give the same result. *)
Theorem analyzeTrends_period_irrelevant (Math_sqrt : Q -> Q)
    (this : GlucoseAnalytics) (readings : list GlucoseReading)
    (p1 p2 : Period) :
  analyzeTrends Math_sqrt this readings p1
  = analyzeTrends Math_sqrt this readings p2.
Proof.
  unfold analyzeTrends.
  destruct (Nat.eqb (length readings) 0).
  - (* the exception does not mention the period *)
    reflexivity.
  - (* neither does any field of the report *)
    f_equal.
Qed.

(** ** Mean, standard deviation and management indicator *)

Lemma Math_pow_2 (x : Q) : Math_pow x 2 == x * x.
Proof. unfold Math_pow. simpl. reflexivity. Qed.

Lemma reducedMean_mean (xs : list Q) : reducedMean xs == mean xs.
Proof.
  unfold reducedMean, mean. rewrite reduce_plus.
  now rewrite Qplus_0_l.
Qed.

Lemma Qsum_map_ext (f g : Q -> Q) (xs : list Q) :
  (forall x, f x == g x) -> Qsum (map f xs) == Qsum (map g xs).
Proof.
  intros H. induction xs as [|x xs IH]; simpl; [reflexivity|].
  now rewrite IH, H.
Qed.

Lemma reducedVariance_populationVariance (xs : list Q) :
  reducedVariance xs == populationVariance xs.
Proof.
  unfold reducedVariance, populationVariance.
  rewrite (reduce_sum (fun val => Math_pow (val - reducedMean xs) 2)).
  rewrite Qplus_0_l.
  rewrite (Qsum_map_ext _ (fun x => (x - mean xs) * (x - mean xs))); [reflexivity|].
  intros x. rewrite Math_pow_2. now rewrite reducedMean_mean.
Qed.

(** What [calculateGlucoseStats] returns on a non-empty list. *)
Lemma calculateGlucoseStats_nonempty (Math_sqrt : Q -> Q)
    (this : GlucoseAnalytics) (readings : list GlucoseReading) :
  readings <> [] ->
  exists stats : GlucoseStats,
    calculateGlucoseStats Math_sqrt this readings = Return stats
    /\ average stats = Math_round (reducedMean (map value readings) * 100) / 100
    /\ gmi stats
       = Math_round ((3.31 + 0.02392 * reducedMean (map value readings)) * 100) / 100
    /\ standardDeviation stats
       = Math_round (Math_sqrt (reducedVariance (map value readings)) * 100) / 100
    /\ coefficientOfVariation stats
       = num_div (num_round (num_mul
           (num_mul (num_div (Finite (Math_sqrt (reducedVariance (map value readings))))
                             (Finite (reducedMean (map value readings))))
                    (Finite 100))
           (Finite 100))) (Finite 100).
Proof.
  intros Hne. unfold calculateGlucoseStats. rewrite (length_zero_eqb _ Hne).
  eexists. split; [reflexivity|]. repeat split.
Qed.

Lemma Qeq_bool_false (x y : Q) : ~ x == y -> Qeq_bool x y = false.
Proof.
  intros H. destruct (Qeq_bool x y) eqn:E; [|reflexivity].
  apply Qeq_bool_iff in E. contradiction.
Qed.


(** The coefficient the code returns when the average is not zero. *)
Lemma coefficient_finite (sd avg : Q) :
  ~ avg == 0 ->
  exists c : Q,
    num_div (num_round (num_mul (num_mul (num_div (Finite sd) (Finite avg))
                                         (Finite 100)) (Finite 100))) (Finite 100)
    = Finite c
    /\ c == round2 (100 * sd / avg).
Proof.
  intros Havg. unfold num_div at 2. rewrite (Qeq_bool_false _ _ Havg).
  cbn [num_mul num_round num_div].
  change (Qeq_bool 100 0) with false. cbv iota.
  eexists. split; [reflexivity|].
  rewrite Math_round_round2. apply round2_proper. field. exact Havg.
Qed.



#[global] Instance sqrtMicro_proper : Proper (Qeq ==> Qeq) sqrtMicro.
Proof.
  intros x y E. unfold sqrtMicro.
  assert (F : Qfloor (x * 1000000000000) = Qfloor (y * 1000000000000)).
  { apply Qfloor_comp. now rewrite E. }
  now rewrite F.
Qed.

Lemma sqrtMicro_0 : sqrtMicro 0 == 0.
Proof. reflexivity. Qed.



(** On the single reading 100 the management indicator returned is 5.70,
    the rounding of 3.31 + 0.02392 * 100 = 5.702. *)
Example single_reading_gmi :
  exists stats : GlucoseStats,
    calculateGlucoseStats sqrtMicro analytics [readingAt 100 8] = Return stats
    /\ gmi stats == 5.70
    /\ 3.31 + 0.02392 * average stats == 5.702.
Proof. eexists. split; [reflexivity|]. split; reflexivity. Qed.

(** The variance divides by N: on the values 1 and 3 it is 1, where the
    sample variance is 2, and the standard deviation returned is 1. *)
Example population_not_sample :
  populationVariance [1; 3] == 1
  /\ sampleVariance [1; 3] == 2
  /\ exists stats : GlucoseStats,
       calculateGlucoseStats sqrtMicro analytics [readingAt 1 8; readingAt 3 9]
       = Return stats
       /\ standardDeviation stats == 1.
Proof.
  split; [reflexivity|]. split; [reflexivity|].
  eexists. split; reflexivity.
Qed.

(** In binary64 the single reading 100 gives these values as well. *)
Example single_reading_binary64 :
  Binary64.calculateGlucoseStats PrimFloat.sqrt Binary64.square analytics64
    (map toBinary64 [readingAt 100 8])
  = Return (Binary64.mkStats 100 5.7 100 0 0 0 0).
Proof. vm_compute. reflexivity. Qed.

(** A tie.  Of 37 readings of 128 and 3 of 129 the mean is 128.075.  In
    binary64 the mean times 100 is 12807.499999999998 and the average
    returned is 128.07; in exact arithmetic it is 128.08.  Both are nearest
    hundredths of the mean. *)
Example average_tie_binary64 :
  (exists stats : Binary64.GlucoseStats,
     Binary64.calculateGlucoseStats PrimFloat.sqrt Binary64.square analytics64
       (map toBinary64 tiedAverage) = Return stats
     /\ Binary64.average stats = 128.07%float)
  /\ (exists stats : GlucoseStats,
        calculateGlucoseStats sqrtMicro analytics tiedAverage = Return stats
        /\ average stats == 128.08)
  /\ mean (map value tiedAverage) == 128.075
  /\ nearestHundredth 128.07 (mean (map value tiedAverage))
  /\ nearestHundredth 128.08 (mean (map value tiedAverage)).
Proof.
  split; [eexists; split; vm_compute; reflexivity|].
  split; [eexists; split; [reflexivity | now vm_compute]|].
  split; [now vm_compute|].
  split; (split; [|apply Qabs_Qle_condition; split; now vm_compute]).
  - now exists 12807%Z.
  - now exists 12808%Z.
Qed.

(** Beyond the range of binary64 the sums overflow: of two readings of
    1e308 the average returned is infinite and the coefficient of variation
    is [NaN]. *)
Example overflow_binary64 :
  exists stats : Binary64.GlucoseStats,
    Binary64.calculateGlucoseStats PrimFloat.sqrt Binary64.square analytics64
      [Binary64.mkReading 1e308 (mkDate 8) FLAT true false "red";
       Binary64.mkReading 1e308 (mkDate 9) FLAT true false "red"] = Return stats
    /\ Binary64.average stats = infinity
    /\ PrimFloat.is_nan (Binary64.coefficientOfVariation stats) = true.
Proof. eexists. split; [|split]; vm_compute; reflexivity. Qed.

(** ** Coefficient of variation *)




(** With a positive standard deviation the coefficient is infinite: the
    values -10 and 10. *)
Example zero_mean_gives_Infinity :
  exists stats : GlucoseStats,
    calculateGlucoseStats sqrtMicro analytics [readingAt (-10) 9; readingAt 10 9]
    = Return stats
    /\ coefficientOfVariation stats = Infinity.
Proof. eexists. split; reflexivity. Qed.

(** A tie.  The values 137 and 183 have mean 160 and standard deviation 23:
    the coefficient is 14.375.  Binary64 returns 14.37, exact arithmetic
    14.38. *)
Example coefficient_tie_binary64 :
  (exists stats : Binary64.GlucoseStats,
     Binary64.calculateGlucoseStats PrimFloat.sqrt Binary64.square analytics64
       (map toBinary64 [readingAt 137 8; readingAt 183 9]) = Return stats
     /\ Binary64.coefficientOfVariation stats = 14.37%float)
  /\ (exists stats : GlucoseStats,
        calculateGlucoseStats sqrtMicro analytics [readingAt 137 8; readingAt 183 9]
        = Return stats
        /\ exists c : Q, coefficientOfVariation stats = Finite c /\ c == 14.38).
Proof.
  split; [eexists; split; vm_compute; reflexivity|].
  eexists. split; [reflexivity|]. eexists. split; [reflexivity | now vm_compute].
Qed.

(** In binary64 too a zero mean gives [NaN] or an infinity. *)
Example zero_mean_binary64 :
  (exists stats : Binary64.GlucoseStats,
     Binary64.calculateGlucoseStats PrimFloat.sqrt Binary64.square analytics64
       (map toBinary64 [readingAt 0 9]) = Return stats
     /\ PrimFloat.is_nan (Binary64.coefficientOfVariation stats) = true)
  /\ (exists stats : Binary64.GlucoseStats,
        Binary64.calculateGlucoseStats PrimFloat.sqrt Binary64.square analytics64
          (map toBinary64 [readingAt (-10) 9; readingAt 10 9]) = Return stats
        /\ Binary64.coefficientOfVariation stats = infinity).
Proof. split; eexists; split; vm_compute; reflexivity. Qed.

(** ** Dawn phenomenon *)

Lemma groupByHour_lookup (m : gmap nat (list Q)) (r : GlucoseReading) (h : nat) :
  groupByHour m r !! h
  = if Nat.eqb (getHours (timestamp r)) h
    then Some (default [] (m !! h) ++ [value r])
    else m !! h.
Proof.
  unfold groupByHour.
  destruct (Nat.eqb_spec (getHours (timestamp r)) h) as [->|Hne].
  - rewrite lookup_alter_eq.
    destruct (m !! h) as [vs|] eqn:E; simpl.
    + now rewrite E.
    + now rewrite lookup_insert_eq.
  - rewrite lookup_alter_ne by exact Hne.
    destruct (m !! getHours (timestamp r)); [reflexivity|].
    now rewrite lookup_insert_ne.
Qed.

Lemma hourlyReadings_lookup (readings : list GlucoseReading)
    (m : gmap nat (list Q)) (h : nat) :
  fold_left groupByHour readings m !! h
  = match valuesAtHour h readings with
    | [] => m !! h
    | vs => Some (default [] (m !! h) ++ vs)
    end.
Proof.
  revert m. induction readings as [|r rs IH]; intros m; [reflexivity|].
  simpl fold_left. rewrite IH, groupByHour_lookup.
  unfold valuesAtHour. simpl List.filter.
  destruct (Nat.eqb (getHours (timestamp r)) h); simpl.
  - destruct (map value (List.filter _ rs)) as [|v vs].
    + reflexivity.
    + now rewrite <- app_assoc.
  - reflexivity.
Qed.

(** The entry [hourlyAverages.get(h) || 0] is the mean of hour [h]. *)
Lemma hourlyAverages_hourMean (readings : list GlucoseReading) (h : nat) :
  getOrZero
    (fmap (M := gmap nat) (fun values =>
       fold_left (fun sum val => sum + val) values 0 / Qlength values)
       (fold_left groupByHour readings ∅)) h
  == hourMean h readings.
Proof.
  unfold getOrZero, hourMean.
  rewrite lookup_fmap, hourlyReadings_lookup, lookup_empty.
  destruct (valuesAtHour h readings) as [|v vs]; [reflexivity|].
  change ((if Qeq_bool (reducedMean (v :: vs)) 0 then 0 else reducedMean (v :: vs))
          == mean (v :: vs)).
  destruct (Qeq_bool (reducedMean (v :: vs)) 0) eqn:E.
  - apply Qeq_bool_iff in E. rewrite <- reducedMean_mean. now rewrite E.
  - apply reducedMean_mean.
Qed.

Lemma detectDawnPhenomenon_rule (this : GlucoseAnalytics)
    (readings : list GlucoseReading) :
  detectDawnPhenomenon this readings
  = Qgtb (hourMean 8 readings - hourMean 4 readings) 20
    || Qgtb (hourMean 6 readings - hourMean 4 readings) 15.
Proof.
  unfold detectDawnPhenomenon. cbv zeta.
  now rewrite !hourlyAverages_hourMean.
Qed.

(** The same lookups in binary64. *)
Lemma groupByHour_lookup_binary64 (m : gmap nat (list float))
    (r : Binary64.GlucoseReading) (h : nat) :
  Binary64.groupByHour m r !! h
  = if Nat.eqb (getHours (Binary64.timestamp r)) h
    then Some (default [] (m !! h) ++ [Binary64.value r])
    else m !! h.
Proof.
  unfold Binary64.groupByHour.
  destruct (Nat.eqb_spec (getHours (Binary64.timestamp r)) h) as [->|Hne].
  - rewrite lookup_alter_eq.
    destruct (m !! h) as [vs|] eqn:E; simpl.
    + now rewrite E.
    + now rewrite lookup_insert_eq.
  - rewrite lookup_alter_ne by exact Hne.
    destruct (m !! getHours (Binary64.timestamp r)); [reflexivity|].
    now rewrite lookup_insert_ne.
Qed.

Lemma hourlyReadings_lookup_binary64 (readings : list Binary64.GlucoseReading)
    (m : gmap nat (list float)) (h : nat) :
  fold_left Binary64.groupByHour readings m !! h
  = match Binary64.valuesAtHour h readings with
    | [] => m !! h
    | vs => Some (default [] (m !! h) ++ vs)
    end.
Proof.
  revert m. induction readings as [|r rs IH]; intros m; [reflexivity|].
  simpl fold_left. rewrite IH, groupByHour_lookup_binary64.
  unfold Binary64.valuesAtHour. simpl List.filter.
  destruct (Nat.eqb (getHours (Binary64.timestamp r)) h); simpl.
  - destruct (map Binary64.value (List.filter _ rs)) as [|v vs].
    + reflexivity.
    + now rewrite <- app_assoc.
  - reflexivity.
Qed.

(** The entry [hourlyAverages.get(h) || 0] is the mean of hour [h] as
    binary64 computes it. *)
Lemma hourlyAverages_hourMean_binary64 (readings : list Binary64.GlucoseReading)
    (h : nat) :
  Binary64.getOrZero
    (fmap (M := gmap nat) (fun values =>
       (fold_left (fun sum val => sum + val) values 0 / Binary64.Flength values)%float)
       (fold_left Binary64.groupByHour readings ∅)) h
  = Binary64.hourMean h readings.
Proof.
  unfold Binary64.getOrZero, Binary64.hourMean.
  rewrite lookup_fmap, hourlyReadings_lookup_binary64, lookup_empty.
  destruct (Binary64.valuesAtHour h readings) as [|v vs]; reflexivity.
Qed.

(** C6, as amended. [analyzeTrends] reports [dawnPhenomenon] true exactly
    when a8 - a4 > 20 or a6 - a4 > 15, where a4, a6 and a8 are the means of
    the readings of local hours 4, 6 and 8 and the two differences, all as
    binary64 computes them: a mean is the sum of the values of the hour,
    accumulated from 0 in the order of the readings, divided by their
    number, and it counts as 0 for an hour without reading and when it is 0
    or [NaN].  The means 90, 95 and 115 yield true. *)
Theorem dawn_phenomenon_rule_binary64 (Math_sqrt : float -> float)
    (Math_pow : float -> float -> float) (this : Binary64.GlucoseAnalytics)
    (readings : list Binary64.GlucoseReading) (period : Period) :
  readings <> [] ->
  exists trends : Binary64.TrendAnalysis,
    Binary64.analyzeTrends Math_sqrt Math_pow this readings period = Return trends
    /\ Binary64.dawnPhenomenon trends
       = ((20 <? Binary64.hourMean 8 readings - Binary64.hourMean 4 readings)
          || (15 <? Binary64.hourMean 6 readings - Binary64.hourMean 4 readings))%float
    /\ (Binary64.hourMean 4 readings = 90%float ->
        Binary64.hourMean 6 readings = 95%float ->
        Binary64.hourMean 8 readings = 115%float ->
        Binary64.dawnPhenomenon trends = true).
Proof.
  intros Hne. unfold Binary64.analyzeTrends. rewrite (length_zero_eqb _ Hne).
  eexists. split; [reflexivity|]. cbn [Binary64.dawnPhenomenon].
  unfold Binary64.detectDawnPhenomenon. cbv zeta.
  rewrite !hourlyAverages_hourMean_binary64.
  split; [reflexivity|].
  intros -> -> ->. reflexivity.
Qed.

Lemma dawn_phenomenon_rule_binary64_witness :
  exists trends : Binary64.TrendAnalysis,
    Binary64.analyzeTrends PrimFloat.sqrt Binary64.square analytics64
      (map toBinary64
         [readingAt 85 4; readingAt 95 6; readingAt 110 8; readingAt 95 4;
          readingAt 120 8; readingAt 100 12]) weekly = Return trends
    /\ Binary64.dawnPhenomenon trends = true.
Proof.
  destruct (dawn_phenomenon_rule_binary64 PrimFloat.sqrt Binary64.square analytics64
              (map toBinary64
                 [readingAt 85 4; readingAt 95 6; readingAt 110 8; readingAt 95 4;
                  readingAt 120 8; readingAt 100 12]) weekly)
    as (trends & Hret & _ & Hex).
  - discriminate.
  - exists trends. split; [exact Hret|]. apply Hex; reflexivity.
Defined.

(** Against C6 as stated, with the means and the differences of arithmetic.
    The readings 108, 108, 109 at hour 4 and 128, 128, 129 at hour 8 have
    means 325/3 and 385/3, which differ by 20 exactly, and there is no
    reading at hour 6: neither a8 - a4 > 20 nor a6 - a4 > 15 holds.  The
    code reports the dawn phenomenon all the same: in binary64 the means
    are 108.33333333333333 and 128.33333333333334 and their difference is
    20.000000000000014. *)
Lemma dawn_reported_at_a_rise_of_20 :
  (exists trends : Binary64.TrendAnalysis,
     Binary64.analyzeTrends PrimFloat.sqrt Binary64.square analytics64
       (map toBinary64 dawnTie) weekly = Return trends
     /\ Binary64.dawnPhenomenon trends = true
     /\ In "Dawn phenomenon detected - glucose rises in early morning hours"
          (Binary64.patterns trends))
  /\ (Binary64.hourMean 8 (map toBinary64 dawnTie)
      - Binary64.hourMean 4 (map toBinary64 dawnTie) = 20.000000000000014)%float
  /\ hourMean 8 dawnTie - hourMean 4 dawnTie == 20
  /\ hourMean 6 dawnTie - hourMean 4 dawnTie < 15
  /\ ~ (20 < hourMean 8 dawnTie - hourMean 4 dawnTie
        \/ 15 < hourMean 6 dawnTie - hourMean 4 dawnTie).
Proof.
  split.
  { eexists. split; [vm_compute; reflexivity|]. split; [reflexivity|].
    left. reflexivity. }
  split; [vm_compute; reflexivity|].
  split; [reflexivity|]. split; [reflexivity|].
  intros [H | H]; vm_compute in H; discriminate.
Qed.

(** A rise of 20 exactly between hours 4 and 8, and of 15 between hours 4
    and 6, is not reported. *)
Example dawn_thresholds_strict :
  detectDawnPhenomenon analytics [readingAt 90 4; readingAt 105 6; readingAt 110 8]
  = false.
Proof. reflexivity. Qed.

(** An hour without reading counts as a mean of 0: readings at hour 8 only
    are reported as soon as their mean exceeds 20. *)
Example dawn_missing_hour :
  detectDawnPhenomenon analytics [readingAt 100 8] = true.
Proof. reflexivity. Qed.

(** ** Hyperglycemic periods *)

Lemma runLengths_nonempty (flags : list bool) : runLengths flags <> [].
Proof.
  destruct flags as [|[|] flags]; simpl; try discriminate.
  destruct (runLengths flags); discriminate.
Qed.

(** The runs of a list of flags give the list back, and a list of runs is
    the list of runs of its flags: every list of flags is in exactly one way
    a sequence of stretches of [true] separated by single [false]s. *)
Lemma joinRuns_runLengths (flags : list bool) : joinRuns (runLengths flags) = flags.
Proof.
  induction flags as [|[|] flags IH]; simpl; [reflexivity| |].
  - pose proof (runLengths_nonempty flags) as Hne.
    destruct (runLengths flags) as [|n [|m ns]]; [congruence| |];
      simpl in *; now rewrite IH.
  - pose proof (runLengths_nonempty flags) as Hne.
    destruct (runLengths flags) as [|n ns]; [congruence|].
    now rewrite IH.
Qed.

Lemma runLengths_repeat_app (n : nat) (flags : list bool) :
  runLengths (repeat true n ++ false :: flags) = n :: runLengths flags.
Proof.
  induction n as [|n IH]; simpl; [reflexivity|]. now rewrite IH.
Qed.

Lemma runLengths_repeat (n : nat) : runLengths (repeat true n) = [n].
Proof.
  induction n as [|n IH]; simpl; [reflexivity|]. now rewrite IH.
Qed.

Lemma runLengths_joinRuns (ns : list nat) :
  ns <> [] -> runLengths (joinRuns ns) = ns.
Proof.
  induction ns as [|n [|m ns] IH]; intros Hne; [congruence| |].
  - apply runLengths_repeat.
  - change (joinRuns (n :: m :: ns))
      with (repeat true n ++ false :: joinRuns (m :: ns)).
    rewrite runLengths_repeat_app, IH; [reflexivity | discriminate].
Qed.

(** The loop of [detectHyperglycemicPeriods] from any state. *)
Lemma hyperStep_fold (this : GlucoseAnalytics) (readings : list GlucoseReading)
    (periods consecutiveHigh : nat) :
  (let '(p, c) := fold_left (hyperStep this) readings (periods, consecutiveHigh) in
   if Nat.leb 6 c then S p else p)
  = (periods
     + length (List.filter (Nat.leb 6)
         (lengthenFirst consecutiveHigh (runLengths (map (isAbove this) readings)))))%nat.
Proof.
  revert periods consecutiveHigh.
  induction readings as [|r rs IH]; intros p c.
  - cbn [fold_left map runLengths lengthenFirst List.filter].
    rewrite Nat.add_0_r. destruct (Nat.leb 6 c); cbn [length]; lia.
  - cbn [fold_left map runLengths].
    assert (Hstep : hyperStep this (p, c) r
                    = if isAbove this r then (p, S c)
                      else ((if Nat.leb 6 c then S p else p), O)) by reflexivity.
    rewrite Hstep. clear Hstep.
    destruct (isAbove this r).
    + rewrite IH.
      pose proof (runLengths_nonempty (map (isAbove this) rs)) as Hne.
      destruct (runLengths (map (isAbove this) rs)) as [|n ns]; [congruence|].
      simpl lengthenFirst. now rewrite Nat.add_succ_r.
    + rewrite IH.
      pose proof (runLengths_nonempty (map (isAbove this) rs)) as Hne.
      destruct (runLengths (map (isAbove this) rs)) as [|n ns]; [congruence|].
      cbn [lengthenFirst List.filter Nat.add]. rewrite Nat.add_0_r.
      destruct (Nat.leb 6 c); cbn [length]; lia.
Qed.

Lemma map_all_true {A : Type} (f : A -> bool) (xs : list A) :
  Forall (fun x => f x = true) xs -> map f xs = repeat true (length xs).
Proof.
  induction 1 as [|x xs Hx _ IH]; simpl; [reflexivity|]. now rewrite Hx, IH.
Qed.

(** C7. The count of [detectHyperglycemicPeriods] is the number of maximal
    runs of consecutive readings above the target range (value greater than
    the high bound) whose length is at least 6, a run still open at the end
    of the sequence included.  Six readings above the range followed by one
    that is not count as 1 period, six readings above the range alone count
    as 1, five count as 0. *)
Theorem hyperglycemic_periods_count_runs (this : GlucoseAnalytics)
    (readings : list GlucoseReading) :
  detectHyperglycemicPeriods this readings
  = extendedRuns (map (isAbove this) readings)
  /\ (forall highs r, readings = highs ++ [r] -> length highs = 6%nat ->
        Forall (fun x => isAbove this x = true) highs ->
        isAbove this r = false ->
        detectHyperglycemicPeriods this readings = 1%nat)
  /\ (length readings = 6%nat ->
        Forall (fun x => isAbove this x = true) readings ->
        detectHyperglycemicPeriods this readings = 1%nat)
  /\ (length readings = 5%nat ->
        Forall (fun x => isAbove this x = true) readings ->
        detectHyperglycemicPeriods this readings = 0%nat).
Proof.
  assert (Hmain : forall rs, detectHyperglycemicPeriods this rs
                             = extendedRuns (map (isAbove this) rs)).
  { intros rs. unfold detectHyperglycemicPeriods, extendedRuns.
    rewrite (hyperStep_fold this rs 0 0). simpl Nat.add.
    pose proof (runLengths_nonempty (map (isAbove this) rs)) as Hne.
    now destruct (runLengths (map (isAbove this) rs)) as [|n ns]. }
  split; [apply Hmain|]. split; [|split].
  - intros highs r -> Hlen Hall Hr.
    rewrite Hmain, map_app, (map_all_true _ _ Hall), Hlen. simpl map.
    rewrite Hr. reflexivity.
  - intros Hlen Hall. rewrite Hmain, (map_all_true _ _ Hall), Hlen. reflexivity.
  - intros Hlen Hall. rewrite Hmain, (map_all_true _ _ Hall), Hlen. reflexivity.
Qed.

Lemma hyperglycemic_periods_count_runs_witness :
  detectHyperglycemicPeriods analytics
    (repeat (readingAt 200 14) 6 ++ [readingAt 120 15]) = 1%nat
  /\ detectHyperglycemicPeriods analytics (repeat (readingAt 200 14) 6) = 1%nat
  /\ detectHyperglycemicPeriods analytics (repeat (readingAt 200 14) 5) = 0%nat.
Proof.
  split; [|split].
  - apply (hyperglycemic_periods_count_runs analytics
             (repeat (readingAt 200 14) 6 ++ [readingAt 120 15]))
      with (highs := repeat (readingAt 200 14) 6) (r := readingAt 120 15).
    + reflexivity.
    + reflexivity.
    + repeat constructor.
    + reflexivity.
  - apply (hyperglycemic_periods_count_runs analytics (repeat (readingAt 200 14) 6)).
    + reflexivity.
    + repeat constructor.
  - apply (hyperglycemic_periods_count_runs analytics (repeat (readingAt 200 14) 5)).
    + reflexivity.
    + repeat constructor.
Defined.

(** Two qualifying runs separated by one reading in range count twice; a
    run of seven counts once. *)
Example hyperglycemic_two_runs :
  detectHyperglycemicPeriods analytics
    (repeat (readingAt 200 14) 6 ++ [readingAt 120 15]
     ++ repeat (readingAt 250 16) 7) = 2%nat.
Proof. reflexivity. Qed.

(** ** Meal response *)

Lemma spikeAt_isSpike (readings : list GlucoseReading) (i : nat) :
  spikeAt readings i = true <-> isSpike readings i.
Proof.
  unfold spikeAt, isSpike. rewrite Bool.andb_true_iff, !Qgtb_gt. reflexivity.
Qed.

Lemma inject_Z_S (n : nat) : inject_Z (Z.of_nat (S n)) == inject_Z (Z.of_nat n) + 1.
Proof. rewrite Nat2Z.inj_succ. unfold Z.succ. now rewrite inject_Z_plus. Qed.

Lemma mealStep_invariant (readings : list GlucoseReading) (st : Q * nat) (i : nat) :
  mealInvariant st -> mealInvariant (mealStep readings st i).
Proof.
  destruct st as [t c]. unfold mealStep. fold (spikeAt readings i).
  destruct (spikeAt readings i) eqn:E; [|tauto].
  apply spikeAt_isSpike in E. destruct E as [E _].
  intros [[Hc Ht] | [Hc Ht]]; cbn [fst snd] in *; right;
    split; cbn [fst snd]; try lia.
  - subst c. change (inject_Z (Z.of_nat 1)) with 1. lra.
  - rewrite inject_Z_S. lra.
Qed.

Lemma mealStep_count (readings : list GlucoseReading) (t : Q) (c i : nat) :
  snd (mealStep readings (t, c) i)
  = (c + if spikeAt readings i then 1 else 0)%nat.
Proof.
  unfold mealStep. fold (spikeAt readings i).
  destruct (spikeAt readings i); simpl; lia.
Qed.

Lemma mealLoop_fold (readings : list GlucoseReading) (indices : list nat)
    (st : Q * nat) :
  mealInvariant st ->
  mealInvariant (fold_left (mealStep readings) indices st)
  /\ snd (fold_left (mealStep readings) indices st)
     = (snd st + length (List.filter (spikeAt readings) indices))%nat.
Proof.
  revert st. induction indices as [|i indices IH]; intros st Hst.
  - simpl. split; [exact Hst | lia].
  - simpl fold_left.
    destruct (IH _ (mealStep_invariant readings st i Hst)) as [Hinv Hcount].
    split; [exact Hinv|]. rewrite Hcount.
    destruct st as [t c]. rewrite mealStep_count. simpl List.filter.
    destruct (spikeAt readings i); simpl; lia.
Qed.

Lemma filter_nil_iff {A : Type} (p : A -> bool) (xs : list A) :
  List.filter p xs = [] <-> forall x, In x xs -> p x = false.
Proof.
  induction xs as [|x xs IH]; simpl.
  - split; [intros _ y [] | reflexivity].
  - destruct (p x) eqn:E.
    + split; [discriminate|]. intros H. specialize (H x (or_introl eq_refl)).
      congruence.
    + rewrite IH. split.
      * intros H y [<-|Hy]; auto.
      * intros H y Hy. apply H. now right.
Qed.

(** No index of the loop passes the test exactly when no reading is a
    spike. *)
Lemma no_spike_counted (readings : list GlucoseReading) :
  List.filter (spikeAt readings) (seq 1 (length readings - 2)) = []
  <-> noSpike readings.
Proof.
  rewrite filter_nil_iff. unfold noSpike. split.
  - intros H i Hi1 Hi2 Hspike. apply spikeAt_isSpike in Hspike.
    rewrite H in Hspike; [discriminate|]. apply in_seq. lia.
  - intros H i Hi. apply in_seq in Hi.
    destruct (spikeAt readings i) eqn:E; [|reflexivity].
    apply spikeAt_isSpike in E. exfalso. apply (H i); [lia | lia | exact E].
Qed.

(** The value of [calculateMealResponse]. *)
Lemma calculateMealResponse_cases (this : GlucoseAnalytics)
    (readings : list GlucoseReading) :
  (calculateMealResponse this readings = 0 /\ noSpike readings)
  \/ (30 < calculateMealResponse this readings /\ ~ noSpike readings).
Proof.
  unfold calculateMealResponse, mealLoop.
  destruct (mealLoop_fold readings (seq 1 (length readings - 2)) (0, O))
    as [Hinv Hcount].
  { left. split; reflexivity. }
  rewrite <- no_spike_counted.
  destruct (fold_left _ _ _) as [t c]. simpl in Hcount.
  destruct Hinv as [[Hc Ht] | [Hc Ht]]; simpl in Hc, Ht.
  - left. subst c. split; [reflexivity|].
    destruct (List.filter _ _); [reflexivity | discriminate].
  - right. destruct c as [|c]; [lia|]. simpl Nat.ltb. split.
    + apply Qlt_shift_div_l; [|lra].
      change 0 with (inject_Z 0). rewrite <- Zlt_Qlt. lia.
    + intros Hnil. rewrite Hnil in Hcount. discriminate.
Qed.

Lemma lastChar_append (s t : string) :
  t <> EmptyString -> lastChar (s ++ t)%string = lastChar t.
Proof.
  intros Ht. induction s as [|c s IH]; [reflexivity|].
  change (lastChar (String c (s ++ t)) = lastChar t). cbn [lastChar].
  destruct (s ++ t)%string eqn:E; [|exact IH].
  destruct s as [|c' s].
  - change (t = EmptyString) in E. congruence.
  - change (String c' (s ++ t) = EmptyString) in E. discriminate.
Qed.

(** The patterns of a report, bucket by bucket. *)
Lemma analyzeTrends_patterns (Math_sqrt : Q -> Q) (this : GlucoseAnalytics)
    (readings : list GlucoseReading) (period : Period) :
  readings <> [] ->
  exists trends : TrendAnalysis,
    analyzeTrends Math_sqrt this readings period = Return trends
    /\ patterns trends
       = (if detectDawnPhenomenon this readings
          then ["Dawn phenomenon detected - glucose rises in early morning hours"]
          else [])
         ++ (if Qgtb (calculateMealResponse this readings) 50
             then ["High postprandial glucose response detected"]
             else if Qltb (calculateMealResponse this readings) 20
             then ["Good postprandial glucose control"]
             else [])
         ++ (if Qltb (calculateOvernightStability Math_sqrt this readings) 10
             then ["Excellent overnight glucose stability"]
             else if Qgtb (calculateOvernightStability Math_sqrt this readings) 30
             then ["High overnight glucose variability"]
             else [])
         ++ (if Nat.ltb 0 (detectHypoglycemicEpisodes this readings)
             then [(toString (detectHypoglycemicEpisodes this readings)
                    ++ " hypoglycemic episode(s) detected")%string]
             else [])
         ++ (if Nat.ltb 0 (detectHyperglycemicPeriods this readings)
             then [(toString (detectHyperglycemicPeriods this readings)
                    ++ " extended hyperglycemic period(s) detected")%string]
             else [])
    /\ mealResponse trends
       = Math_round (calculateMealResponse this readings * 100) / 100.
Proof.
  intros Hne. unfold analyzeTrends. rewrite (length_zero_eqb _ Hne).
  eexists. split; [reflexivity|]. split; [|reflexivity].
  cbn [patterns]. unfold pushIf.
  destruct (detectDawnPhenomenon this readings),
    (Qgtb (calculateMealResponse this readings) 50),
    (Qltb (calculateMealResponse this readings) 20),
    (Qltb (calculateOvernightStability Math_sqrt this readings) 10),
    (Qgtb (calculateOvernightStability Math_sqrt this readings) 30),
    (Nat.ltb 0 (detectHypoglycemicEpisodes this readings)),
    (Nat.ltb 0 (detectHyperglycemicPeriods this readings)); reflexivity.
Qed.

(** A whole-number value is an integer. *)
Lemma wholeNumber_inject_Z (v : Q) :
  wholeNumber v = true -> exists z : Z, v == inject_Z z.
Proof.
  unfold wholeNumber. rewrite !Bool.andb_true_iff. intros [[E _] _].
  exists (Qfloor v). now apply Qeq_bool_iff.
Qed.

Lemma sensorReadings_valueAt (readings : list GlucoseReading) (i : nat) :
  sensorReadings readings = true -> exists z : Z, valueAt readings i == inject_Z z.
Proof.
  intros Hwhole. unfold valueAt.
  destruct (readings !! i) as [r|] eqn:E.
  - apply wholeNumber_inject_Z.
    unfold sensorReadings in Hwhole. rewrite forallb_forall in Hwhole.
    apply (Hwhole r). apply list_elem_of_In. eapply list_elem_of_lookup_2. exact E.
  - exists 0%Z. reflexivity.
Qed.

(** Between whole numbers, more than 30 above is at least 31 above. *)
Lemma whole_rise (a b : Q) (za zb : Z) :
  a == inject_Z za -> b == inject_Z zb -> b + 30 < a -> 31 <= a - b.
Proof.
  intros Ea Eb H. rewrite Ea, Eb in *.
  assert (Hz : (zb + 30 < za)%Z).
  { rewrite Zlt_Qlt, inject_Z_plus. exact H. }
  assert (Hz' : (31 <= za - zb)%Z) by lia.
  rewrite Zle_Qle in Hz'. unfold Z.sub in Hz'.
  rewrite inject_Z_plus, inject_Z_opp in Hz'. exact Hz'.
Qed.

(** On whole-number readings the total is at least 31 times the number of
    spikes. *)
Lemma mealLoop_whole (readings : list GlucoseReading) (indices : list nat)
    (st : Q * nat) :
  sensorReadings readings = true ->
  31 * inject_Z (Z.of_nat (snd st)) <= fst st ->
  31 * inject_Z (Z.of_nat (snd (fold_left (mealStep readings) indices st)))
  <= fst (fold_left (mealStep readings) indices st).
Proof.
  intros Hwhole. revert st.
  induction indices as [|i indices IH]; intros st Hst; [exact Hst|].
  simpl fold_left. apply IH.
  destruct st as [t c]. unfold mealStep. fold (spikeAt readings i).
  destruct (spikeAt readings i) eqn:E; [|exact Hst].
  apply spikeAt_isSpike in E. destruct E as [E _].
  destruct (sensorReadings_valueAt readings i Hwhole) as [za Ea].
  destruct (sensorReadings_valueAt readings (i - 1) Hwhole) as [zb Eb].
  pose proof (whole_rise _ _ za zb Ea Eb E) as Hrise.
  cbn [fst snd] in *. rewrite inject_Z_S. lra.
Qed.

Lemma calculateMealResponse_whole (this : GlucoseAnalytics)
    (readings : list GlucoseReading) :
  sensorReadings readings = true ->
  calculateMealResponse this readings = 0
  \/ 31 <= calculateMealResponse this readings.
Proof.
  intros Hwhole. unfold calculateMealResponse, mealLoop.
  assert (Hinv : 31 * inject_Z (Z.of_nat (snd (fold_left (mealStep readings)
                                                  (seq 1 (length readings - 2)) (0, O))))
                 <= fst (fold_left (mealStep readings)
                           (seq 1 (length readings - 2)) (0, O))).
  { apply (mealLoop_whole readings _ (0, O) Hwhole). discriminate. }
  destruct (fold_left _ _ _) as [t c]. cbn [fst snd] in Hinv.
  destruct c as [|c]; [left; reflexivity|]. right. simpl Nat.ltb.
  apply Qle_shift_div_l; [|exact Hinv].
  change 0 with (inject_Z 0). rewrite <- Zlt_Qlt. lia.
Qed.

(** C10, as amended. For every list of whole-number readings the value of
    [calculateMealResponse], which [analyzeTrends] puts in a bucket, is
    exactly 0 when no reading is a spike, and otherwise at least 31, hence
    greater than 30: every spike adds current - previous > 30, a whole
    number, to the total and the value is the total over the number of
    spikes.  It is never strictly between 0 and 20, and the report of
    [analyzeTrends] has the pattern "Good postprandial glucose control"
    exactly when no reading is a spike.  The field [mealResponse] of the
    report is that value rounded to two decimals, a hundredth at most 0.005
    away from it. *)
Theorem meal_response_zero_or_above_30 (Math_sqrt : Q -> Q)
    (this : GlucoseAnalytics) (readings : list GlucoseReading) (period : Period) :
  sensorReadings readings = true ->
  ((calculateMealResponse this readings = 0 /\ noSpike readings)
   \/ (30 < calculateMealResponse this readings
       /\ 31 <= calculateMealResponse this readings
       /\ ~ noSpike readings))
  /\ ~ (0 < calculateMealResponse this readings < 20)
  /\ (readings <> [] ->
      exists trends : TrendAnalysis,
        analyzeTrends Math_sqrt this readings period = Return trends
        /\ (In "Good postprandial glucose control" (patterns trends)
            <-> noSpike readings)
        /\ nearestHundredth (mealResponse trends)
             (calculateMealResponse this readings)).
Proof.
  intros Hwhole.
  pose proof (calculateMealResponse_cases this readings) as Hcases.
  split.
  { destruct Hcases as [[E Hno] | [Hgt Hspike]]; [left; now split|].
    right. split; [exact Hgt|]. split; [|exact Hspike].
    destruct (calculateMealResponse_whole this readings Hwhole) as [E | H31];
      [|exact H31].
    rewrite E in Hgt. discriminate Hgt. }
  split.
  - destruct Hcases as [[E _] | [E _]]; [rewrite E|]; intros [H1 H2]; lra.
  - intros Hne.
    destruct (analyzeTrends_patterns Math_sqrt this readings period Hne)
      as (trends & Hret & Hpat & Hfield).
    exists trends. split; [exact Hret|].
    split; [|apply nearestHundredth_round2; rewrite Hfield; apply Math_round_round2].
    rewrite Hpat, !in_app_iff.
    assert (Hhypo : forall s : string,
              (s ++ " hypoglycemic episode(s) detected")%string
              <> "Good postprandial glucose control").
    { intros s E. apply (f_equal lastChar) in E.
      rewrite lastChar_append in E; discriminate. }
    assert (Hhyper : forall s : string,
              (s ++ " extended hyperglycemic period(s) detected")%string
              <> "Good postprandial glucose control").
    { intros s E. apply (f_equal lastChar) in E.
      rewrite lastChar_append in E; discriminate. }
    split.
    + intros [H | [H | [H | [H | H]]]].
      * destruct (detectDawnPhenomenon this readings); simpl in H;
          [destruct H as [H|[]]; discriminate | contradiction].
      * destruct Hcases as [[_ Hno] | [Hgt _]]; [exact Hno|].
        destruct (Qgtb _ 50); [destruct H as [H|[]]; discriminate|].
        destruct (Qltb _ 20) eqn:E20; [|contradiction].
        apply Qltb_lt in E20. lra.
      * destruct (Qltb _ 10); [destruct H as [H|[]]; discriminate|].
        destruct (Qgtb _ 30); [destruct H as [H|[]]; discriminate|contradiction].
      * destruct (Nat.ltb 0 (detectHypoglycemicEpisodes this readings));
          [|destruct H].
        destruct H as [H|[]]. now apply Hhypo in H.
      * destruct (Nat.ltb 0 (detectHyperglycemicPeriods this readings));
          [|destruct H].
        destruct H as [H|[]]. now apply Hhyper in H.
    + intros Hno. right. left.
      destruct Hcases as [[E _] | [_ Hspike]]; [|contradiction].
      rewrite E. simpl. now left.
Qed.

Lemma meal_response_zero_or_above_30_witness :
  (exists trends : TrendAnalysis,
     analyzeTrends sqrtMicro analytics
       [readingAt 100 12; readingAt 110 12; readingAt 105 13] weekly
     = Return trends
     /\ (In "Good postprandial glucose control" (patterns trends)
         <-> noSpike [readingAt 100 12; readingAt 110 12; readingAt 105 13]))
  /\ 31 <= calculateMealResponse analytics
             [readingAt 100 12; readingAt 140 12; readingAt 120 13].
Proof.
  split.
  - destruct (meal_response_zero_or_above_30 sqrtMicro analytics
                [readingAt 100 12; readingAt 110 12; readingAt 105 13] weekly)
      as (_ & _ & Hreport); [reflexivity|].
    destruct Hreport as (trends & Hret & Hgood & _); [discriminate|].
    exists trends. split; [exact Hret | exact Hgood].
  - destruct (meal_response_zero_or_above_30 sqrtMicro analytics
                [readingAt 100 12; readingAt 140 12; readingAt 120 13] weekly)
      as [[[E _] | (_ & H31 & _)] _]; [reflexivity| |].
    + vm_compute in E. discriminate.
    + exact H31.
Defined.

(** Against C10 as stated, for every list of readings.  After a reading of
    1 + 2^-49 a reading of 31 + 2^-48 is a spike for the code: in binary64
    the sum previous + 30 is 31, below the current reading.  The spike adds
    current - previous, which is 30 + 2^-49 and which binary64 rounds to
    30: with one spike counted the value of [calculateMealResponse] is 30,
    neither 0 nor greater than 30, and so is the field of the report. *)
Lemma meal_response_of_exactly_30 :
  exists trends : Binary64.TrendAnalysis,
    Binary64.analyzeTrends PrimFloat.sqrt Binary64.square analytics64
      (map toBinary64 faintSpike) weekly = Return trends
    /\ snd (Binary64.mealLoop (map toBinary64 faintSpike)) = 1%nat
    /\ Binary64.calculateMealResponse analytics64 (map toBinary64 faintSpike)
       = 30%float
    /\ (Binary64.calculateMealResponse analytics64 (map toBinary64 faintSpike)
        =? 0)%float = false
    /\ (30 <? Binary64.calculateMealResponse analytics64
                (map toBinary64 faintSpike))%float = false
    /\ Binary64.mealResponse trends = 30%float.
Proof.
  eexists. split; [vm_compute; reflexivity|].
  repeat split; vm_compute; reflexivity.
Qed.

(** A spike of 40 gives a response of 40 and no meal pattern; two spikes of
    31 and 91 give their mean 61 and the pattern of a high response. *)
Example meal_response_values :
  calculateMealResponse analytics
    [readingAt 100 12; readingAt 140 12; readingAt 120 13] == 40
  /\ calculateMealResponse analytics
       [readingAt 100 12; readingAt 131 12; readingAt 100 13;
        readingAt 191 13; readingAt 100 14] == 61.
Proof. split; reflexivity. Qed.

(** The field [mealResponse] of the report is the value rounded to two
    decimals, which can be 30 exactly: the readings 0, 30.001, 0. *)
Example meal_response_field_rounded :
  exists trends : TrendAnalysis,
    analyzeTrends sqrtMicro analytics
      [readingAt 0 12; readingAt 30.001 12; readingAt 0 13] weekly = Return trends
    /\ calculateMealResponse analytics
         [readingAt 0 12; readingAt 30.001 12; readingAt 0 13] == 30.001
    /\ mealResponse trends == 30.
Proof. eexists. split; [reflexivity|]. split; reflexivity. Qed.

(** Outside the whole numbers the test of the loop is not the comparison of
    arithmetic.  The number 50.2 of binary64 is more than 30 above the
    number 20.2 of binary64, and for the code it is not a spike: the sum
    20.2 + 30 is rounded to 50.2. *)
Example spike_test_binary64 :
  (Number_of_Q 20.2 + 30 <? Number_of_Q 50.2)%float = false
  /\ Binary64.calculateMealResponse analytics64
       (map toBinary64 [readingAt 20.2 12; readingAt 50.2 12; readingAt 20 13])
     = 0%float.
Proof. split; vm_compute; reflexivity. Qed.

(** A tie.  Forty spikes that total 1287 have mean 32.175: the field
    [mealResponse] is 32.17 in binary64. *)
Example meal_response_tie_binary64 :
  (Binary64.Math_round (1287 / 40 * 100) / 100 = 32.17)%float
  /\ round2 (1287 / 40) == 32.18.
Proof. split; [vm_compute; reflexivity | now vm_compute]. Qed.

(** On whole numbers the two embeddings count the same spikes: a spike of
    40, then spikes of 31 and 91. *)
Example meal_response_whole_numbers_binary64 :
  Binary64.calculateMealResponse analytics64
    (map toBinary64 [readingAt 100 12; readingAt 140 12; readingAt 120 13])
  = 40%float
  /\ Binary64.calculateMealResponse analytics64
       (map toBinary64 [readingAt 100 12; readingAt 131 12; readingAt 100 13;
                        readingAt 191 13; readingAt 100 14])
     = 61%float.
Proof. split; vm_compute; reflexivity. Qed.

(** ** Insights *)

(** The list [generateInsights] returns, sentence by sentence. *)
Lemma generateInsights_nonempty (Math_sqrt : Q -> Q)
    (this : GlucoseAnalytics) (readings : list GlucoseReading) :
  readings <> [] ->
  exists stats : GlucoseStats,
    calculateGlucoseStats Math_sqrt this readings = Return stats
    /\ generateInsights Math_sqrt this readings
       = Return
           [ (if Qgeb (timeInRange stats) 70 then
                "Excellent glucose control - time in range above 70%"
              else if Qgeb (timeInRange stats) 50 then
                "Good glucose control - consider optimizing to reach 70% time in range"
              else
                "Glucose control needs improvement - focus on reducing time above/below range");
             (if num_leb (coefficientOfVariation stats) (Finite 33) then
                "Low glucose variability - excellent stability"
              else if num_leb (coefficientOfVariation stats) (Finite 36) then
                "Moderate glucose variability - room for improvement"
              else
                "High glucose variability - consider strategies to improve stability");
             (if Qltb (gmi stats) 7.0 then
                "GMI indicates excellent glucose management"
              else if Qltb (gmi stats) 8.0 then
                "GMI indicates good glucose management with room for improvement"
              else
                "GMI suggests glucose management needs significant improvement") ].
Proof.
  intros Hne.
  destruct (calculateGlucoseStats_returns Math_sqrt this readings Hne)
    as [stats Hstats].
  destruct (analyzeTrends_returns Math_sqrt this readings weekly Hne)
    as [trends Htrends].
  exists stats. split; [exact Hstats|].
  unfold generateInsights. rewrite Hstats, Htrends. cbn [bind].
  destruct (Qgeb (timeInRange stats) 70), (Qgeb (timeInRange stats) 50),
    (num_leb (coefficientOfVariation stats) (Finite 33)),
    (num_leb (coefficientOfVariation stats) (Finite 36)),
    (Qltb (gmi stats) 7.0), (Qltb (gmi stats) 8.0); reflexivity.
Qed.

(** C8. For every non-empty list of readings [generateInsights] returns
    exactly three sentences, in the order time in range, variability,
    management indicator, each chosen by the bucket of the corresponding
    field of the statistics: time in range >= 70 excellent, >= 50 good, else
    needs improvement; coefficient of variation <= 33 low, <= 36 moderate,
    else high; management indicator < 7.0 excellent, < 8.0 good, else needs
    improvement. *)
Theorem generateInsights_three_sentences (Math_sqrt : Q -> Q)
    (this : GlucoseAnalytics) (readings : list GlucoseReading) :
  readings <> [] ->
  exists (stats : GlucoseStats) (s1 s2 s3 : string),
    calculateGlucoseStats Math_sqrt this readings = Return stats
    /\ generateInsights Math_sqrt this readings = Return [s1; s2; s3]
    /\ timeInRangeSentence (timeInRange stats) s1
    /\ variabilitySentence (coefficientOfVariation stats) s2
    /\ gmiSentence (gmi stats) s3.
Proof.
  intros Hne.
  destruct (generateInsights_nonempty Math_sqrt this readings Hne)
    as (stats & Hstats & Hinsights).
  exists stats. do 3 eexists.
  split; [exact Hstats|]. split; [exact Hinsights|].
  split; [|split].
  - unfold timeInRangeSentence.
    destruct (Qgeb (timeInRange stats) 70) eqn:E70;
      [apply Qgeb_ge in E70 | apply Qgeb_lt in E70];
      (destruct (Qgeb (timeInRange stats) 50) eqn:E50;
        [apply Qgeb_ge in E50 | apply Qgeb_lt in E50]);
      repeat split; intros; try reflexivity; exfalso; lra.
  - unfold variabilitySentence.
    destruct (coefficientOfVariation stats) as [c| | |]; try reflexivity.
    cbn [num_leb].
    destruct (Qleb c 33) eqn:E33;
      [apply Qleb_le in E33 | apply Qleb_gt in E33];
      (destruct (Qleb c 36) eqn:E36;
        [apply Qleb_le in E36 | apply Qleb_gt in E36]);
      repeat split; intros; try reflexivity; exfalso; lra.
  - unfold gmiSentence.
    destruct (Qltb (gmi stats) 7.0) eqn:E7;
      [apply Qltb_lt in E7 | apply Qltb_ge in E7];
      (destruct (Qltb (gmi stats) 8.0) eqn:E8;
        [apply Qltb_lt in E8 | apply Qltb_ge in E8]);
      repeat split; intros; try reflexivity; exfalso; lra.
Qed.

Lemma generateInsights_three_sentences_witness :
  exists (stats : GlucoseStats) (s1 s2 s3 : string),
    calculateGlucoseStats sqrtMicro analytics
      [readingAt 40 9; readingAt 400 13; readingAt 100 18] = Return stats
    /\ generateInsights sqrtMicro analytics
         [readingAt 40 9; readingAt 400 13; readingAt 100 18]
       = Return [s1; s2; s3]
    /\ timeInRangeSentence (timeInRange stats) s1
    /\ variabilitySentence (coefficientOfVariation stats) s2
    /\ gmiSentence (gmi stats) s3.
Proof.
  apply (generateInsights_three_sentences sqrtMicro analytics
           [readingAt 40 9; readingAt 400 13; readingAt 100 18]).
  discriminate.
Defined.

(** The extreme values of the test suite: a third of the time in range, a
    coefficient of 87.49 and an indicator of 7.62. *)
Example insights_extreme_values :
  generateInsights sqrtMicro analytics
    [readingAt 40 9; readingAt 400 13; readingAt 100 18]
  = Return
      ["Glucose control needs improvement - focus on reducing time above/below range";
       "High glucose variability - consider strategies to improve stability";
       "GMI indicates good glucose management with room for improvement"].
Proof. reflexivity. Qed.

(** A steady series in range: the first bucket of each metric. *)
Example insights_steady :
  generateInsights sqrtMicro analytics
    [readingAt 100 9; readingAt 110 13; readingAt 105 18]
  = Return
      ["Excellent glucose control - time in range above 70%";
       "Low glucose variability - excellent stability";
       "GMI indicates excellent glucose management"].
Proof. reflexivity. Qed.

(** On the empty list [generateInsights] throws what [calculateGlucoseStats]
    throws. *)
Example insights_empty :
  generateInsights sqrtMicro analytics []
  = Throw (mkError "No glucose readings provided for analysis").
Proof. reflexivity. Qed.

(** ** Determinism and absence of mutation *)

Lemma sbind_ret {A B : Type} (m : State A) (k : A -> State B) (h h' : heap) (a : A) :
  m h = (Return a, h') -> sbind m k h = k a h'.
Proof. intros E. unfold sbind. now rewrite E. Qed.

Lemma Array_length_readings (a : ref) (rs : list GlucoseReading) (h : heap) :
  h !! a = Some (ReadingArray rs) -> Array_length a h = (Return (Qlength rs), h).
Proof. intros E. unfold Array_length. now rewrite E. Qed.

Lemma Array_length_numbers (a : ref) (xs : list Q) (h : heap) :
  h !! a = Some (NumberArray xs) -> Array_length a h = (Return (Qlength xs), h).
Proof. intros E. unfold Array_length. now rewrite E. Qed.

Lemma Array_map_run (f : GlucoseReading -> Q) (a : ref)
    (rs : list GlucoseReading) (h : heap) :
  h !! a = Some (ReadingArray rs) ->
  Array_map f a h = (Return (length h), h ++ [NumberArray (map f rs)]).
Proof. intros E. unfold Array_map, sbind, readingsAt. now rewrite E. Qed.

Lemma Array_filter_run (p : GlucoseReading -> bool) (a : ref)
    (rs : list GlucoseReading) (h : heap) :
  h !! a = Some (ReadingArray rs) ->
  Array_filter p a h = (Return (length h), h ++ [ReadingArray (List.filter p rs)]).
Proof. intros E. unfold Array_filter, sbind, readingsAt. now rewrite E. Qed.

Lemma Array_reduce_run (f : Q -> Q -> Q) (init : Q) (a : ref)
    (xs : list Q) (h : heap) :
  h !! a = Some (NumberArray xs) ->
  Array_reduce f init a h = (Return (fold_left f xs init), h).
Proof. intros E. unfold Array_reduce, sbind, numbersAt. now rewrite E. Qed.

(** An allocation leaves the objects of the heap where they are, and the new
    object is at the reference returned. *)
Lemma lookup_old (h h1 : heap) (a : ref) (o : object) :
  h !! a = Some o -> (h ++ h1) !! a = Some o.
Proof. intros E. now apply lookup_app_l_Some. Qed.

Lemma lookup_new (h : heap) (o : object) : (h ++ [o]) !! length h = Some o.
Proof. rewrite lookup_app_r by lia. now rewrite Nat.sub_diag. Qed.

(** One call of an array method, at a reference the heap is known to hold. *)
Ltac heap_lookup :=
  solve [ eassumption | apply lookup_new | apply lookup_old; heap_lookup ].

Ltac heap_step :=
  erewrite sbind_ret by
    first [ eapply Array_length_readings; heap_lookup
          | eapply Array_length_numbers; heap_lookup
          | eapply Array_map_run; heap_lookup
          | eapply Array_filter_run; heap_lookup
          | eapply Array_reduce_run; heap_lookup ].

(** On the heap the method computes what [calculateGlucoseStats] computes
    from the elements of the array, and the heap it leaves is the heap it
    found followed by the arrays it allocated. *)
Lemma calculateGlucoseStats_heap_run (Math_sqrt : Q -> Q)
    (this : GlucoseAnalytics) (a : ref) (rs : list GlucoseReading) (h : heap) :
  h !! a = Some (ReadingArray rs) ->
  exists h1 : heap,
    calculateGlucoseStats_heap Math_sqrt this a h
    = (calculateGlucoseStats Math_sqrt this rs, h ++ h1).
Proof.
  intros Ha. unfold calculateGlucoseStats_heap, calculateGlucoseStats.
  heap_step.
  destruct rs as [|r rs].
  - exists []. now rewrite app_nil_r.
  - set (readings := r :: rs) in *.
    assert (Hn : Qeq_bool (Qlength readings) 0 = false).
    { apply Qeq_bool_false. intros E.
      assert (Hpos : 0 < Qlength readings) by (apply Qlength_pos; discriminate).
      lra. }
    rewrite Hn. change (Nat.eqb (length readings) 0) with false. cbv iota.
    repeat heap_step.
    unfold ret. eexists. f_equal. rewrite <- !app_assoc. reflexivity.
Qed.

(** C9. [calculateGlucoseStats] is deterministic and leaves its input alone:
    called twice in a row on the same array of readings, with the same
    target range, it returns the same result both times, a function of the
    elements of the array and of the configuration only; after each call the
    array holds the readings it held, and every object of the heap is
    unchanged, the calls having only allocated new arrays. *)
Theorem calculateGlucoseStats_deterministic_mutation_free (Math_sqrt : Q -> Q)
    (this : GlucoseAnalytics) (a : ref) (rs : list GlucoseReading) (h : heap) :
  h !! a = Some (ReadingArray rs) ->
  exists h1 h2 : heap,
    calculateGlucoseStats_heap Math_sqrt this a h
    = (calculateGlucoseStats Math_sqrt this rs, h ++ h1)
    /\ calculateGlucoseStats_heap Math_sqrt this a (h ++ h1)
       = (calculateGlucoseStats Math_sqrt this rs, (h ++ h1) ++ h2)
    /\ fst (calculateGlucoseStats_heap Math_sqrt this a h)
       = fst (calculateGlucoseStats_heap Math_sqrt this a
                (snd (calculateGlucoseStats_heap Math_sqrt this a h)))
    /\ (h ++ h1) !! a = Some (ReadingArray rs)
    /\ ((h ++ h1) ++ h2) !! a = Some (ReadingArray rs)
    /\ (forall (b : ref) (o : object), h !! b = Some o ->
          (h ++ h1) !! b = Some o /\ ((h ++ h1) ++ h2) !! b = Some o).
Proof.
  intros Ha.
  destruct (calculateGlucoseStats_heap_run Math_sqrt this a rs h Ha) as [h1 E1].
  pose proof (lookup_old h h1 a _ Ha) as Ha1.
  destruct (calculateGlucoseStats_heap_run Math_sqrt this a rs (h ++ h1) Ha1)
    as [h2 E2].
  exists h1, h2. split; [exact E1|]. split; [exact E2|].
  split; [rewrite E1; simpl; now rewrite E2|].
  split; [exact Ha1|]. split; [now apply lookup_old|].
  intros b o Hb. split; [now apply lookup_old|].
  apply lookup_old. now apply lookup_old.
Qed.

Lemma calculateGlucoseStats_deterministic_mutation_free_witness :
  exists h1 h2 : heap,
    calculateGlucoseStats_heap sqrtMicro analytics 1%nat
      [NumberArray [1; 2];
       ReadingArray [readingAt 40 9; readingAt 400 13; readingAt 100 18]]
    = (calculateGlucoseStats sqrtMicro analytics
         [readingAt 40 9; readingAt 400 13; readingAt 100 18],
       [NumberArray [1; 2];
        ReadingArray [readingAt 40 9; readingAt 400 13; readingAt 100 18]] ++ h1)
    /\ calculateGlucoseStats_heap sqrtMicro analytics 1%nat
         ([NumberArray [1; 2];
           ReadingArray [readingAt 40 9; readingAt 400 13; readingAt 100 18]] ++ h1)
       = (calculateGlucoseStats sqrtMicro analytics
            [readingAt 40 9; readingAt 400 13; readingAt 100 18],
          ([NumberArray [1; 2];
            ReadingArray [readingAt 40 9; readingAt 400 13; readingAt 100 18]]
           ++ h1) ++ h2).
Proof.
  destruct (calculateGlucoseStats_deterministic_mutation_free sqrtMicro analytics
              1%nat [readingAt 40 9; readingAt 400 13; readingAt 100 18]
              [NumberArray [1; 2];
               ReadingArray [readingAt 40 9; readingAt 400 13; readingAt 100 18]])
    as (h1 & h2 & E1 & E2 & _).
  - reflexivity.
  - exists h1, h2. split; [exact E1 | exact E2].
Defined.

(** The heap after a call on the extreme values of the test suite: the two
    objects it held, then the array of the values and the three arrays of
    the filters. *)
Example heap_after_call :
  snd (calculateGlucoseStats_heap sqrtMicro analytics 1%nat
         [NumberArray [1; 2];
          ReadingArray [readingAt 40 9; readingAt 400 13; readingAt 100 18]])
  = [NumberArray [1; 2];
     ReadingArray [readingAt 40 9; readingAt 400 13; readingAt 100 18];
     NumberArray [40; 400; 100];
     ReadingArray [readingAt 100 18];
     ReadingArray [readingAt 40 9];
     ReadingArray [readingAt 400 13]].
Proof. reflexivity. Qed.

(** * Further properties of the analytics *)

(** ** Hypoglycemic episodes *)

Lemma isBelow_not_recovered (this : GlucoseAnalytics) (r : GlucoseReading) :
  isBelow this r = true -> isRecovered this r = false.
Proof.
  unfold isBelow, isRecovered. rewrite Qltb_lt, Qgtb_le. intros H. lra.
Qed.

Lemma hypoStep_cases (this : GlucoseAnalytics) (episodes : nat)
    (inEpisode : bool) (r : GlucoseReading) :
  hypoStep this (episodes, inEpisode) r
  = if isBelow this r then
      ((if inEpisode then episodes else S episodes), true)
    else if isRecovered this r then (episodes, false)
    else (episodes, inEpisode).
Proof.
  unfold hypoStep, isBelow, isRecovered.
  destruct (Qltb _ _); [destruct inEpisode; reflexivity|].
  destruct (Qgtb _ _); reflexivity.
Qed.

(** The loop of [detectHypoglycemicEpisodes] from any state: the runs of
    readings below the range are counted, the first one only when no episode
    is open. *)
Lemma hypoStep_fold (this : GlucoseAnalytics) (readings : list GlucoseReading)
    (episodes : nat) (inEpisode : bool) :
  fst (fold_left (hypoStep this) readings (episodes, inEpisode))
  = match runLengths (hypoFlags this readings) with
    | [] => episodes
    | n :: ns =>
        (episodes + (if negb inEpisode && Nat.ltb 0 n then 1 else 0)
         + length (List.filter (Nat.ltb 0) ns))%nat
    end.
Proof.
  revert episodes inEpisode.
  induction readings as [|r rs IH]; intros e b.
  - cbn. destruct b; cbn; lia.
  - cbn [fold_left]. rewrite hypoStep_cases. unfold hypoFlags.
    cbn [List.filter].
    destruct (isBelow this r) eqn:Eb.
    + rewrite IH. cbn [orb map]. rewrite Eb. cbn [runLengths].
      fold (hypoFlags this rs).
      pose proof (runLengths_nonempty (hypoFlags this rs)) as Hne.
      destruct (runLengths (hypoFlags this rs)) as [|n ns]; [congruence|].
      destruct b; cbn [negb andb Nat.ltb Nat.leb]; lia.
    + destruct (isRecovered this r) eqn:Er.
      * rewrite IH. cbn [orb map]. rewrite Eb. cbn [runLengths].
        fold (hypoFlags this rs).
        pose proof (runLengths_nonempty (hypoFlags this rs)) as Hne.
        destruct (runLengths (hypoFlags this rs)) as [|n ns]; [congruence|].
        rewrite Bool.andb_false_r. cbn [List.filter negb andb].
        destruct (Nat.ltb 0 n); cbn [length]; lia.
      * rewrite IH. cbn [orb]. fold (hypoFlags this rs). reflexivity.
Qed.

Lemma detectHypoglycemicEpisodes_runs (this : GlucoseAnalytics)
    (readings : list GlucoseReading) :
  detectHypoglycemicEpisodes this readings = positiveRuns (hypoFlags this readings).
Proof.
  unfold detectHypoglycemicEpisodes, positiveRuns. rewrite hypoStep_fold.
  pose proof (runLengths_nonempty (hypoFlags this readings)) as Hne.
  destruct (runLengths (hypoFlags this readings)) as [|n ns]; [congruence|].
  cbn [negb andb List.filter]. destruct (Nat.ltb 0 n); cbn [length]; lia.
Qed.

Lemma hypoFlags_app (this : GlucoseAnalytics) (l1 l2 : list GlucoseReading) :
  hypoFlags this (l1 ++ l2) = hypoFlags this l1 ++ hypoFlags this l2.
Proof. unfold hypoFlags. now rewrite List.filter_app, map_app. Qed.

Lemma positiveRuns_pos (flags : list bool) :
  (0 < positiveRuns flags)%nat <-> In true flags.
Proof.
  unfold positiveRuns. induction flags as [|[|] flags IH].
  - cbn. split; [lia | intros []].
  - cbn [runLengths].
    pose proof (runLengths_nonempty flags) as Hne.
    destruct (runLengths flags) as [|n ns]; [congruence|].
    cbn. split; [intros _; now left | lia].
  - cbn [runLengths List.filter Nat.ltb Nat.leb]. rewrite IH.
    split; [intros H; now right | intros [H|H]; [discriminate | exact H]].
Qed.

Lemma positiveRuns_le (flags : list bool) :
  (positiveRuns flags <= length (List.filter (fun b => b) flags))%nat.
Proof.
  unfold positiveRuns. induction flags as [|[|] flags IH].
  - cbn. lia.
  - cbn [runLengths List.filter].
    pose proof (runLengths_nonempty flags) as Hne.
    destruct (runLengths flags) as [|n ns]; [congruence|].
    cbn [List.filter length] in *. cbn [Nat.ltb Nat.leb].
    destruct (Nat.ltb 0 n); cbn [length] in *; lia.
  - cbn [runLengths List.filter Nat.ltb Nat.leb]. exact IH.
Qed.

Lemma hypoFlags_count (this : GlucoseAnalytics) (readings : list GlucoseReading) :
  length (List.filter (fun b => b) (hypoFlags this readings))
  = length (List.filter (isBelow this) readings).
Proof.
  unfold hypoFlags. induction readings as [|r rs IH]; [reflexivity|].
  cbn [List.filter]. destruct (isBelow this r) eqn:Eb.
  - cbn [orb map List.filter]. rewrite Eb. cbn [length]. now rewrite IH.
  - destruct (isRecovered this r); cbn [orb map List.filter]; [rewrite Eb|];
      exact IH.
Qed.

Lemma hypoFlags_In (this : GlucoseAnalytics) (readings : list GlucoseReading) :
  In true (hypoFlags this readings)
  <-> exists r, In r readings
        /\ value r < target_low (ranges (config this)).
Proof.
  unfold hypoFlags. rewrite in_map_iff. split.
  - intros (r & Hb & Hin). apply filter_In in Hin. exists r.
    split; [tauto|]. now apply Qltb_lt.
  - intros (r & Hin & Hlt). apply Qltb_lt in Hlt. exists r.
    split; [exact Hlt|]. apply filter_In. split; [exact Hin|].
    unfold isBelow. now rewrite Hlt.
Qed.

(** X1. [detectHypoglycemicEpisodes] counts the maximal runs of readings
    below the low bound, once the readings inside the band of 10 above the
    bound (low <= value <= low + 10) are left out: such a reading neither
    opens nor closes an episode, wherever it stands. *)
Theorem hypoglycemic_episodes_count_runs (this : GlucoseAnalytics)
    (readings : list GlucoseReading) :
  detectHypoglycemicEpisodes this readings = positiveRuns (hypoFlags this readings)
  /\ (forall l1 r l2, readings = l1 ++ r :: l2 ->
        target_low (ranges (config this)) <= value r ->
        value r <= target_low (ranges (config this)) + 10 ->
        detectHypoglycemicEpisodes this readings
        = detectHypoglycemicEpisodes this (l1 ++ l2)).
Proof.
  split; [apply detectHypoglycemicEpisodes_runs|].
  intros l1 r l2 -> Hlo Hhi.
  rewrite !detectHypoglycemicEpisodes_runs, !hypoFlags_app.
  assert (E : hypoFlags this (r :: l2) = hypoFlags this l2).
  { unfold hypoFlags. cbn [List.filter].
    assert (Eb : isBelow this r = false) by now apply Qltb_ge.
    assert (Er : isRecovered this r = false) by now apply Qgtb_le.
    now rewrite Eb, Er. }
  now rewrite E.
Qed.

Lemma hypoglycemic_episodes_count_runs_witness :
  detectHypoglycemicEpisodes analytics
    [readingAt 65 2; readingAt 75 2; readingAt 68 3; readingAt 90 3; readingAt 60 4]
  = detectHypoglycemicEpisodes analytics
      [readingAt 65 2; readingAt 68 3; readingAt 90 3; readingAt 60 4]
  /\ detectHypoglycemicEpisodes analytics
       [readingAt 65 2; readingAt 75 2; readingAt 68 3; readingAt 90 3; readingAt 60 4]
     = 2%nat.
Proof.
  split.
  - apply (hypoglycemic_episodes_count_runs analytics
             [readingAt 65 2; readingAt 75 2; readingAt 68 3; readingAt 90 3;
              readingAt 60 4])
      with (l1 := [readingAt 65 2]) (r := readingAt 75 2)
           (l2 := [readingAt 68 3; readingAt 90 3; readingAt 60 4]).
    + reflexivity.
    + now vm_compute.
    + now vm_compute.
  - reflexivity.
Defined.

(** X2. [detectHypoglycemicEpisodes] reports at least one episode exactly
    when some reading is below the low bound, and never more episodes than
    there are readings below the bound. *)
Theorem hypoglycemic_episodes_positive (this : GlucoseAnalytics)
    (readings : list GlucoseReading) :
  ((0 < detectHypoglycemicEpisodes this readings)%nat
   <-> exists r, In r readings /\ value r < target_low (ranges (config this)))
  /\ (detectHypoglycemicEpisodes this readings
      <= length (List.filter (fun r =>
           Qltb (value r) (target_low (ranges (config this)))) readings))%nat.
Proof.
  rewrite detectHypoglycemicEpisodes_runs. split.
  - rewrite positiveRuns_pos. apply hypoFlags_In.
  - etransitivity; [apply positiveRuns_le|]. now rewrite hypoFlags_count.
Qed.

(** ** Overnight stability *)

Lemma filter_idempotent {A : Type} (p : A -> bool) (xs : list A) :
  List.filter p (List.filter p xs) = List.filter p xs.
Proof.
  induction xs as [|x xs IH]; [reflexivity|]. cbn [List.filter].
  destruct (p x) eqn:E; [|exact IH]. cbn [List.filter]. now rewrite E, IH.
Qed.

Lemma calculateOvernightStability_unfold (Math_sqrt : Q -> Q)
    (this : GlucoseAnalytics) (readings : list GlucoseReading) :
  calculateOvernightStability Math_sqrt this readings
  = if Nat.ltb (length (List.filter isOvernight readings)) 2 then 0
    else Math_sqrt (reducedVariance (map value (List.filter isOvernight readings))).
Proof. reflexivity. Qed.

(** X3. [calculateOvernightStability] looks at the readings of the night only
    (local hour 23 or later, or 6 or earlier): the other readings can be
    removed without changing the result.  With fewer than two readings of the
    night the result is 0; otherwise it is the square root of the population
    variance of their values. *)
Theorem overnight_stability_night_only (Math_sqrt : Q -> Q)
    (this : GlucoseAnalytics) (readings : list GlucoseReading) :
  Proper (Qeq ==> Qeq) Math_sqrt ->
  calculateOvernightStability Math_sqrt this readings
  = calculateOvernightStability Math_sqrt this (List.filter isOvernight readings)
  /\ ((length (List.filter isOvernight readings) < 2)%nat ->
      calculateOvernightStability Math_sqrt this readings = 0)
  /\ ((2 <= length (List.filter isOvernight readings))%nat ->
      calculateOvernightStability Math_sqrt this readings
      == Math_sqrt (populationVariance
                      (map value (List.filter isOvernight readings)))).
Proof.
  intros Hproper. rewrite !calculateOvernightStability_unfold, filter_idempotent.
  split; [reflexivity|]. split; intros Hlen.
  - apply Nat.ltb_lt in Hlen. now rewrite Hlen.
  - apply Nat.ltb_ge in Hlen. rewrite Hlen.
    now rewrite reducedVariance_populationVariance.
Qed.

Lemma overnight_stability_night_only_witness :
  calculateOvernightStability sqrtMicro analytics
    [readingAt 100 23; readingAt 250 12; readingAt 110 2; readingAt 40 15;
     readingAt 90 6]
  = calculateOvernightStability sqrtMicro analytics
      [readingAt 100 23; readingAt 110 2; readingAt 90 6]
  /\ calculateOvernightStability sqrtMicro analytics
       [readingAt 100 23; readingAt 250 12; readingAt 40 15] = 0.
Proof.
  destruct (overnight_stability_night_only sqrtMicro analytics
              [readingAt 100 23; readingAt 250 12; readingAt 110 2;
               readingAt 40 15; readingAt 90 6] sqrtMicro_proper)
    as (Hnight & _ & _).
  destruct (overnight_stability_night_only sqrtMicro analytics
              [readingAt 100 23; readingAt 250 12; readingAt 40 15]
              sqrtMicro_proper) as (_ & Hfew & _).
  split; [exact Hnight|]. apply Hfew. cbn. lia.
Defined.

(** The fields and the patterns of a report. *)
Lemma analyzeTrends_report (Math_sqrt : Q -> Q) (this : GlucoseAnalytics)
    (readings : list GlucoseReading) (period : Period) :
  readings <> [] ->
  exists trends : TrendAnalysis,
    analyzeTrends Math_sqrt this readings period = Return trends
    /\ dawnPhenomenon trends = detectDawnPhenomenon this readings
    /\ mealResponse trends
       = Math_round (calculateMealResponse this readings * 100) / 100
    /\ overnightStability trends
       = Math_round (calculateOvernightStability Math_sqrt this readings * 100) / 100
    /\ patterns trends
       = (if detectDawnPhenomenon this readings
          then ["Dawn phenomenon detected - glucose rises in early morning hours"]
          else [])
         ++ (if Qgtb (calculateMealResponse this readings) 50
             then ["High postprandial glucose response detected"]
             else if Qltb (calculateMealResponse this readings) 20
             then ["Good postprandial glucose control"]
             else [])
         ++ (if Qltb (calculateOvernightStability Math_sqrt this readings) 10
             then ["Excellent overnight glucose stability"]
             else if Qgtb (calculateOvernightStability Math_sqrt this readings) 30
             then ["High overnight glucose variability"]
             else [])
         ++ (if Nat.ltb 0 (detectHypoglycemicEpisodes this readings)
             then [(toString (detectHypoglycemicEpisodes this readings)
                    ++ " hypoglycemic episode(s) detected")%string]
             else [])
         ++ (if Nat.ltb 0 (detectHyperglycemicPeriods this readings)
             then [(toString (detectHyperglycemicPeriods this readings)
                    ++ " extended hyperglycemic period(s) detected")%string]
             else []).
Proof.
  intros Hne.
  destruct (analyzeTrends_patterns Math_sqrt this readings period Hne)
    as (trends & Hret & Hpat & Hmeal).
  exists trends. split; [exact Hret|].
  unfold analyzeTrends in Hret. rewrite (length_zero_eqb _ Hne) in Hret.
  injection Hret as <-. cbn [dawnPhenomenon mealResponse overnightStability].
  repeat split. exact Hpat.
Qed.

(** X4. A night without data reads as a stable night: when fewer than two
    readings fall in the night (hour 23 or later, or 6 or earlier), the
    report of [analyzeTrends] has [overnightStability] 0 and the pattern
    "Excellent overnight glucose stability". *)
Theorem few_overnight_readings_reported_excellent (Math_sqrt : Q -> Q)
    (this : GlucoseAnalytics) (readings : list GlucoseReading) (period : Period) :
  readings <> [] ->
  (length (List.filter isOvernight readings) < 2)%nat ->
  exists trends : TrendAnalysis,
    analyzeTrends Math_sqrt this readings period = Return trends
    /\ overnightStability trends == 0
    /\ In "Excellent overnight glucose stability" (patterns trends).
Proof.
  intros Hne Hfew.
  destruct (analyzeTrends_report Math_sqrt this readings period Hne)
    as (trends & Hret & _ & _ & Hnight & Hpat).
  exists trends. split; [exact Hret|].
  assert (E : calculateOvernightStability Math_sqrt this readings = 0).
  { rewrite calculateOvernightStability_unfold.
    apply Nat.ltb_lt in Hfew. now rewrite Hfew. }
  rewrite Hnight, Hpat, E. split; [reflexivity|].
  rewrite !in_app_iff. right. right. left. now left.
Qed.

Lemma few_overnight_readings_reported_excellent_witness :
  exists trends : TrendAnalysis,
    analyzeTrends sqrtMicro analytics
      [readingAt 60 10; readingAt 300 13; readingAt 100 18] daily = Return trends
    /\ overnightStability trends == 0
    /\ In "Excellent overnight glucose stability" (patterns trends).
Proof.
  apply (few_overnight_readings_reported_excellent sqrtMicro analytics
           [readingAt 60 10; readingAt 300 13; readingAt 100 18] daily).
  - discriminate.
  - cbn. lia.
Defined.

(** ** The patterns of a report *)

Lemma string_length_append (s t : string) :
  String.length (s ++ t) = (String.length s + String.length t)%nat.
Proof.
  induction s as [|c s IH]; [reflexivity|].
  change (S (String.length (s ++ t)) = S (String.length s + String.length t)).
  now rewrite IH.
Qed.

Lemma lastChars_append (n : nat) (s t : string) :
  (n <= String.length t)%nat -> lastChars n (s ++ t) = lastChars n t.
Proof.
  intros Hn. unfold lastChars. induction s as [|c s IH]; [reflexivity|].
  change (String c s ++ t)%string with (String c (s ++ t)).
  cbn [String.length].
  pose proof (string_length_append s t) as Hlen.
  replace (S (String.length (s ++ t)) - n)%nat
    with (S (String.length (s ++ t) - n)) by lia.
  cbn [substring]. exact IH.
Qed.

(** The thirteen last characters tell the patterns apart. *)
Ltac pattern_clash H :=
  apply (f_equal (lastChars 13)) in H;
  rewrite ?lastChars_append in H by (cbn; lia);
  vm_compute in H; discriminate H.

Ltac bucket H :=
  repeat match type of H with
  | In _ (if ?b then _ else _) => destruct b
  | In _ [] => destruct H
  | In _ (_ :: _) => destruct H as [H|H]
  end.

(** X5. The patterns of a report agree with its detections: the pattern of
    the dawn phenomenon is listed exactly when the field [dawnPhenomenon] is
    true, a pattern "... hypoglycemic episode(s) detected" is listed exactly
    when some reading is below the low bound, and a pattern "... extended
    hyperglycemic period(s) detected" exactly when the readings have a run of
    at least six consecutive values above the high bound. *)
Theorem patterns_reflect_detections (Math_sqrt : Q -> Q)
    (this : GlucoseAnalytics) (readings : list GlucoseReading) (period : Period) :
  readings <> [] ->
  exists trends : TrendAnalysis,
    analyzeTrends Math_sqrt this readings period = Return trends
    /\ (In "Dawn phenomenon detected - glucose rises in early morning hours"
          (patterns trends)
        <-> dawnPhenomenon trends = true)
    /\ ((exists s : string,
           In (s ++ " hypoglycemic episode(s) detected")%string (patterns trends))
        <-> exists r, In r readings /\ value r < target_low (ranges (config this)))
    /\ ((exists s : string,
           In (s ++ " extended hyperglycemic period(s) detected")%string
             (patterns trends))
        <-> (0 < extendedRuns (map (isAbove this) readings))%nat).
Proof.
  intros Hne.
  destruct (analyzeTrends_report Math_sqrt this readings period Hne)
    as (trends & Hret & Hdawn & _ & _ & Hpat).
  exists trends. split; [exact Hret|]. rewrite Hpat, Hdawn. clear Hpat Hdawn Hret.
  assert (Ehyper : detectHyperglycemicPeriods this readings
                   = extendedRuns (map (isAbove this) readings)).
  { unfold detectHyperglycemicPeriods, extendedRuns.
    rewrite (hyperStep_fold this readings 0 0). simpl Nat.add.
    pose proof (runLengths_nonempty (map (isAbove this) readings)) as Hr.
    now destruct (runLengths (map (isAbove this) readings)). }
  assert (Ehypo : (0 < detectHypoglycemicEpisodes this readings)%nat
                  <-> exists r, In r readings
                        /\ value r < target_low (ranges (config this))).
  { rewrite detectHypoglycemicEpisodes_runs, positiveRuns_pos.
    apply hypoFlags_In. }
  rewrite <- Ehypo, <- Ehyper. clear Ehypo Ehyper.
  split; [|split].
  - rewrite !in_app_iff. split.
    + intros [H | [H | [H | [H | H]]]].
      * destruct (detectDawnPhenomenon this readings); [reflexivity | destruct H].
      * bucket H; pattern_clash H.
      * bucket H; pattern_clash H.
      * bucket H; pattern_clash H.
      * bucket H; pattern_clash H.
    + intros ->. left. now left.
  - split.
    + intros [s H]. rewrite !in_app_iff in H.
      destruct H as [H | [H | [H | [H | H]]]].
      * bucket H; pattern_clash H.
      * bucket H; pattern_clash H.
      * bucket H; pattern_clash H.
      * destruct (Nat.ltb 0 (detectHypoglycemicEpisodes this readings)) eqn:E;
          [now apply Nat.ltb_lt in E | destruct H].
      * bucket H; pattern_clash H.
    + intros Hpos. apply Nat.ltb_lt in Hpos.
      exists (toString (detectHypoglycemicEpisodes this readings)).
      rewrite !in_app_iff. do 3 right. left. rewrite Hpos. now left.
  - split.
    + intros [s H]. rewrite !in_app_iff in H.
      destruct H as [H | [H | [H | [H | H]]]].
      * bucket H; pattern_clash H.
      * bucket H; pattern_clash H.
      * bucket H; pattern_clash H.
      * bucket H; pattern_clash H.
      * destruct (Nat.ltb 0 (detectHyperglycemicPeriods this readings)) eqn:E;
          [now apply Nat.ltb_lt in E | destruct H].
    + intros Hpos. apply Nat.ltb_lt in Hpos.
      exists (toString (detectHyperglycemicPeriods this readings)).
      rewrite !in_app_iff. do 4 right. rewrite Hpos. now left.
Qed.

Lemma patterns_reflect_detections_witness :
  exists trends : TrendAnalysis,
    analyzeTrends sqrtMicro analytics
      [readingAt 60 10; readingAt 300 13; readingAt 100 18] daily = Return trends
    /\ exists s : string,
         In (s ++ " hypoglycemic episode(s) detected")%string (patterns trends).
Proof.
  destruct (patterns_reflect_detections sqrtMicro analytics
              [readingAt 60 10; readingAt 300 13; readingAt 100 18] daily)
    as (trends & Hret & _ & Hhypo & _).
  - discriminate.
  - exists trends. split; [exact Hret|]. apply Hhypo.
    exists (readingAt 60 10). split; [now left | now vm_compute].
Defined.

Ltac in_cases :=
  repeat match goal with
  | H : In _ [] |- _ => destruct H
  | H : In _ (_ :: _) |- _ => destruct H as [H|H]
  | H : False |- _ => destruct H
  | H : @eq string ?x ?x |- _ => clear H
  | H : @eq string _ _ |- _ => pattern_clash H
  end.

(** A list of distinct literals has no duplicate. *)
Ltac nodup_literals :=
  repeat (constructor; [cbn [In]; intros H;
    repeat (destruct H as [H|H]; [discriminate H|]); exact H|]);
  constructor.

(** X6. The patterns of a report are pairwise distinct and at most five; a
    report never has both postprandial patterns, nor both overnight
    patterns. *)
Theorem patterns_distinct_at_most_five (Math_sqrt : Q -> Q)
    (this : GlucoseAnalytics) (readings : list GlucoseReading) (period : Period) :
  readings <> [] ->
  exists trends : TrendAnalysis,
    analyzeTrends Math_sqrt this readings period = Return trends
    /\ List.NoDup (patterns trends)
    /\ (length (patterns trends) <= 5)%nat
    /\ ~ (In "High postprandial glucose response detected" (patterns trends)
          /\ In "Good postprandial glucose control" (patterns trends))
    /\ ~ (In "Excellent overnight glucose stability" (patterns trends)
          /\ In "High overnight glucose variability" (patterns trends)).
Proof.
  intros Hne.
  destruct (analyzeTrends_report Math_sqrt this readings period Hne)
    as (trends & Hret & _ & _ & _ & Hpat).
  exists trends. split; [exact Hret|]. rewrite Hpat. clear Hpat Hret.
  split; [|split; [|split]].
  - apply (NoDup_map_inv (lastChars 13)).
    rewrite !map_app.
    destruct (detectDawnPhenomenon this readings);
      (destruct (Qgtb (calculateMealResponse this readings) 50);
        [|destruct (Qltb (calculateMealResponse this readings) 20)]);
      (destruct (Qltb (calculateOvernightStability Math_sqrt this readings) 10);
        [|destruct (Qgtb (calculateOvernightStability Math_sqrt this readings) 30)]);
      destruct (Nat.ltb 0 (detectHypoglycemicEpisodes this readings)),
        (Nat.ltb 0 (detectHyperglycemicPeriods this readings));
      cbn [map app];
      rewrite ?lastChars_append by (cbn; lia);
      vm_compute; nodup_literals.
  - rewrite !length_app.
    destruct (detectDawnPhenomenon this readings),
      (Qgtb (calculateMealResponse this readings) 50),
      (Qltb (calculateMealResponse this readings) 20),
      (Qltb (calculateOvernightStability Math_sqrt this readings) 10),
      (Qgtb (calculateOvernightStability Math_sqrt this readings) 30),
      (Nat.ltb 0 (detectHypoglycemicEpisodes this readings)),
      (Nat.ltb 0 (detectHyperglycemicPeriods this readings)); cbn [length]; lia.
  - rewrite !in_app_iff.
    intros [[H | [H | [H | [H | H]]]] [H' | [H' | [H' | [H' | H']]]]];
      bucket H; bucket H'; first [pattern_clash H | pattern_clash H'].
  - rewrite !in_app_iff.
    intros [[H | [H | [H | [H | H]]]] [H' | [H' | [H' | [H' | H']]]]];
      bucket H; bucket H'; first [pattern_clash H | pattern_clash H'].
Qed.

Lemma patterns_distinct_at_most_five_witness :
  exists trends : TrendAnalysis,
    analyzeTrends sqrtMicro analytics
      [readingAt 60 10; readingAt 300 13; readingAt 100 18] daily = Return trends
    /\ List.NoDup (patterns trends)
    /\ (length (patterns trends) <= 5)%nat.
Proof.
  destruct (patterns_distinct_at_most_five sqrtMicro analytics
              [readingAt 60 10; readingAt 300 13; readingAt 100 18] daily)
    as (trends & Hret & Hnodup & Hlen & _).
  - discriminate.
  - exists trends. split; [exact Hret|]. split; assumption.
Defined.

(** * Further properties of the statistics *)

Lemma round2_le (x y : Q) : x <= y -> round2 x <= round2 y.
Proof.
  intros Hxy. unfold round2.
  assert (H : (Qfloor (100 * x + (1 # 2)) <= Qfloor (100 * y + (1 # 2)))%Z).
  { apply Qfloor_resp_le. lra. }
  rewrite Zle_Qle in H.
  unfold Qdiv. apply Qmult_le_compat_r; [exact H | discriminate].
Qed.

Lemma round2_integer (k : Z) : round2 (inject_Z k) == inject_Z k.
Proof.
  assert (E : inject_Z k == inject_Z (100 * k) / 100).
  { rewrite inject_Z_mult. field. }
  rewrite E at 1. rewrite round2_hundredth. symmetry. exact E.
Qed.

Lemma Qlength_filter_le {A : Type} (p : A -> bool) (xs : list A) :
  0 <= Qlength (List.filter p xs) <= Qlength xs.
Proof.
  unfold Qlength. pose proof (List.filter_length_le p xs) as H.
  change 0 with (inject_Z 0). rewrite <- !Zle_Qle. lia.
Qed.

Lemma percentage_bounds (c n : Q) :
  0 < n -> 0 <= c <= n ->
  0 <= Math_round (c / n * 100 * 100) / 100 <= 100.
Proof.
  intros Hn [Hc0 Hcn]. rewrite Math_round_round2.
  assert (H0 : 0 <= c / n * 100).
  { apply Qmult_le_0_compat; [|lra]. apply Qle_shift_div_l; lra. }
  assert (H1 : c / n * 100 <= 100).
  { assert (c / n <= 1) by (apply Qle_shift_div_r; lra). lra. }
  split.
  - rewrite <- (round2_integer 0). now apply round2_le.
  - rewrite <- (round2_integer 100) at 2. now apply round2_le.
Qed.

(** X7. On a non-empty list each of the three percentages returned by
    [calculateGlucoseStats] lies between 0 and 100, whatever the target
    bounds. *)
Theorem percentages_between_0_and_100 (Math_sqrt : Q -> Q)
    (this : GlucoseAnalytics) (readings : list GlucoseReading) :
  readings <> [] ->
  exists stats : GlucoseStats,
    calculateGlucoseStats Math_sqrt this readings = Return stats
    /\ 0 <= timeInRange stats <= 100
    /\ 0 <= timeBelowRange stats <= 100
    /\ 0 <= timeAboveRange stats <= 100.
Proof.
  intros Hne. unfold calculateGlucoseStats. rewrite (length_zero_eqb _ Hne).
  eexists. split; [reflexivity|].
  cbn [timeInRange timeBelowRange timeAboveRange].
  pose proof (Qlength_pos readings Hne) as Hn.
  repeat split; apply percentage_bounds; try exact Hn; apply Qlength_filter_le.
Qed.

Lemma percentages_between_0_and_100_witness :
  exists stats : GlucoseStats,
    calculateGlucoseStats sqrtMicro analytics
      [readingAt 40 9; readingAt 400 13; readingAt 100 18] = Return stats
    /\ 0 <= timeInRange stats <= 100
    /\ 0 <= timeBelowRange stats <= 100
    /\ 0 <= timeAboveRange stats <= 100.
Proof.
  apply (percentages_between_0_and_100 sqrtMicro analytics
           [readingAt 40 9; readingAt 400 13; readingAt 100 18]).
  discriminate.
Defined.

Lemma Qsum_bounds (a b : Q) (xs : list Q) :
  (forall x, In x xs -> a <= x <= b) ->
  Qlength xs * a <= Qsum xs <= Qlength xs * b.
Proof.
  induction xs as [|x xs IH]; intros H.
  - change (Qlength (@nil Q)) with 0. change (Qsum []) with 0. lra.
  - assert (Hx : a <= x <= b) by (apply H; now left).
    assert (Hxs : Qlength xs * a <= Qsum xs <= Qlength xs * b).
    { apply IH. intros y Hy. apply H. now right. }
    unfold Qlength in *. cbn [length Qsum]. rewrite inject_Z_S. lra.
Qed.

Lemma mean_bounds (a b : Q) (xs : list Q) :
  xs <> [] -> (forall x, In x xs -> a <= x <= b) -> a <= mean xs <= b.
Proof.
  intros Hne H. pose proof (Qlength_pos xs Hne) as Hn.
  destruct (Qsum_bounds a b xs H) as [H1 H2]. unfold mean. split.
  - apply Qle_shift_div_l; [exact Hn | lra].
  - apply Qle_shift_div_r; [exact Hn | lra].
Qed.

(** X8. The average and the management indicator stay within the readings:
    when every value lies between [a] and [b], the average returned lies
    between [a] and [b] rounded to two decimals, and the indicator between
    3.31 + 0.02392 * a and 3.31 + 0.02392 * b rounded to two decimals. *)
Theorem average_within_values (Math_sqrt : Q -> Q)
    (this : GlucoseAnalytics) (readings : list GlucoseReading) (a b : Q) :
  readings <> [] ->
  (forall r, In r readings -> a <= value r <= b) ->
  exists stats : GlucoseStats,
    calculateGlucoseStats Math_sqrt this readings = Return stats
    /\ round2 a <= average stats <= round2 b
    /\ round2 (3.31 + 0.02392 * a) <= gmi stats <= round2 (3.31 + 0.02392 * b).
Proof.
  intros Hne Hall.
  destruct (calculateGlucoseStats_nonempty Math_sqrt this readings Hne)
    as (stats & Hret & Havg & Hgmi & _).
  exists stats. split; [exact Hret|].
  assert (Hmean : a <= mean (map value readings) <= b).
  { apply mean_bounds.
    - destruct readings; [congruence | discriminate].
    - intros x Hx. apply in_map_iff in Hx. destruct Hx as (r & <- & Hr).
      now apply Hall. }
  rewrite Havg, Hgmi, !Math_round_round2, !reducedMean_mean.
  repeat split; apply round2_le; lra.
Qed.

Lemma average_within_values_witness :
  exists stats : GlucoseStats,
    calculateGlucoseStats sqrtMicro analytics
      [readingAt 40 9; readingAt 400 13; readingAt 100 18] = Return stats
    /\ round2 40 <= average stats <= round2 400
    /\ round2 (3.31 + 0.02392 * 40) <= gmi stats <= round2 (3.31 + 0.02392 * 400).
Proof.
  apply (average_within_values sqrtMicro analytics
           [readingAt 40 9; readingAt 400 13; readingAt 100 18] 40 400).
  - discriminate.
  - intros r [<- | [<- | [<- | []]]]; now vm_compute.
Defined.

Lemma Qsum_constant (v : Q) (xs : list Q) :
  (forall x, In x xs -> x == v) -> Qsum xs == Qlength xs * v.
Proof.
  induction xs as [|x xs IH]; intros H.
  - change (Qlength (@nil Q)) with 0. change (Qsum []) with 0. lra.
  - assert (Hx : x == v) by (apply H; now left).
    assert (Hxs : Qsum xs == Qlength xs * v).
    { apply IH. intros y Hy. apply H. now right. }
    unfold Qlength in *. cbn [length Qsum]. rewrite inject_Z_S. lra.
Qed.

Lemma Qsum_zero (f : Q -> Q) (xs : list Q) :
  (forall x, In x xs -> f x == 0) -> Qsum (map f xs) == 0.
Proof.
  induction xs as [|x xs IH]; intros H; [reflexivity|].
  cbn [map Qsum]. rewrite (H x) by now left.
  rewrite IH; [lra|]. intros y Hy. apply H. now right.
Qed.

Lemma Qsum_nonneg (f : Q -> Q) (xs : list Q) :
  (forall x, 0 <= f x) -> 0 <= Qsum (map f xs).
Proof.
  intros H. induction xs as [|x xs IH]; [cbn; lra|].
  cbn [map Qsum]. specialize (H x). lra.
Qed.

(** X9. A flat trace has no variability: when all the readings have the same
    value [v], the average returned is [v] rounded to two decimals and the
    standard deviation is 0; when moreover [v] is not zero the coefficient
    of variation is 0.  [Math.sqrt] is any function on numbers that sends 0
    to 0. *)
Theorem constant_readings_no_variability (Math_sqrt : Q -> Q)
    (this : GlucoseAnalytics) (readings : list GlucoseReading) (v : Q) :
  Proper (Qeq ==> Qeq) Math_sqrt ->
  Math_sqrt 0 == 0 ->
  readings <> [] ->
  (forall r, In r readings -> value r == v) ->
  exists stats : GlucoseStats,
    calculateGlucoseStats Math_sqrt this readings = Return stats
    /\ average stats == round2 v
    /\ standardDeviation stats == 0
    /\ (~ v == 0 ->
        exists c : Q, coefficientOfVariation stats = Finite c /\ c == 0).
Proof.
  intros Hproper Hsqrt0 Hne Hall.
  destruct (calculateGlucoseStats_nonempty Math_sqrt this readings Hne)
    as (stats & Hret & Havg & _ & Hsd & Hcv).
  exists stats. split; [exact Hret|].
  assert (Hvals : forall x, In x (map value readings) -> x == v).
  { intros x Hx. apply in_map_iff in Hx. destruct Hx as (r & <- & Hr).
    now apply Hall. }
  assert (Hn : 0 < Qlength (map value readings)).
  { apply Qlength_pos. destruct readings; [congruence | discriminate]. }
  assert (Hmean : mean (map value readings) == v).
  { unfold mean. rewrite (Qsum_constant v _ Hvals). field. lra. }
  assert (Hvar : populationVariance (map value readings) == 0).
  { unfold populationVariance. rewrite Qsum_zero; [field; lra|].
    intros x Hx. rewrite (Hvals x Hx), Hmean. ring. }
  assert (Esd : Math_sqrt (reducedVariance (map value readings)) == 0).
  { now rewrite reducedVariance_populationVariance, Hvar. }
  split; [|split].
  - now rewrite Havg, Math_round_round2, reducedMean_mean, Hmean.
  - rewrite Hsd, Math_round_round2, Esd. reflexivity.
  - intros Hv.
    assert (Hnz : ~ reducedMean (map value readings) == 0).
    { now rewrite reducedMean_mean, Hmean. }
    destruct (coefficient_finite (Math_sqrt (reducedVariance (map value readings)))
                (reducedMean (map value readings)) Hnz) as (c & Hc & Ec).
    exists c. split; [now rewrite Hcv|].
    rewrite Ec, Esd.
    assert (Z0 : 100 * 0 / reducedMean (map value readings) == 0)
      by (field; exact Hnz).
    rewrite Z0. reflexivity.
Qed.

Lemma constant_readings_no_variability_witness :
  exists stats : GlucoseStats,
    calculateGlucoseStats sqrtMicro analytics
      [readingAt 112 1; readingAt 112 2; readingAt 112 3] = Return stats
    /\ average stats == round2 112
    /\ standardDeviation stats == 0
    /\ (~ 112 == 0 ->
        exists c : Q, coefficientOfVariation stats = Finite c /\ c == 0).
Proof.
  apply (constant_readings_no_variability sqrtMicro analytics
           [readingAt 112 1; readingAt 112 2; readingAt 112 3] 112
           sqrtMicro_proper sqrtMicro_0).
  - discriminate.
  - intros r [<- | [<- | [<- | []]]]; reflexivity.
Defined.

(** X10. With a square root that is never negative, the standard deviation
    returned is never negative, and when all the values are positive the
    coefficient of variation is a finite number that is not negative. *)
Theorem variability_not_negative (Math_sqrt : Q -> Q)
    (this : GlucoseAnalytics) (readings : list GlucoseReading) :
  (forall q, 0 <= Math_sqrt q) ->
  readings <> [] ->
  exists stats : GlucoseStats,
    calculateGlucoseStats Math_sqrt this readings = Return stats
    /\ 0 <= standardDeviation stats
    /\ ((forall r, In r readings -> 0 < value r) ->
        exists c : Q, coefficientOfVariation stats = Finite c /\ 0 <= c).
Proof.
  intros Hsqrt Hne.
  destruct (calculateGlucoseStats_nonempty Math_sqrt this readings Hne)
    as (stats & Hret & _ & _ & Hsd & Hcv).
  exists stats. split; [exact Hret|]. split.
  - rewrite Hsd, Math_round_round2, <- (round2_integer 0).
    apply round2_le, Hsqrt.
  - intros Hpos.
    set (sd := Math_sqrt (reducedVariance (map value readings))) in *.
    set (avg := reducedMean (map value readings)) in *.
    assert (Hn : 0 < Qlength (map value readings)).
    { apply Qlength_pos. destruct readings; [congruence | discriminate]. }
    assert (Havg : 0 < avg).
    { subst avg. rewrite reducedMean_mean. unfold mean.
      apply Qlt_shift_div_l; [exact Hn|]. rewrite Qmult_0_l.
      clear -Hpos Hne. induction readings as [|r rs IH]; [congruence|].
      cbn [map Qsum]. assert (0 < value r) by (apply Hpos; now left).
      destruct rs as [|r' rs]; [cbn; lra|].
      assert (0 < Qsum (map value (r' :: rs))).
      { apply IH; [discriminate|]. intros x Hx. apply Hpos. now right. }
      lra. }
    assert (Hnz : ~ avg == 0) by lra.
    destruct (coefficient_finite sd avg Hnz) as (c & Hc & Ec).
    exists c. split; [now rewrite Hcv|].
    rewrite Ec, <- (round2_integer 0). apply round2_le.
    apply Qle_shift_div_l; [exact Havg|].
    specialize (Hsqrt (reducedVariance (map value readings))).
    fold sd in Hsqrt. change (inject_Z 0) with 0. lra.
Qed.

Lemma sqrtMicro_nonneg (q : Q) : 0 <= sqrtMicro q.
Proof.
  unfold sqrtMicro. apply Qle_shift_div_l; [reflexivity|].
  rewrite Qmult_0_l. change 0 with (inject_Z 0). rewrite <- Zle_Qle.
  apply Z.sqrt_nonneg.
Qed.

Lemma variability_not_negative_witness :
  exists stats : GlucoseStats,
    calculateGlucoseStats sqrtMicro analytics
      [readingAt 40 9; readingAt 400 13; readingAt 100 18] = Return stats
    /\ 0 <= standardDeviation stats
    /\ exists c : Q, coefficientOfVariation stats = Finite c /\ 0 <= c.
Proof.
  destruct (variability_not_negative sqrtMicro analytics
              [readingAt 40 9; readingAt 400 13; readingAt 100 18]
              sqrtMicro_nonneg) as (stats & Hret & Hsd & Hcv).
  - discriminate.
  - exists stats. split; [exact Hret|]. split; [exact Hsd|].
    apply Hcv. intros r [<- | [<- | [<- | []]]]; reflexivity.
Defined.

Lemma filter_all {A : Type} (p : A -> bool) (xs : list A) :
  (forall x, In x xs -> p x = true) -> List.filter p xs = xs.
Proof.
  induction xs as [|x xs IH]; intros H; [reflexivity|].
  cbn [List.filter]. rewrite (H x) by now left.
  f_equal. apply IH. intros y Hy. apply H. now right.
Qed.

Lemma filter_none {A : Type} (p : A -> bool) (xs : list A) :
  (forall x, In x xs -> p x = false) -> List.filter p xs = [].
Proof. apply filter_nil_iff. Qed.

(** X11. When every reading lies within the target range, bounds included,
    the time in range returned is 100 and the times below and above are 0. *)
Theorem all_in_range_is_100 (Math_sqrt : Q -> Q)
    (this : GlucoseAnalytics) (readings : list GlucoseReading) :
  readings <> [] ->
  (forall r, In r readings ->
     target_low (ranges (config this)) <= value r
     <= target_high (ranges (config this))) ->
  exists stats : GlucoseStats,
    calculateGlucoseStats Math_sqrt this readings = Return stats
    /\ timeInRange stats == 100
    /\ timeBelowRange stats == 0
    /\ timeAboveRange stats == 0.
Proof.
  intros Hne Hall. unfold calculateGlucoseStats. rewrite (length_zero_eqb _ Hne).
  eexists. split; [reflexivity|].
  cbn [timeInRange timeBelowRange timeAboveRange].
  pose proof (Qlength_pos readings Hne) as Hn.
  rewrite filter_all, !filter_none.
  - change (Qlength (@nil GlucoseReading)) with 0.
    rewrite !Math_round_round2.
    assert (E1 : Qlength readings / Qlength readings * 100 == inject_Z 100)
      by (field; lra).
    assert (E0 : 0 / Qlength readings * 100 == inject_Z 0) by (field; lra).
    rewrite E1, E0, !round2_integer. repeat split; reflexivity.
  - intros r Hr. apply Qgtb_le. now apply Hall.
  - intros r Hr. apply Qltb_ge. now apply Hall.
  - intros r Hr. apply Bool.andb_true_iff.
    split; [apply Qgeb_ge | apply Qleb_le]; now apply Hall.
Qed.

Lemma all_in_range_is_100_witness :
  exists stats : GlucoseStats,
    calculateGlucoseStats sqrtMicro analytics
      [readingAt 70 9; readingAt 180 13; readingAt 100 18] = Return stats
    /\ timeInRange stats == 100
    /\ timeBelowRange stats == 0
    /\ timeAboveRange stats == 0.
Proof.
  apply (all_in_range_is_100 sqrtMicro analytics
           [readingAt 70 9; readingAt 180 13; readingAt 100 18]).
  - discriminate.
  - intros r [<- | [<- | [<- | []]]]; now vm_compute.
Defined.

(** * Further properties of the detections *)

(** ** Dawn phenomenon *)

Lemma valuesAtHour_filter (p : GlucoseReading -> bool) (h : nat)
    (readings : list GlucoseReading) :
  (forall r, getHours (timestamp r) = h -> p r = true) ->
  valuesAtHour h (List.filter p readings) = valuesAtHour h readings.
Proof.
  intros Hp. unfold valuesAtHour. f_equal.
  induction readings as [|r rs IH]; [reflexivity|].
  cbn [List.filter].
  destruct (Nat.eqb_spec (getHours (timestamp r)) h) as [E|E].
  - rewrite (Hp r E). cbn [List.filter].
    rewrite (proj2 (Nat.eqb_eq _ _) E). now rewrite IH.
  - destruct (p r); [|exact IH]. cbn [List.filter].
    rewrite (proj2 (Nat.eqb_neq _ _) E). exact IH.
Qed.

(** X12. [detectDawnPhenomenon] looks at the readings of local hours 4, 6 and
    8 only: the readings of every other hour, 5 and 7 included, can be
    removed without changing its answer. *)
Theorem dawn_uses_hours_4_6_8_only (this : GlucoseAnalytics)
    (readings : list GlucoseReading) :
  detectDawnPhenomenon this readings
  = detectDawnPhenomenon this
      (List.filter (fun r =>
         Nat.eqb (getHours (timestamp r)) 4
         || Nat.eqb (getHours (timestamp r)) 6
         || Nat.eqb (getHours (timestamp r)) 8) readings).
Proof.
  rewrite !detectDawnPhenomenon_rule. unfold hourMean.
  rewrite !valuesAtHour_filter; [reflexivity| | |];
    intros r ->; reflexivity.
Qed.

(** X13. An hour without reading counts as a mean of 0: when no reading was
    taken at hour 4, a dawn phenomenon is reported as soon as the readings of
    hour 8 have a mean above 20 or those of hour 6 a mean above 15. *)
Theorem dawn_without_hour_4 (Math_sqrt : Q -> Q) (this : GlucoseAnalytics)
    (readings : list GlucoseReading) (period : Period) :
  readings <> [] ->
  (forall r, In r readings -> getHours (timestamp r) <> 4%nat) ->
  20 < hourMean 8 readings \/ 15 < hourMean 6 readings ->
  exists trends : TrendAnalysis,
    analyzeTrends Math_sqrt this readings period = Return trends
    /\ dawnPhenomenon trends = true.
Proof.
  intros Hne Hno4 Hmeans.
  destruct (analyzeTrends_report Math_sqrt this readings period Hne)
    as (trends & Hret & Hdawn & _).
  exists trends. split; [exact Hret|].
  rewrite Hdawn, detectDawnPhenomenon_rule.
  assert (E4 : hourMean 4 readings = 0).
  { unfold hourMean, valuesAtHour.
    rewrite filter_none; [reflexivity|].
    intros r Hr. apply Nat.eqb_neq. now apply Hno4. }
  rewrite E4. apply Bool.orb_true_iff.
  destruct Hmeans as [H | H]; [left | right]; apply Qgtb_gt; lra.
Qed.

Lemma dawn_without_hour_4_witness :
  exists trends : TrendAnalysis,
    analyzeTrends sqrtMicro analytics
      [readingAt 95 7; readingAt 96 8; readingAt 97 9] weekly = Return trends
    /\ dawnPhenomenon trends = true.
Proof.
  apply (dawn_without_hour_4 sqrtMicro analytics
           [readingAt 95 7; readingAt 96 8; readingAt 97 9] weekly).
  - discriminate.
  - intros r [<- | [<- | [<- | []]]]; discriminate.
  - left. now vm_compute.
Defined.

(** ** Meal response *)

(** X14. A peak is needed for a spike: when the values never decrease from
    one reading to the next, or never increase, [calculateMealResponse] is 0
    and the report of [analyzeTrends] has the pattern "Good postprandial
    glucose control", however fast the values change. *)
Theorem monotone_readings_no_spike (Math_sqrt : Q -> Q) (this : GlucoseAnalytics)
    (readings : list GlucoseReading) (period : Period) :
  readings <> [] ->
  (forall i, (i + 1 < length readings)%nat ->
     valueAt readings i <= valueAt readings (i + 1))
  \/ (forall i, (i + 1 < length readings)%nat ->
        valueAt readings (i + 1) <= valueAt readings i) ->
  calculateMealResponse this readings = 0
  /\ exists trends : TrendAnalysis,
       analyzeTrends Math_sqrt this readings period = Return trends
       /\ In "Good postprandial glucose control" (patterns trends).
Proof.
  intros Hne Hmono.
  assert (Hno : noSpike readings).
  { intros i Hi1 Hi2 [Hprev Hnext]. destruct Hmono as [Hup | Hdown].
    - specialize (Hup i Hi2). lra.
    - specialize (Hdown (i - 1)%nat).
      replace (i - 1 + 1)%nat with i in Hdown by lia.
      assert (valueAt readings i <= valueAt readings (i - 1)) by (apply Hdown; lia).
      lra. }
  assert (E : calculateMealResponse this readings = 0).
  { destruct (calculateMealResponse_cases this readings) as [[E _] | [_ Hsp]];
      [exact E | contradiction]. }
  split; [exact E|].
  destruct (analyzeTrends_report Math_sqrt this readings period Hne)
    as (trends & Hret & _ & _ & _ & Hpat).
  exists trends. split; [exact Hret|].
  rewrite Hpat, E, !in_app_iff. right. left. now left.
Qed.

Lemma monotone_readings_no_spike_witness :
  calculateMealResponse analytics
    [readingAt 80 12; readingAt 150 12; readingAt 260 13] = 0
  /\ exists trends : TrendAnalysis,
       analyzeTrends sqrtMicro analytics
         [readingAt 80 12; readingAt 150 12; readingAt 260 13] weekly
       = Return trends
       /\ In "Good postprandial glucose control" (patterns trends).
Proof.
  apply (monotone_readings_no_spike sqrtMicro analytics
           [readingAt 80 12; readingAt 150 12; readingAt 260 13] weekly).
  - discriminate.
  - left. intros [|[|i]] Hi; cbn in Hi; try lia; now vm_compute.
Defined.

(** ** Hyperglycemic periods *)

Lemma runLengths_sum (flags : list bool) :
  list_sum (runLengths flags) = length (List.filter (fun b => b) flags).
Proof.
  induction flags as [|[|] flags IH]; [reflexivity| |].
  - cbn [runLengths List.filter length]. rewrite <- IH.
    pose proof (runLengths_nonempty flags) as Hne.
    destruct (runLengths flags) as [|n ns]; [congruence|]. cbn. lia.
  - cbn [runLengths List.filter list_sum]. exact IH.
Qed.

Lemma long_runs_sum (ns : list nat) :
  (6 * length (List.filter (Nat.leb 6) ns) <= list_sum ns)%nat.
Proof.
  induction ns as [|n ns IH]; [cbn; lia|].
  cbn [List.filter list_sum fold_right].
  change (fold_right Nat.add 0%nat ns) with (list_sum ns).
  destruct (Nat.leb_spec 6 n); cbn [length]; lia.
Qed.

(** X15. Every period counted by [detectHyperglycemicPeriods] takes six
    readings above the high bound: six times the count never exceeds the
    number of such readings, and the count is 0 as soon as fewer than six
    readings are above the bound. *)
Theorem hyperglycemic_periods_bound (this : GlucoseAnalytics)
    (readings : list GlucoseReading) :
  (6 * detectHyperglycemicPeriods this readings
   <= length (List.filter (fun r =>
        Qgtb (value r) (target_high (ranges (config this)))) readings))%nat
  /\ ((length (List.filter (fun r =>
         Qgtb (value r) (target_high (ranges (config this)))) readings) < 6)%nat ->
      detectHyperglycemicPeriods this readings = 0%nat).
Proof.
  assert (Hbound : (6 * detectHyperglycemicPeriods this readings
                    <= length (List.filter (isAbove this) readings))%nat).
  { unfold detectHyperglycemicPeriods.
    rewrite (hyperStep_fold this readings 0 0). cbn [Nat.add].
    pose proof (runLengths_nonempty (map (isAbove this) readings)) as Hne.
    pose proof (runLengths_sum (map (isAbove this) readings)) as Hsum.
    pose proof (long_runs_sum (runLengths (map (isAbove this) readings))) as Hlong.
    destruct (runLengths (map (isAbove this) readings)) as [|n ns] eqn:E;
      [congruence|].
    cbn [lengthenFirst Nat.add].
    assert (Hcount : length (List.filter (fun b => b) (map (isAbove this) readings))
                     = length (List.filter (isAbove this) readings)).
    { clear. induction readings as [|r rs IH]; [reflexivity|].
      cbn [map List.filter]. destruct (isAbove this r); cbn [length]; now rewrite IH. }
    lia. }
  split; [exact Hbound|]. unfold isAbove in Hbound. intros Hfew. lia.
Qed.

Lemma hyperglycemic_periods_bound_witness :
  detectHyperglycemicPeriods analytics
    [readingAt 200 9; readingAt 210 9; readingAt 100 10; readingAt 220 10;
     readingAt 230 11; readingAt 240 11] = 0%nat.
Proof.
  apply (hyperglycemic_periods_bound analytics
           [readingAt 200 9; readingAt 210 9; readingAt 100 10; readingAt 220 10;
            readingAt 230 11; readingAt 240 11]).
  vm_compute. lia.
Defined.

(** * The configuration manager *)

Lemma truthy_iff (s : string) : truthy s = true <-> s <> EmptyString.
Proof. destruct s; cbn; split; congruence. Qed.

(** X16. [validateConfig] returns no error exactly when the email and the
    password are not empty, the low bound is below the high bound, the low
    bound lies in 50..150 and the high bound in 100..300. *)
Theorem validateConfig_no_error_iff (this : ConfigManager.t) :
  ConfigManager.validateConfig this = []
  <-> email (credentials (ConfigManager.config this)) <> EmptyString
      /\ password (credentials (ConfigManager.config this)) <> EmptyString
      /\ target_low (ranges (ConfigManager.config this))
         < target_high (ranges (ConfigManager.config this))
      /\ 50 <= target_low (ranges (ConfigManager.config this)) <= 150
      /\ 100 <= target_high (ranges (ConfigManager.config this)) <= 300.
Proof.
  unfold ConfigManager.validateConfig, pushIf.
  rewrite <- !truthy_iff.
  set (lo := target_low (ranges (ConfigManager.config this))).
  set (hi := target_high (ranges (ConfigManager.config this))).
  destruct (truthy (email _)), (truthy (password _));
    destruct (Qgeb lo hi) eqn:E1, (Qltb lo 50) eqn:E2, (Qgtb lo 150) eqn:E3,
             (Qltb hi 100) eqn:E4, (Qgtb hi 300) eqn:E5;
    cbn [negb orb app];
    try apply Qgeb_ge in E1; try apply Qgeb_lt in E1;
    try apply Qltb_lt in E2; try apply Qltb_ge in E2;
    try apply Qgtb_gt in E3; try apply Qgtb_le in E3;
    try apply Qltb_lt in E4; try apply Qltb_ge in E4;
    try apply Qgtb_gt in E5; try apply Qgtb_le in E5;
    (split; [intros H; try discriminate H; repeat split; try reflexivity; lra
            | intros (H1 & H2 & H3 & [H4 H5] & [H6 H7]);
              try discriminate; try reflexivity; exfalso; lra]).
Qed.

Lemma validateConfig_sections (this : ConfigManager.t) :
  ConfigManager.validateConfig this
  = (if truthy (email (credentials (ConfigManager.config this)))
     then [] else ["Email is required"])
    ++ (if truthy (password (credentials (ConfigManager.config this)))
        then [] else ["Password is required"])
    ++ (if Qgeb (target_low (ranges (ConfigManager.config this)))
                (target_high (ranges (ConfigManager.config this)))
        then ["Target low must be less than target high"] else [])
    ++ (if Qltb (target_low (ranges (ConfigManager.config this))) 50
           || Qgtb (target_low (ranges (ConfigManager.config this))) 150
        then ["Target low should be between 50-150 mg/dL"] else [])
    ++ (if Qltb (target_high (ranges (ConfigManager.config this))) 100
           || Qgtb (target_high (ranges (ConfigManager.config this))) 300
        then ["Target high should be between 100-300 mg/dL"] else []).
Proof.
  unfold ConfigManager.validateConfig, pushIf.
  destruct (truthy (email _)), (truthy (password _)), (Qgeb _ _),
    (Qltb _ 50 || Qgtb _ 150), (Qltb _ 100 || Qgtb _ 300); reflexivity.
Qed.

(** X17. [isConfigured] holds exactly when [validateConfig] reports neither
    "Email is required" nor "Password is required"; it says nothing of the
    target range, which can be invalid in a configured manager. *)
Theorem isConfigured_iff_credentials_valid (this : ConfigManager.t) :
  ConfigManager.isConfigured this = true
  <-> ~ In "Email is required" (ConfigManager.validateConfig this)
      /\ ~ In "Password is required" (ConfigManager.validateConfig this).
Proof.
  rewrite validateConfig_sections. unfold ConfigManager.isConfigured.
  destruct (truthy (email _)), (truthy (password _)), (Qgeb _ _),
    (Qltb _ 50 || Qgtb _ 150), (Qltb _ 100 || Qgtb _ 300);
    cbn [andb app In]; intuition discriminate.
Qed.

(** X18. [updateRanges] stores the bounds it is given without validating
    them.  When the file is written the manager holds the new bounds, its
    credentials, client and cache settings are untouched, and
    [validateConfig] then reports "Target low must be less than target high"
    exactly when the new low bound is not below the new high bound.  When
    the write fails the call throws and the manager keeps its
    configuration. *)
Theorem updateRanges_stores_unvalidated (targetLow targetHigh : Q)
    (this : ConfigManager.t) :
  (exists this' : ConfigManager.t,
     ConfigManager.updateRanges Written targetLow targetHigh this
     = (Return tt, this')
     /\ ranges (ConfigManager.getConfig this') = mkRanges targetLow targetHigh
     /\ credentials (ConfigManager.getConfig this')
        = credentials (ConfigManager.getConfig this)
     /\ client (ConfigManager.getConfig this')
        = client (ConfigManager.getConfig this)
     /\ cache (ConfigManager.getConfig this')
        = cache (ConfigManager.getConfig this)
     /\ (In "Target low must be less than target high"
           (ConfigManager.validateConfig this')
         <-> targetHigh <= targetLow))
  /\ (forall error : string,
        ConfigManager.updateRanges (Failed error) targetLow targetHigh this
        = (Throw (mkError ("Failed to save config: " ++ error)%string), this)).
Proof.
  split; [|reflexivity].
  eexists. split; [reflexivity|]. repeat (split; [reflexivity|]).
  rewrite validateConfig_sections. cbn [ConfigManager.config ranges target_low target_high].
  destruct (Qgeb targetLow targetHigh) eqn:E;
    [apply Qgeb_ge in E | apply Qgeb_lt in E];
    destruct (truthy (email _)), (truthy (password _)),
      (Qltb _ 50 || Qgtb _ 150), (Qltb _ 100 || Qgtb _ 300);
    cbn [app In]; split; intros H; try lra; intuition discriminate.
Qed.

(** X19. Bounds given in the wrong order are used as they are: once
    [updateRanges] has stored a low bound above the high bound, every reading
    strictly between the two is counted both below and above the range by
    [calculateGlucoseStats], and none in range. *)
Theorem inverted_ranges_count_twice (Math_sqrt : Q -> Q)
    (manager : ConfigManager.t) (targetLow targetHigh : Q)
    (readings : list GlucoseReading) :
  readings <> [] ->
  (forall r, In r readings -> targetHigh < value r < targetLow) ->
  exists stats : GlucoseStats,
    calculateGlucoseStats Math_sqrt
      (mkAnalytics (ConfigManager.getConfig
         (snd (ConfigManager.updateRanges Written targetLow targetHigh manager))))
      readings = Return stats
    /\ timeInRange stats == 0
    /\ timeBelowRange stats == 100
    /\ timeAboveRange stats == 100.
Proof.
  intros Hne Hall. unfold calculateGlucoseStats. rewrite (length_zero_eqb _ Hne).
  eexists. split; [reflexivity|].
  cbn [timeInRange timeBelowRange timeAboveRange ConfigManager.updateRanges
       ConfigManager.saveConfig ConfigManager.getConfig ConfigManager.config
       snd config ranges target_low target_high].
  pose proof (Qlength_pos readings Hne) as Hn.
  rewrite filter_none, !filter_all.
  - change (Qlength (@nil GlucoseReading)) with 0.
    rewrite !Math_round_round2.
    assert (E1 : Qlength readings / Qlength readings * 100 == inject_Z 100)
      by (field; lra).
    assert (E0 : 0 / Qlength readings * 100 == inject_Z 0) by (field; lra).
    rewrite E1, E0, !round2_integer. repeat split; reflexivity.
  - intros r Hr. apply Qgtb_gt. now apply Hall.
  - intros r Hr. apply Qltb_lt. now apply Hall.
  - intros r Hr. apply Bool.andb_false_iff. left. apply Qgeb_lt. now apply Hall.
Qed.

Lemma inverted_ranges_count_twice_witness :
  exists stats : GlucoseStats,
    calculateGlucoseStats sqrtMicro
      (mkAnalytics (ConfigManager.getConfig
         (snd (ConfigManager.updateRanges Written 180 70
                 (ConfigManager.mk DEFAULT_CONFIG)))))
      [readingAt 100 9; readingAt 120 10] = Return stats
    /\ timeInRange stats == 0
    /\ timeBelowRange stats == 100
    /\ timeAboveRange stats == 100.
Proof.
  apply (inverted_ranges_count_twice sqrtMicro (ConfigManager.mk DEFAULT_CONFIG)
           180 70 [readingAt 100 9; readingAt 120 10]).
  - discriminate.
  - intros r [<- | [<- | []]]; now vm_compute.
Defined.

(** * The client *)

(** ** The cache *)

(** X20. With the cache enabled, what [setCachedData] stores under a key at
    time [now] is what [getCachedData] returns for that key at time [now'],
    leaving the client as it is, as long as [now' - now] does not exceed the
    time to live ([ttl_minutes * 60 * 1000] ms); past it, [getCachedData]
    returns nothing and deletes the entry, so that no later call finds it,
    whatever the clock. *)
Theorem cache_round_trip (now now' : Z) (key : string) (data : any)
    (this : LibreLinkClient.t) :
  cacheEnabled (LibreLinkClient.config this) = true ->
  (inject_Z (now' - now) <= cacheTtlMinutes (LibreLinkClient.config this) * 60 * 1000 ->
   LibreLinkClient.getCachedData now' key
     (LibreLinkClient.setCachedData now key data this)
   = (Some data, LibreLinkClient.setCachedData now key data this))
  /\ (cacheTtlMinutes (LibreLinkClient.config this) * 60 * 1000 < inject_Z (now' - now) ->
      fst (LibreLinkClient.getCachedData now' key
             (LibreLinkClient.setCachedData now key data this)) = None
      /\ forall later : Z,
           fst (LibreLinkClient.getCachedData later key
                  (snd (LibreLinkClient.getCachedData now' key
                          (LibreLinkClient.setCachedData now key data this))))
           = None).
Proof.
  intros Hen.
  unfold LibreLinkClient.setCachedData. rewrite Hen.
  unfold LibreLinkClient.getCachedData at 1 2 4.
  cbn [LibreLinkClient.config LibreLinkClient.cache LibreLinkClient.isLoggedIn
       LibreLinkClient.lastReading].
  rewrite Hen, lookup_insert_eq.
  cbn [negb LibreLinkClient.timestamp LibreLinkClient.data].
  split; intros Httl.
  - apply Qgtb_le in Httl. now rewrite Httl.
  - apply Qgtb_gt in Httl. rewrite Httl. cbn [fst snd]. split; [reflexivity|].
    intros later. unfold LibreLinkClient.getCachedData.
    cbn [LibreLinkClient.config LibreLinkClient.cache]. rewrite Hen.
    cbn [negb]. now rewrite lookup_delete_eq.
Qed.

Lemma cache_round_trip_witness :
  LibreLinkClient.getCachedData 1300000 "current_glucose"
    (LibreLinkClient.setCachedData 1000000 "current_glucose"
       (AnyReading (readingAt 100 9)) (LibreLinkClient.new DEFAULT_CONFIG))
  = (Some (AnyReading (readingAt 100 9)),
     LibreLinkClient.setCachedData 1000000 "current_glucose"
       (AnyReading (readingAt 100 9)) (LibreLinkClient.new DEFAULT_CONFIG))
  /\ fst (LibreLinkClient.getCachedData 1300001 "current_glucose"
            (LibreLinkClient.setCachedData 1000000 "current_glucose"
               (AnyReading (readingAt 100 9)) (LibreLinkClient.new DEFAULT_CONFIG)))
     = None.
Proof.
  split.
  - apply (cache_round_trip 1000000 1300000 "current_glucose"
             (AnyReading (readingAt 100 9)) (LibreLinkClient.new DEFAULT_CONFIG));
      now vm_compute.
  - apply (cache_round_trip 1000000 1300001 "current_glucose"
             (AnyReading (readingAt 100 9)) (LibreLinkClient.new DEFAULT_CONFIG));
      now vm_compute.
Defined.

(** X21. A key is on its own in the cache: storing under one key changes
    nothing to what [getCachedData] returns for another. *)
Theorem cache_keys_independent (now now' : Z) (key key' : string) (data : any)
    (this : LibreLinkClient.t) :
  key <> key' ->
  fst (LibreLinkClient.getCachedData now' key'
         (LibreLinkClient.setCachedData now key data this))
  = fst (LibreLinkClient.getCachedData now' key' this).
Proof.
  intros Hne. unfold LibreLinkClient.setCachedData.
  destruct (cacheEnabled (LibreLinkClient.config this)) eqn:Hen; [|reflexivity].
  unfold LibreLinkClient.getCachedData.
  cbn [LibreLinkClient.config LibreLinkClient.cache]. rewrite Hen. cbn [negb].
  rewrite lookup_insert_ne by exact Hne.
  destruct (LibreLinkClient.cache this !! key') as [cached|]; [|reflexivity].
  destruct (Qgtb _ _); reflexivity.
Qed.

Lemma cache_keys_independent_witness :
  fst (LibreLinkClient.getCachedData 1300000 "sensor_info"
         (LibreLinkClient.setCachedData 1000000 "current_glucose"
            (AnyReading (readingAt 100 9)) (LibreLinkClient.new DEFAULT_CONFIG)))
  = fst (LibreLinkClient.getCachedData 1300000 "sensor_info"
           (LibreLinkClient.new DEFAULT_CONFIG)).
Proof.
  apply (cache_keys_independent 1000000 1300000 "current_glucose" "sensor_info").
  discriminate.
Defined.

(** ** Reading the current glucose *)

Lemma mapGlucoseReading_config (this this' : LibreLinkClient.t)
    (libreReading : LibreApi.GlucoseReading) :
  LibreLinkClient.config this = LibreLinkClient.config this' ->
  LibreLinkClient.mapGlucoseReading this libreReading
  = LibreLinkClient.mapGlucoseReading this' libreReading.
Proof. intros E. unfold LibreLinkClient.mapGlucoseReading. now rewrite E. Qed.

Lemma getCachedData_config (now : Z) (key : string) (this : LibreLinkClient.t) :
  LibreLinkClient.config (snd (LibreLinkClient.getCachedData now key this))
  = LibreLinkClient.config this
  /\ LibreLinkClient.isLoggedIn (snd (LibreLinkClient.getCachedData now key this))
     = LibreLinkClient.isLoggedIn this.
Proof.
  unfold LibreLinkClient.getCachedData.
  destruct (negb _); [now split|].
  destruct (LibreLinkClient.cache this !! key); [|now split].
  destruct (Qgtb _ _); now split.
Qed.

(** X22. A reading fetched is served from the cache afterwards.  With the
    cache enabled, when [getCurrentGlucose] finds nothing fresh in the cache,
    the client is logged in or the login succeeds, and the read succeeds, it
    returns the reading mapped from the one read, records it as
    [lastReading] and leaves the client logged in; every later call made
    within the time to live of the moment the reading was stored returns
    that same reading and leaves the client as it is, whatever the upstream
    service would answer. *)
Theorem getCurrentGlucose_then_cached (now now' : Z) (login : outcome unit)
    (libreReading : LibreApi.GlucoseReading) (this : LibreLinkClient.t) :
  cacheEnabled (LibreLinkClient.config this) = true ->
  fst (LibreLinkClient.getCachedData now "current_glucose" this) = None ->
  LibreLinkClient.isLoggedIn this = true \/ login = Resolved tt ->
  exists this' : LibreLinkClient.t,
    LibreLinkClient.getCurrentGlucose now now' login (Resolved libreReading) this
    = (Resolved (AnyReading (LibreLinkClient.mapGlucoseReading this libreReading)),
       this')
    /\ LibreLinkClient.isLoggedIn this' = true
    /\ LibreLinkClient.lastReading this'
       = Some (LibreLinkClient.mapGlucoseReading this libreReading)
    /\ forall (later later' : Z) (login' : outcome unit)
              (read' : outcome LibreApi.GlucoseReading),
         inject_Z (later - now')
         <= cacheTtlMinutes (LibreLinkClient.config this) * 60 * 1000 ->
         LibreLinkClient.getCurrentGlucose later later' login' read' this'
         = (Resolved (AnyReading (LibreLinkClient.mapGlucoseReading this libreReading)),
            this').
Proof.
  intros Hen Hmiss Hlogin.
  unfold LibreLinkClient.getCurrentGlucose at 1.
  destruct (getCachedData_config now "current_glucose" this) as [Hcfg Hlog].
  destruct (LibreLinkClient.getCachedData now "current_glucose" this)
    as [[cached|] this0] eqn:Eget; [discriminate Hmiss|].
  cbn [snd] in Hcfg, Hlog.
  assert (Hens : exists this1,
            LibreLinkClient.ensureLoggedIn login this0 = (Resolved tt, this1)
            /\ LibreLinkClient.config this1 = LibreLinkClient.config this
            /\ LibreLinkClient.isLoggedIn this1 = true).
  { unfold LibreLinkClient.ensureLoggedIn. rewrite Hlog.
    destruct (LibreLinkClient.isLoggedIn this) eqn:El; cbn [negb].
    - exists this0. now rewrite Hlog.
    - destruct Hlogin as [Hl | ->]; [discriminate Hl|].
      eexists. split; [reflexivity|]. cbn. now split. }
  destruct Hens as (this1 & -> & Hcfg1 & Hlog1).
  rewrite (mapGlucoseReading_config this1 this _ Hcfg1).
  set (reading := LibreLinkClient.mapGlucoseReading this libreReading).
  eexists. split; [reflexivity|].
  unfold LibreLinkClient.setCachedData. rewrite Hcfg1, Hen.
  cbn [LibreLinkClient.config LibreLinkClient.isLoggedIn
       LibreLinkClient.lastReading LibreLinkClient.cache].
  split; [exact Hlog1|]. split; [reflexivity|].
  intros later later' login' read' Hfresh.
  unfold LibreLinkClient.getCurrentGlucose, LibreLinkClient.getCachedData.
  cbn [LibreLinkClient.config LibreLinkClient.cache]. rewrite ?Hcfg1, ?Hen.
  cbn [negb]. rewrite lookup_insert_eq.
  cbn [LibreLinkClient.timestamp LibreLinkClient.data].
  apply Qgtb_le in Hfresh. now rewrite Hfresh.
Qed.

Lemma getCurrentGlucose_then_cached_witness :
  exists this' : LibreLinkClient.t,
    LibreLinkClient.getCurrentGlucose 1000000 1000200 (Resolved tt)
      (Resolved (LibreApi.mk 142 (mkDate 9) (Some "Rising")))
      (LibreLinkClient.new DEFAULT_CONFIG)
    = (Resolved (AnyReading (mkReading 142 (mkDate 9) SINGLE_UP false false "green")),
       this')
    /\ LibreLinkClient.getCurrentGlucose 1200000 1200200
         (Rejected (ErrorInstance "offline" None))
         (Rejected (ErrorInstance "offline" None)) this'
       = (Resolved (AnyReading (mkReading 142 (mkDate 9) SINGLE_UP false false "green")),
          this').
Proof.
  destruct (getCurrentGlucose_then_cached 1000000 1000200 (Resolved tt)
              (LibreApi.mk 142 (mkDate 9) (Some "Rising"))
              (LibreLinkClient.new DEFAULT_CONFIG))
    as (this' & Hfirst & _ & _ & Hlater).
  - reflexivity.
  - reflexivity.
  - now right.
  - exists this'. split; [exact Hfirst|].
    apply Hlater. now vm_compute.
Defined.

(** X23. [getCurrentGlucose] fails in two ways only: with the object of code
    AUTH_FAILED, when the client is not logged in and the login fails, or
    with the object of code GLUCOSE_READ_FAILED, when the read fails.  These
    objects are not [Error] instances, so [handleError] answers with the
    message alone: the code is not in its text. *)
Theorem getCurrentGlucose_failures (now now' : Z) (login : outcome unit)
    (read : outcome LibreApi.GlucoseReading) (this this' : LibreLinkClient.t)
    (e : Thrown) :
  LibreLinkClient.getCurrentGlucose now now' login read this = (Rejected e, this') ->
  ((exists cause,
      login = Rejected cause
      /\ LibreLinkClient.isLoggedIn this = false
      /\ e = PlainObject "AUTH_FAILED" "Failed to authenticate with LibreLink"
               (Some cause)
      /\ handleError e = "Error: Failed to authenticate with LibreLink")
   \/ (exists cause,
         read = Rejected cause
         /\ e = PlainObject "GLUCOSE_READ_FAILED" "Failed to read current glucose"
                  (Some cause)
         /\ handleError e = "Error: Failed to read current glucose")).
Proof.
  unfold LibreLinkClient.getCurrentGlucose.
  destruct (getCachedData_config now "current_glucose" this) as [_ Hlog].
  destruct (LibreLinkClient.getCachedData now "current_glucose" this)
    as [[cached|] this0]; [discriminate|].
  cbn [snd] in Hlog. unfold LibreLinkClient.ensureLoggedIn. rewrite Hlog.
  destruct (LibreLinkClient.isLoggedIn this); cbn [negb].
  - destruct read as [libreReading | cause]; [discriminate|].
    intros H. injection H as <- _. right. exists cause. now repeat split.
  - destruct login as [[] | cause].
    + destruct read as [libreReading | cause]; [discriminate|].
      intros H. injection H as <- _. right. exists cause. now repeat split.
    + intros H. injection H as <- _. left. exists cause. now repeat split.
Qed.

Lemma getCurrentGlucose_failures_witness :
  handleError (PlainObject "AUTH_FAILED" "Failed to authenticate with LibreLink"
                 (Some (ErrorInstance "401" None)))
  = "Error: Failed to authenticate with LibreLink".
Proof.
  destruct (getCurrentGlucose_failures 1000000 1000200
              (Rejected (ErrorInstance "401" None))
              (Resolved (LibreApi.mk 142 (mkDate 9) (Some "Rising")))
              (LibreLinkClient.new DEFAULT_CONFIG)
              (LibreLinkClient.new DEFAULT_CONFIG)
              (PlainObject "AUTH_FAILED" "Failed to authenticate with LibreLink"
                 (Some (ErrorInstance "401" None))))
    as [(cause & _ & _ & _ & H) | (cause & Hread & _)].
  - reflexivity.
  - exact H.
  - discriminate Hread.
Defined.

(** X24. [validateConnection] never throws; it answers true exactly when the
    client is logged in or the login succeeds, and the read succeeds.  After
    a true answer the client is logged in, after a false answer it is not,
    so that the next call logs in again; the configuration, the cache and
    the last reading are untouched. *)
Theorem validateConnection_answer (login : outcome unit)
    (read : outcome LibreApi.GlucoseReading) (this : LibreLinkClient.t) :
  (fst (LibreLinkClient.validateConnection login read this) = true
   <-> (LibreLinkClient.isLoggedIn this = true \/ exists u, login = Resolved u)
       /\ exists libreReading, read = Resolved libreReading)
  /\ LibreLinkClient.isLoggedIn (snd (LibreLinkClient.validateConnection login read this))
     = fst (LibreLinkClient.validateConnection login read this)
  /\ LibreLinkClient.config (snd (LibreLinkClient.validateConnection login read this))
     = LibreLinkClient.config this
  /\ LibreLinkClient.cache (snd (LibreLinkClient.validateConnection login read this))
     = LibreLinkClient.cache this
  /\ LibreLinkClient.lastReading
       (snd (LibreLinkClient.validateConnection login read this))
     = LibreLinkClient.lastReading this.
Proof.
  unfold LibreLinkClient.validateConnection, LibreLinkClient.ensureLoggedIn.
  destruct (LibreLinkClient.isLoggedIn this) eqn:El,
    login as [u | cause], read as [libreReading | cause'];
    cbn [negb fst snd LibreLinkClient.isLoggedIn LibreLinkClient.config
         LibreLinkClient.cache LibreLinkClient.lastReading];
    rewrite ?El;
    (split; [|repeat split; reflexivity]);
    (split;
      [ intros H; try discriminate H; split; eauto
      | intros [[H | [u' H]] [l H']]; try discriminate; reflexivity ]).
Qed.

(** ** The flags of the readings *)

Lemma in_range_not_flagged (low high v : Q) :
  Qgeb v low && Qleb v high = negb (Qgtb v high) && negb (Qltb v low).
Proof.
  destruct (Qgeb v low) eqn:E1, (Qleb v high) eqn:E2,
           (Qgtb v high) eqn:E3, (Qltb v low) eqn:E4; try reflexivity;
    try apply Qgeb_ge in E1; try apply Qgeb_lt in E1;
    try apply Qleb_le in E2; try apply Qleb_gt in E2;
    try apply Qgtb_gt in E3; try apply Qgtb_le in E3;
    try apply Qltb_lt in E4; try apply Qltb_ge in E4; lra.
Qed.

(** X25. The flags the client puts on a reading are the classes the
    statistics count: for readings mapped by a client, the analytics built
    on the same configuration return as time above, below and in range the
    percentages of the readings flagged [isHigh], flagged [isLow], and
    flagged neither, each rounded to two decimals, that is, as a hundredth
    at most 0.005 away from the percentage; the colour of a reading is red
    when it is flagged high, orange when it is flagged low only, and green
    otherwise. *)
Theorem flags_match_statistics (Math_sqrt : Q -> Q) (client : LibreLinkClient.t)
    (libreReadings : list LibreApi.GlucoseReading) :
  libreReadings <> [] ->
  exists stats : GlucoseStats,
    calculateGlucoseStats Math_sqrt (mkAnalytics (LibreLinkClient.config client))
      (map (LibreLinkClient.mapGlucoseReading client) libreReadings) = Return stats
    /\ nearestHundredth (timeAboveRange stats)
         (Qlength (List.filter isHigh
            (map (LibreLinkClient.mapGlucoseReading client) libreReadings))
          / Qlength libreReadings * 100)
    /\ nearestHundredth (timeBelowRange stats)
         (Qlength (List.filter isLow
            (map (LibreLinkClient.mapGlucoseReading client) libreReadings))
          / Qlength libreReadings * 100)
    /\ nearestHundredth (timeInRange stats)
         (Qlength (List.filter (fun r => negb (isHigh r) && negb (isLow r))
            (map (LibreLinkClient.mapGlucoseReading client) libreReadings))
          / Qlength libreReadings * 100)
    /\ (forall r,
          In r (map (LibreLinkClient.mapGlucoseReading client) libreReadings) ->
          color r = if isHigh r then "red" else if isLow r then "orange" else "green").
Proof.
  intros Hne.
  set (readings := map (LibreLinkClient.mapGlucoseReading client) libreReadings).
  assert (Hne' : readings <> []).
  { subst readings. destruct libreReadings; [congruence | discriminate]. }
  assert (Hflags : forall r, In r readings ->
            isHigh r = Qgtb (value r)
                         (target_high (ranges (LibreLinkClient.config client)))
            /\ isLow r = Qltb (value r)
                           (target_low (ranges (LibreLinkClient.config client)))
            /\ color r = if isHigh r then "red"
                         else if isLow r then "orange" else "green").
  { intros r Hr. apply in_map_iff in Hr. destruct Hr as (l & <- & _).
    repeat split. }
  unfold calculateGlucoseStats. rewrite (length_zero_eqb _ Hne').
  eexists. split; [reflexivity|].
  cbn [timeInRange timeBelowRange timeAboveRange config].
  assert (Elen : Qlength readings = Qlength libreReadings).
  { unfold Qlength, readings. now rewrite length_map. }
  rewrite Elen.
  rewrite (List.filter_ext_in isHigh
             (fun r => Qgtb (value r)
                (target_high (ranges (LibreLinkClient.config client)))) readings)
    by (intros r Hr; apply (Hflags r Hr)).
  rewrite (List.filter_ext_in isLow
             (fun r => Qltb (value r)
                (target_low (ranges (LibreLinkClient.config client)))) readings)
    by (intros r Hr; apply (Hflags r Hr)).
  rewrite (List.filter_ext_in (fun r => negb (isHigh r) && negb (isLow r))
             (fun r => Qgeb (value r)
                         (target_low (ranges (LibreLinkClient.config client)))
                       && Qleb (value r)
                            (target_high (ranges (LibreLinkClient.config client))))
             readings).
  - repeat (split; [apply nearestHundredth_round2, Math_round_round2|]).
    intros r Hr. apply (Hflags r Hr).
  - intros r Hr. destruct (Hflags r Hr) as (-> & -> & _).
    symmetry. apply in_range_not_flagged.
Qed.

Lemma flags_match_statistics_witness :
  exists stats : GlucoseStats,
    calculateGlucoseStats sqrtMicro
      (mkAnalytics (mkConfig (mkCredentials "a@b.c" "secret")
                      (mkClientInfo "4.12.0" EU) (mkCacheConfig true 5)
                      (mkRanges 70 180)))
      (map (LibreLinkClient.mapGlucoseReading
              (LibreLinkClient.mk
                 (mkConfig (mkCredentials "a@b.c" "secret")
                    (mkClientInfo "4.12.0" EU) (mkCacheConfig true 5)
                    (mkRanges 70 180))
                 true None ∅))
         [LibreApi.mk 60 (mkDate 3) (Some "Falling");
          LibreApi.mk 200 (mkDate 13) None;
          LibreApi.mk 210 (mkDate 14) (Some "RapidlyUp");
          LibreApi.mk 100 (mkDate 18) (Some "stable")]) = Return stats
    /\ nearestHundredth (timeAboveRange stats) 50
    /\ nearestHundredth (timeBelowRange stats) 25
    /\ nearestHundredth (timeInRange stats) 25.
Proof.
  destruct (flags_match_statistics sqrtMicro
              (LibreLinkClient.mk
                 (mkConfig (mkCredentials "a@b.c" "secret")
                    (mkClientInfo "4.12.0" EU) (mkCacheConfig true 5)
                    (mkRanges 70 180))
                 true None ∅)
              [LibreApi.mk 60 (mkDate 3) (Some "Falling");
               LibreApi.mk 200 (mkDate 13) None;
               LibreApi.mk 210 (mkDate 14) (Some "RapidlyUp");
               LibreApi.mk 100 (mkDate 18) (Some "stable")])
    as (stats & Hret & Ha & Hb & Hi & _).
  - discriminate.
  - exists stats. split; [exact Hret|].
    split; [|split].
    + eapply nearestHundredth_proper; [reflexivity | | exact Ha]. reflexivity.
    + eapply nearestHundredth_proper; [reflexivity | | exact Hb]. reflexivity.
    + eapply nearestHundredth_proper; [reflexivity | | exact Hi]. reflexivity.
Defined.

(** A tie.  With 23 readings of 160 below the range the percentage is
    14.375: binary64 returns 14.37, exact arithmetic 14.38, and the three
    percentages returned by binary64 are 85.63, 14.37 and 0. *)
Example percentage_tie_binary64 :
  (exists stats : Binary64.GlucoseStats,
     Binary64.calculateGlucoseStats PrimFloat.sqrt Binary64.square analytics64
       (map toBinary64 tiedPercentage) = Return stats
     /\ Binary64.timeBelowRange stats = 14.37%float
     /\ Binary64.timeInRange stats = 85.63%float
     /\ Binary64.timeAboveRange stats = 0%float)
  /\ (exists stats : GlucoseStats,
        calculateGlucoseStats sqrtMicro analytics tiedPercentage = Return stats
        /\ timeBelowRange stats == 14.38)
  /\ nearestHundredth 14.37 (23 / 160 * 100)
  /\ nearestHundredth 14.38 (23 / 160 * 100).
Proof.
  split; [eexists; repeat split; vm_compute; reflexivity|].
  split; [eexists; split; [reflexivity | now vm_compute]|].
  split; (split; [|apply Qabs_Qle_condition; split; now vm_compute]).
  - now exists 1437%Z.
  - now exists 1438%Z.
Qed.

(** ** The cache switched off *)

(** X26. With the cache disabled every call of [getCurrentGlucose] goes to
    the upstream service, whatever the cache holds: when the client is logged
    in or the login succeeds, the call returns the reading mapped from the
    one just read and leaves the cache as it is, and it fails with the
    object of code GLUCOSE_READ_FAILED when the read fails. *)
Theorem cache_disabled_always_reads (now now' : Z) (login : outcome unit)
    (this : LibreLinkClient.t) :
  cacheEnabled (LibreLinkClient.config this) = false ->
  LibreLinkClient.isLoggedIn this = true \/ login = Resolved tt ->
  (forall libreReading : LibreApi.GlucoseReading,
     exists this' : LibreLinkClient.t,
       LibreLinkClient.getCurrentGlucose now now' login (Resolved libreReading) this
       = (Resolved (AnyReading (LibreLinkClient.mapGlucoseReading this libreReading)),
          this')
       /\ LibreLinkClient.cache this' = LibreLinkClient.cache this
       /\ LibreLinkClient.lastReading this'
          = Some (LibreLinkClient.mapGlucoseReading this libreReading))
  /\ (forall cause : Thrown,
        fst (LibreLinkClient.getCurrentGlucose now now' login (Rejected cause) this)
        = Rejected (PlainObject "GLUCOSE_READ_FAILED"
                      "Failed to read current glucose" (Some cause))).
Proof.
  intros Hen Hlogin.
  unfold LibreLinkClient.getCurrentGlucose, LibreLinkClient.getCachedData,
    LibreLinkClient.ensureLoggedIn, LibreLinkClient.setCachedData.
  rewrite Hen. cbn [negb].
  destruct (LibreLinkClient.isLoggedIn this) eqn:El; cbn [negb].
  - split.
    + intros libreReading. eexists. split; [reflexivity|].
      rewrite Hen. now split.
    + reflexivity.
  - destruct Hlogin as [H | ->]; [discriminate H|]. split.
    + intros libreReading. eexists. split; [reflexivity|].
      cbn [LibreLinkClient.config]. rewrite Hen. now split.
    + reflexivity.
Qed.

Lemma cache_disabled_always_reads_witness :
  fst (LibreLinkClient.getCurrentGlucose 5 6 (Resolved tt)
         (Resolved (LibreApi.mk 142 (mkDate 9) (Some "Rising")))
         (LibreLinkClient.mk
            (mkConfig (mkCredentials "a@b.c" "secret") (mkClientInfo "4.12.0" EU)
               (mkCacheConfig false 5) (mkRanges 70 180))
            true None
            (<["current_glucose" :=
                 LibreLinkClient.mkEntry (AnyReading (readingAt 100 9)) 4]> ∅)))
  = Resolved (AnyReading (mkReading 142 (mkDate 9) SINGLE_UP false false "green")).
Proof.
  destruct (cache_disabled_always_reads 5 6 (Resolved tt)
              (LibreLinkClient.mk
                 (mkConfig (mkCredentials "a@b.c" "secret")
                    (mkClientInfo "4.12.0" EU) (mkCacheConfig false 5)
                    (mkRanges 70 180))
                 true None
                 (<["current_glucose" :=
                      LibreLinkClient.mkEntry (AnyReading (readingAt 100 9)) 4]> ∅)))
    as [Hread _].
  - reflexivity.
  - now left.
  - destruct (Hread (LibreApi.mk 142 (mkDate 9) (Some "Rising")))
      as (this' & E & _).
    now rewrite E.
Defined.
